(** * Agents course examples: memory, metrics and the capstone orchestrator

    A shallow embedding of the Python classes of
    - [Day3_Memory_and_Context/short_term_memory.py] and [long_term_memory.py],
    - [Day4_Agent_Quality_and_Debugging/observability.py],
    - [Capstone_Project/capstone_agent.py] and two tests of [evaluation.py],
    followed by the properties proved about them.

    Conventions.
    - A Python [int] is a [Z]; a Python [float] is a binary64 primitive
      [float]; a [str] is a [string] whose characters are the code points
      below 256 (every literal of the sources is ASCII).
    - A [dict] whose iteration order reaches a prompt is an association list
      in insertion order; the other dicts are [gmap]s.
    - A method that mutates [self] takes the object and returns the new one.
    - What comes from outside the process (the clock, uuid4, the model's
      reply, the outcome of a file write) is an explicit argument.
    - [try]/[except Exception] is written out over [Py.result].  The
      exceptions are those of class [Exception]; an interrupt or an exit of
      the interpreter ends the process and is not a result. *)

From Stdlib Require Import ZArith String Ascii List Bool Lia.
From Stdlib Require Import Floats Uint63.
From stdpp Require Import base option list strings gmap sorting pretty.

Set Warnings "-inexact-float".
Local Open Scope Z_scope.

(* ================================================================== *)
(** * The Python runtime, as far as the sources use it *)
(* ================================================================== *)

Module Py.

(** An exception object: [type(e).__name__] and [str(e)]. *)
Record exception := Exception { exc_type : string; exc_text : string }.

(** The outcome of evaluating an expression or running a block. *)
Inductive result (A : Type) : Type :=
| Returns (a : A)
| Raises (e : exception).
Arguments Returns {A} a.
Arguments Raises {A} e.

(** ** Characters and strings *)

Definition code (c : ascii) : Z := Z.of_N (N_of_ascii c).
Definition chr (z : Z) : ascii := ascii_of_N (Z.to_N z).

Definition between (lo hi : Z) (c : ascii) : bool :=
  (lo <=? code c) && (code c <=? hi).

(** [str.isspace] on one character, and the class [\s] of [re] on [str]
    patterns: both ask [Py_UNICODE_ISSPACE]. *)
Definition isspace (c : ascii) : bool :=
  between 9 13 c || between 28 32 c || (code c =? 133) || (code c =? 160).

Definition isdigit (c : ascii) : bool := between 48 57 c.

(** Case mapping of one code point.  Upper case of U+00B5, U+00DF and U+00FF
    lies outside the modelled range; those three are left as they are. *)
Definition lower_char (c : ascii) : ascii :=
  if between 65 90 c || (between 192 222 c && negb (code c =? 215))
  then chr (code c + 32) else c.

Definition upper_char (c : ascii) : ascii :=
  if between 97 122 c || (between 224 254 c && negb (code c =? 247))
  then chr (code c - 32) else c.

Fixpoint map_chars (f : ascii -> ascii) (s : string) : string :=
  match s with
  | EmptyString => EmptyString
  | String c t => String (f c) (map_chars f t)
  end.

Fixpoint filter_chars (keep : ascii -> bool) (s : string) : string :=
  match s with
  | EmptyString => EmptyString
  | String c t => if keep c then String c (filter_chars keep t) else filter_chars keep t
  end.

(** [s.lower()], [s.upper()], [s.capitalize()], [s[::-1]]. *)
Definition lower (s : string) : string := map_chars lower_char s.
Definition upper (s : string) : string := map_chars upper_char s.
Definition capitalize (s : string) : string :=
  match s with
  | EmptyString => EmptyString
  | String c t => String (upper_char c) (lower t)
  end.
Definition reversed (s : string) : string :=
  string_of_list_ascii (rev (list_ascii_of_string s)).

(** [needle in hay]. *)
Fixpoint contains (needle hay : string) : bool :=
  if String.prefix needle hay then true
  else match hay with
       | EmptyString => false
       | String _ t => contains needle t
       end.

(** [any(kw in s for kw in kws)]. *)
Definition any_in (kws : list string) (s : string) : bool :=
  existsb (fun kw => contains kw s) kws.

(** [sep.join(parts)]. *)
Definition join (sep : string) (parts : list string) : string :=
  String.concat sep parts.

(** [len(s.split())]: the number of maximal runs of non-space characters. *)
Fixpoint count_words_from (in_word : bool) (s : string) : Z :=
  match s with
  | EmptyString => 0
  | String c t =>
      if isspace c then count_words_from false t
      else (if in_word then 0 else 1) + count_words_from true t
  end.
Definition split_len (s : string) : Z := count_words_from false s.

(** [len(s)] and [str(n)] for an [int]. *)
Definition len_str (s : string) : Z := Z.of_nat (String.length s).
Definition str_int (n : Z) : string := pretty n.

(** ** Lists *)

Definition len {A} (l : list A) : Z := Z.of_nat (length l).

(** [l[start:]]: a negative [start] counts from the end and is clamped at the
    front; a non-negative one is clamped at the end. *)
Definition slice_from {A} (start : Z) (l : list A) : list A :=
  let i := if start <? 0 then Z.max (len l + start) 0 else Z.min start (len l) in
  drop (Z.to_nat i) l.

(** The last [k] elements of a list, all of it when it is shorter. *)
Definition last_n {A} (k : nat) (l : list A) : list A := drop (length l - k) l.

(** ** Floats *)

(** [float(n)] for [0 <= |n| < 2^63], the range of a length or a counter. *)
Definition float_of_int (n : Z) : float :=
  if n <? 0 then PrimFloat.opp (of_uint63 (Uint63.of_Z (- n)))
  else of_uint63 (Uint63.of_Z n).

(** [int(x)]: truncation toward zero. *)
Definition int_of_float (x : float) : result Z :=
  match Prim2SF x with
  | S754_zero _ => Returns 0
  | S754_finite s m e =>
      let a := if 0 <=? e then Z.pos m * 2 ^ e else Z.pos m / 2 ^ (- e) in
      Returns (if s then - a else a)
  | S754_infinity _ =>
      Raises (Exception "OverflowError" "cannot convert float infinity to integer")
  | S754_nan =>
      Raises (Exception "ValueError" "cannot convert float NaN to integer")
  end.


(** [x] goes in front of the first entry that is not smaller than it, so it
    stays in front of the entries it compares equal to. *)
Fixpoint insert_sorted (x : float) (l : list float) : list float :=
  match l with
  | [] => [x]
  | y :: rest => if PrimFloat.ltb y x then y :: insert_sorted x rest else x :: l
  end.

(** The stable ascending arrangement: an entry is inserted among the sorted
    entries that followed it, so entries that compare equal ([0.0] and
    [-0.0]) keep the order they came in. *)
Definition stable_sort (l : list float) : list float := foldr insert_sorted [] l.


(** ** Dictionaries in insertion order *)

Fixpoint dict_get {V} (k : string) (d : list (string * V)) : option V :=
  match d with
  | [] => None
  | (k', v) :: rest => if String.eqb k k' then Some v else dict_get k rest
  end.

(** [d[k] = v]: an existing key keeps its place, a new key goes last. *)
Fixpoint dict_set {V} (k : string) (v : V) (d : list (string * V)) : list (string * V) :=
  match d with
  | [] => [(k, v)]
  | (k', v') :: rest =>
      if String.eqb k k' then (k, v) :: rest else (k', v') :: dict_set k v rest
  end.

(** [d[k] += 1] on a [defaultdict(int)]. *)
Definition counter_incr (k : string) (d : gmap string Z) : gmap string Z :=
  <[k := default 0 (d !! k) + 1]> d.

(** [sum(d.values())] *)
Definition counter_total (d : gmap string Z) : Z :=
  map_fold (fun _ v acc => v + acc) 0 d.

(** ** Results *)

#[export] Instance result_ret : MRet result := @Returns.
#[export] Instance result_bind : MBind result := fun A B f r =>
  match r with
  | Returns a => f a
  | Raises e => Raises e
  end.

(** [l[i]]: a negative index counts from the end; outside the list it is an
    [IndexError]. *)
Definition list_index {A} (l : list A) (i : Z) : result A :=
  let j := if i <? 0 then len l + i else i in
  match (if j <? 0 then None else l !! Z.to_nat j) with
  | Some a => Returns a
  | None => Raises (Exception "IndexError" "list index out of range")
  end.

Definition newline : string := String (chr 10) EmptyString.

(** Truthiness of an [Optional[str]]: [None] and the empty string are false. *)
Definition truthy (o : option string) : option string :=
  match o with
  | Some EmptyString => None
  | other => other
  end.

(** ** What the interpreter decides *)

(** Number formatting and the part of [eval] that is not spelled out below
    belong to CPython; the development is parametric in them. *)
Class Runtime := {
  (** [f"{x:.2f}"] and [f"{x:.3f}"] *)
  format_2f : float -> string;
  format_3f : float -> string;
  (** [str(eval(src))], or the exception, for a source outside the
      integer fragment of [eval_arith]; [eval] is taken to finish, with a
      value or with an exception *)
  eval_elsewhere : string -> result string;
  (** [str(e)] of the [SyntaxError] raised for an empty source *)
  syntax_error_text : string -> string;
  (** [sorted(l)] for a list of floats that holds a NaN: [<] is then no
      order, and the arrangement [list.sort] ends with depends on its run
      detection and merge policy; it is a rearrangement of the list *)
  sorted_with_nan : list float -> list float;
  sorted_with_nan_permutation : forall l, sorted_with_nan l ≡ₚ l;
}.

(** [sorted(l)] on floats.  [list.sort] is stable and asks only [<].  Without
    a NaN, [<] is a strict weak order, for which the stable ascending
    arrangement is unique: it is the one [stable_sort] computes.  With a NaN
    the runtime decides. *)
Definition sorted `{Runtime} (l : list float) : list float :=
  if existsb PrimFloat.is_nan l then sorted_with_nan l else stable_sort l.

End Py.

Import Py.

(* ================================================================== *)
(** * The shape of the JSON memory file *)
(* ================================================================== *)

Module Json.

(** One entry of ["users"].  A record read back from a file may lack any of
    its keys. *)
Record user_record := UserRecord {
  preferences : option (list (string * string));
  created_at : option string;
  last_updated : option string;
}.

(** One entry of ["conversations"]. *)
Record conversation := Conversation {
  conv_user_id : string;
  conv_query : string;
  conv_response : string;
  conv_timestamp : string;
}.

(** A store: the whole object, when it has the keys the class that holds it
    reads, ["users"] for the capstone class and ["users"], ["conversations"]
    and ["learned_patterns"] for the class of Day 3.  This is the shape each
    class writes.  The top-level ["preferences"] key is written as [{}] and
    never read. *)
Record memory := Memory {
  users : gmap string user_record;
  conversations : list conversation;
  learned_patterns : gmap string (string * string);
}.

(** A store file: the file at [storage_path] when it is missing, when it
    holds a store, or when reading it raises [e]. *)
Inductive file :=
| Missing
| Holds (m : memory)
| Unreadable (e : exception).

(** What can be at [storage_path]: a store file, or a file that [json.load]
    reads as something that is not a store (another JSON value, or an object
    without one of the keys).  [json.load]'s value is used unchecked, so on
    such a file the object is built and the first [self.memory[key]] on a
    key that is not there raises.  An object over such a file is not a value
    of this development: the objects below are the ones over store files. *)
Inductive on_disk :=
| Store (f : file)
| Foreign.

(** What [open(path, 'w')] followed by [json.dump] does to the file: the dump
    completes, [open] raises and the file is untouched, or the dump raises
    [e] after [open] truncated the file, which leaves a file that raises
    [later] when it is read. *)
Inductive write_outcome :=
| Written
| OpenFails (e : exception)
| DumpFails (e later : exception).

End Json.

(* ================================================================== *)
(** * Day 3: short-term memory *)
(* ================================================================== *)

Module ShortTerm.

Record message := Message {
  role : string;
  content : string;
  timestamp : string;
}.

Record ShortTermMemory := Build {
  max_history : Z;
  conversation_history : list message;
}.

(** [ShortTermMemory(max_history)] *)
Definition new (max_history : Z) : ShortTermMemory :=
  {| max_history := max_history; conversation_history := [] |}.

(** [add_message]; [now] is [datetime.now().isoformat()]. *)
Definition add_message (now role content : string) (self : ShortTermMemory)
  : ShortTermMemory :=
  let history := conversation_history self ++ [Message role content now] in
  {| max_history := max_history self;
     conversation_history :=
       if max_history self * 2 <? len history
       then slice_from (- max_history self * 2) history
       else history |}.

(** [f"{role}: {content}"] with [role = msg["role"].capitalize()]. *)
Definition line (msg : message) : string :=
  capitalize (role msg) +:+ ": " +:+ content msg.

(** [get_context] *)
Definition get_context (self : ShortTermMemory) : string * ShortTermMemory :=
  match conversation_history self with
  | [] => (EmptyString, self)
  | history => (join newline (map line history), self)
  end.

(** [clear] *)
Definition clear (self : ShortTermMemory) : ShortTermMemory :=
  {| max_history := max_history self; conversation_history := [] |}.

(** The slice [self.conversation_history[-num_turns * 2:]]. *)
Definition recent (num_turns : Z) (self : ShortTermMemory) : list message :=
  slice_from (- num_turns * 2) (conversation_history self).

(** [get_recent_context] *)
Definition get_recent_context (num_turns : Z) (self : ShortTermMemory)
  : string * ShortTermMemory :=
  match conversation_history self with
  | [] => (EmptyString, self)
  | _ => (join newline (map line (recent num_turns self)), self)
  end.

(** A run of [add_message] calls, oldest first. *)
Definition add_messages (calls : list message) (self : ShortTermMemory)
  : ShortTermMemory :=
  foldl (fun s m => add_message (timestamp m) (role m) (content m) s) self calls.

End ShortTerm.

(* ================================================================== *)
(** * Day 3: long-term memory *)
(* ================================================================== *)

Module LongTerm.
Import Json.

(** The object: the in-memory dict [self.memory], together with the file at
    [self.storage_path] and the lines the object has printed. *)
Record LongTermMemory := Build {
  memory : Json.memory;
  storage : Json.file;
  printed : list string;
}.

(** [_initialize_memory] *)
Definition _initialize_memory : Json.memory :=
  {| users := ∅; conversations := []; learned_patterns := ∅ |}.

(** [_load_memory] on a store file: what it returns and what it prints.  A
    missing file gives the empty structure; so does a file that cannot be
    read, after the error is printed. *)
Definition load (f : Json.file) : Json.memory * list string :=
  match f with
  | Holds m => (m, [])
  | Missing => (_initialize_memory, [])
  | Unreadable e => (_initialize_memory, ["Error loading memory: " +:+ exc_text e])
  end.

(** [_load_memory] on whatever is at the path.  What [json.load] returns is
    returned as it is; on a foreign file that is not a store, and there is
    no answer here. *)
Definition _load_memory (c : Json.on_disk) : option (Json.memory * list string) :=
  match c with
  | Store f => Some (load f)
  | Foreign => None
  end.

(** [LongTermMemory(storage_path)] over a store file. *)
Definition new (f : Json.file) : LongTermMemory :=
  {| memory := (load f).1; storage := f; printed := (load f).2 |}.

(** [_save_memory]: the only place that writes the file. *)
Definition _save_memory (w : write_outcome) (self : LongTermMemory) : LongTermMemory :=
  match w with
  | Written =>
      {| memory := memory self; storage := Holds (memory self); printed := printed self |}
  | OpenFails e =>
      {| memory := memory self; storage := storage self;
         printed := printed self ++ ["Error saving memory: " +:+ exc_text e] |}
  | DumpFails e later =>
      {| memory := memory self; storage := Unreadable later;
         printed := printed self ++ ["Error saving memory: " +:+ exc_text e] |}
  end.

Definition with_users (u : gmap string user_record) (self : LongTermMemory)
  : LongTermMemory :=
  {| memory := {| users := u;
                  conversations := conversations (memory self);
                  learned_patterns := learned_patterns (memory self) |};
     storage := storage self;
     printed := printed self |}.

(** The record both methods create for an unseen user. *)
Definition fresh_record (now : string) : user_record :=
  {| preferences := Some []; created_at := Some now; last_updated := None |}.

Definition ensure_user (now user_id : string) (self : LongTermMemory) : LongTermMemory :=
  match users (memory self) !! user_id with
  | Some _ => self
  | None => with_users (<[user_id := fresh_record now]> (users (memory self))) self
  end.

(** [get_user_preferences]: the result is [.get("preferences", {})] of the
    user's record. *)
Definition get_user_preferences (now user_id : string) (self : LongTermMemory)
  : list (string * string) * LongTermMemory :=
  let self := ensure_user now user_id self in
  (default [] (users (memory self) !! user_id ≫= preferences), self).

(** [save_user_preference]; [now] is the clock reading for a new record,
    [now'] the one for [last_updated], and [w] is consulted only if
    [_save_memory] is reached.  Indexing ["preferences"] on a record without
    that key is a [KeyError]. *)
Definition save_user_preference (now now' : string) (w : write_outcome)
    (user_id key value : string) (self : LongTermMemory)
  : result unit * LongTermMemory :=
  let self := ensure_user now user_id self in
  match users (memory self) !! user_id with
  | Some r =>
      match preferences r with
      | Some prefs =>
          let r' := {| preferences := Some (dict_set key value prefs);
                       created_at := created_at r;
                       last_updated := Some now' |} in
          (Returns (), _save_memory w (with_users (<[user_id := r']> (users (memory self))) self))
      | None => (Raises (Exception "KeyError" "'preferences'"), self)
      end
  | None => (Raises (Exception "KeyError" ("'" +:+ user_id +:+ "'")), self)
  end.

(** [add_conversation]: the list keeps its last 100 entries. *)
Definition add_conversation (now : string) (w : write_outcome)
    (user_id query response : string) (self : LongTermMemory) : LongTermMemory :=
  let all := conversations (memory self) ++ [Conversation user_id query response now] in
  let kept := if 100 <? len all then slice_from (-100) all else all in
  _save_memory w
    {| memory := {| users := users (memory self);
                    conversations := kept;
                    learned_patterns := learned_patterns (memory self) |};
       storage := storage self;
       printed := printed self |}.

(** [get_user_history] *)
Definition get_user_history (user_id : string) (limit : Z) (self : LongTermMemory)
  : list conversation :=
  slice_from (- limit)
    (filter (fun c => conv_user_id c = user_id) (conversations (memory self))).

(** [AgentWithLongTermMemory._extract_preference] *)
Definition colors : list string :=
  ["red"; "blue"; "green"; "yellow"; "purple"; "orange"].

Definition _extract_preference (message : string) : option (string * string) :=
  let message_lower := lower message in
  if contains "i like" message_lower || contains "i prefer" message_lower
     || contains "my favorite" message_lower
  then
    if contains "programming" message_lower || contains "language" message_lower
    then
      if contains "python" message_lower then Some ("favorite_language", "Python")
      else if contains "javascript" message_lower then Some ("favorite_language", "JavaScript")
      else None
    else if contains "color" message_lower
    then
      match List.find (fun color => contains color message_lower) colors with
      | Some color => Some ("favorite_color", color)
      | None => None
      end
    else None
  else None.

End LongTerm.

(* ================================================================== *)
(** * Day 4: metrics, tracing and the observable agent *)
(* ================================================================== *)

Module Observability.

(** ** MetricsCollector *)

Record MetricsCollector := Build {
  requests_total : Z;
  requests_success : Z;
  requests_error : Z;
  total_response_time : float;
  total_tokens : Z;
  errors_by_type : gmap string Z;
  request_times : list float;
}.

(** [MetricsCollector()] *)
Definition new : MetricsCollector :=
  {| requests_total := 0; requests_success := 0; requests_error := 0;
     total_response_time := 0%float; total_tokens := 0;
     errors_by_type := ∅; request_times := [] |}.

(** [record_request(success, response_time, tokens=0, error_type=None)] *)
Definition record_request (success : bool) (response_time : float) (tokens : Z)
    (error_type : option string) (self : MetricsCollector) : MetricsCollector :=
  {| requests_total := requests_total self + 1;
     requests_success := if success then requests_success self + 1 else requests_success self;
     requests_error := if success then requests_error self else requests_error self + 1;
     total_response_time := PrimFloat.add (total_response_time self) response_time;
     total_tokens := total_tokens self + tokens;
     errors_by_type :=
       if success then errors_by_type self
       else match truthy error_type with
            | Some t => counter_incr t (errors_by_type self)
            | None => errors_by_type self
            end;
     request_times := request_times self ++ [response_time] |}.

(** The dict [get_stats] returns when there is something to report. *)
Record report := Report {
  total_requests : Z;
  success_rate : string;
  error_rate : string;
  average_response_time_seconds : string;
  p50_response_time_seconds : string;
  p95_response_time_seconds : string;
  report_total_tokens : Z;
  report_errors_by_type : gmap string Z;
}.

Inductive stats :=
| NoRequests (message : string)
| Stats (r : report).

(** [len(sorted_times) // 2] and [int(len(sorted_times) * 0.95)]. *)
Definition p50_index (n : Z) : result Z := Returns (n / 2).
Definition p95_index (n : Z) : result Z :=
  int_of_float (PrimFloat.mul (float_of_int n) 0.95%float).

(** Whether the binary64 [int(n * 0.95)] is the exact [floor (95 n / 100)]. *)
Definition p95_index_exact (n : Z) : bool :=
  match p95_index n with
  | Returns i => i =? 95 * n / 100
  | Raises _ => false
  end.

(** [ok] on each of the [count] integers from [n] on. *)
Fixpoint all_from (ok : Z -> bool) (count : nat) (n : Z) : bool :=
  match count with
  | O => true
  | S count' => ok n && all_from ok count' (n + 1)
  end.

(** [sorted_times[index] if sorted_times else 0] *)
Definition percentile (index : Z -> result Z) (sorted_times : list float)
  : result float :=
  match sorted_times with
  | [] => Returns 0%float
  | _ => i ← index (len sorted_times); list_index sorted_times i
  end.

(** [get_stats] *)
Definition get_stats `{Runtime} (self : MetricsCollector)
  : result stats * MetricsCollector :=
  let total := requests_total self in
  if total =? 0 then (Returns (NoRequests "No requests recorded"), self)
  else
    let avg_response_time := PrimFloat.div (total_response_time self) (float_of_int total) in
    let success_rate :=
      PrimFloat.mul (PrimFloat.div (float_of_int (requests_success self)) (float_of_int total))
                    (float_of_int 100) in
    let sorted_times := sorted (request_times self) in
    (p50 ← percentile p50_index sorted_times;
     p95 ← percentile p95_index sorted_times;
     mret (Stats
       {| total_requests := total;
          success_rate := format_2f success_rate +:+ "%";
          error_rate := format_2f (PrimFloat.sub (float_of_int 100) success_rate) +:+ "%";
          average_response_time_seconds := format_3f avg_response_time;
          p50_response_time_seconds := format_3f p50;
          p95_response_time_seconds := format_3f p95;
          report_total_tokens := total_tokens self;
          report_errors_by_type := errors_by_type self |}),
     self).

(** A run of [record_request] calls, oldest first. *)
Definition record_all (calls : list (bool * float * Z * option string))
    (self : MetricsCollector) : MetricsCollector :=
  foldl (fun s '(success, response_time, tokens, error_type) =>
           record_request success response_time tokens error_type s) self calls.


(** What every collector reached by [record_request] satisfies: the error
    counts by type are counted among the errors, and one latency is kept per
    request. *)
Definition consistent (m : MetricsCollector) : Prop :=
  requests_total m = requests_success m + requests_error m
  /\ 0 <= requests_success m
  /\ counter_total (errors_by_type m) <= requests_error m
  /\ len (request_times m) = requests_total m.

(** ** TraceSpan and Tracer *)

Inductive scalar :=
| VStr (s : string)
| VInt (n : Z)
| VBool (b : bool)
| VFloat (x : float).

Record log_entry := LogEntry {
  log_message : string;
  log_timestamp : string;
  log_fields : list (string * scalar);
}.

Record TraceSpan := Span {
  span_id : string;
  parent_id : option string;
  name : string;
  start_time : float;
  end_time : option float;
  tags : list (string * scalar);
  logs : list log_entry;
}.

(** [add_tag] and [add_log] *)
Definition add_tag (key : string) (value : scalar) (self : TraceSpan) : TraceSpan :=
  {| span_id := span_id self; parent_id := parent_id self; name := name self;
     start_time := start_time self; end_time := end_time self;
     tags := dict_set key value (tags self); logs := logs self |}.

Definition add_log (utcnow message : string) (fields : list (string * scalar))
    (self : TraceSpan) : TraceSpan :=
  {| span_id := span_id self; parent_id := parent_id self; name := name self;
     start_time := start_time self; end_time := end_time self;
     tags := tags self; logs := logs self ++ [LogEntry message utcnow fields] |}.

(** [finish]; [now] is [time.time()]. *)
Definition finish (now : float) (self : TraceSpan) : TraceSpan :=
  {| span_id := span_id self; parent_id := parent_id self; name := name self;
     start_time := start_time self; end_time := Some now;
     tags := tags self; logs := logs self |}.

(** [self.end_time] when it is truthy: neither [None] nor [0.0]. *)
Definition ended (self : TraceSpan) : option float :=
  match end_time self with
  | Some e => if PrimFloat.eqb e 0%float then None else Some e
  | None => None
  end.

(** One entry of [Tracer.traces]: [to_dict] of the single span, under its
    trace id. *)
Record trace := Trace {
  trace_id : string;
  trace_span : TraceSpan;
  duration_seconds : float;
  trace_timestamp : string;
}.

Record Tracer := { traces : list trace }.

End Observability.

(* ================================================================== *)
(** * Effects of a request: the outside world and exceptions *)
(* ================================================================== *)

Module Effects.

(** What the process cannot decide: each reading of the clock, each uuid,
    each formatted date, each reply of the model and each outcome of a file
    write, numbered in the order the process asks for them.  The model's
    reply has two stages: [generate_content] returns or raises, and then
    [response.text] returns or raises. *)
Record world := World {
  time_time : nat -> float;
  uuid4 : nat -> string;
  isoformat : nat -> string;
  generate_content : nat -> string -> result (result string);
  json_dump : nat -> Json.write_outcome;
}.

(** How many of each the process has consumed. *)
Record ticks := Ticks {
  clock_reads : nat;
  uuids_drawn : nat;
  dates_read : nat;
  model_calls : nat;
  file_writes : nat;
}.

Definition no_ticks : ticks := Ticks 0 0 0 0 0.

(** An agent object inside a running process. *)
Record process (A : Type) := Process { self : A; used : ticks }.
Arguments Process {A} self used.
Arguments self {A} p.
Arguments used {A} p.

(** A block of statements over the agent: it returns or raises, and leaves
    the mutations made so far in place either way. *)
Definition action (A R : Type) : Type := process A -> result R * process A.

#[export] Instance action_ret A : MRet (action A) := fun R r p => (Returns r, p).
#[export] Instance action_bind A : MBind (action A) := fun R R' f m p =>
  match m p with
  | (Returns r, p') => f r p'
  | (Raises e, p') => (Raises e, p')
  end.

(** [try: body except Exception as e: handler] *)
Definition try_except {A R} (body : action A R) (handler : exception -> action A R)
  : action A R :=
  fun p =>
    match body p with
    | (Returns r, p') => (Returns r, p')
    | (Raises e, p') => handler e p'
    end.

Definition raise {A R} (e : exception) : action A R := fun p => (Raises e, p).

Definition lift {A R} (r : result R) : action A R := fun p => (r, p).

(** Mutating and reading the agent object. *)
Definition update {A} (f : A -> A) : action A unit :=
  fun p => (Returns (), Process (f (self p)) (used p)).

Definition get {A R} (f : A -> R) : action A R :=
  fun p => (Returns (f (self p)), p).

(** A method written as a function to a result and the new object. *)
Definition call {A R} (f : A -> R * A) : action A R :=
  fun p => (Returns (f (self p)).1, Process (f (self p)).2 (used p)).

Definition call_raising {A R} (f : A -> result R * A) : action A R :=
  fun p => ((f (self p)).1, Process (f (self p)).2 (used p)).

(** The outcome of running [m] from [p] satisfies [Q]. *)
Definition wp {A R} (m : action A R) (Q : result R -> process A -> Prop)
    (p : process A) : Prop :=
  Q (m p).1 (m p).2.

Section Oracles.
Context {A : Type} (w : world).

(** What a caller of a [chat] method can observe, given the error counts
    before and after and the number [calls] of model calls made before: a
    text, which is either the reply of the model to the prompt of this
    request, with no error recorded, or an ["Error: ..."] text, with exactly
    one error recorded. *)
Definition recovered (calls : nat) (errors errors' : Z) (r : result string) : Prop :=
  exists text,
    r = Returns text
    /\ ((errors' = errors
         /\ exists prompt, generate_content w calls prompt = Returns (Returns text))
        \/ (errors' = errors + 1 /\ exists e, text = "Error: " +:+ exc_text e)).

(** [time.time()] *)
Definition now : action A float := fun p =>
  let t := used p in
  (Returns (time_time w (clock_reads t)),
   Process (self p) (Ticks (S (clock_reads t)) (uuids_drawn t) (dates_read t)
                           (model_calls t) (file_writes t))).

(** [str(uuid.uuid4())] *)
Definition fresh_uuid : action A string := fun p =>
  let t := used p in
  (Returns (uuid4 w (uuids_drawn t)),
   Process (self p) (Ticks (clock_reads t) (S (uuids_drawn t)) (dates_read t)
                           (model_calls t) (file_writes t))).

(** [datetime.now().isoformat()] and [datetime.utcnow().isoformat()] *)
Definition today : action A string := fun p =>
  let t := used p in
  (Returns (isoformat w (dates_read t)),
   Process (self p) (Ticks (clock_reads t) (uuids_drawn t) (S (dates_read t))
                           (model_calls t) (file_writes t))).

(** [self.model.generate_content(prompt)]: the response object, whose
    [.text] is still to be read. *)
Definition ask_model (prompt : string) : action A (result string) := fun p =>
  let t := used p in
  (generate_content w (model_calls t) prompt,
   Process (self p) (Ticks (clock_reads t) (uuids_drawn t) (dates_read t)
                           (S (model_calls t)) (file_writes t))).

(** The outcome of the next [open]/[json.dump]. *)
Definition next_write : action A Json.write_outcome := fun p =>
  let t := used p in
  (Returns (json_dump w (file_writes t)),
   Process (self p) (Ticks (clock_reads t) (uuids_drawn t) (dates_read t)
                           (model_calls t) (S (file_writes t)))).

End Oracles.

End Effects.

Module Observable.
Import Observability Effects.

(** ** Tracer methods *)

Section Tracing.
Context {A : Type} (w : world).

(** [TraceSpan(name)] followed by [add_tag("request_id", request_id)]. *)
Definition start_trace (operation request_id : string) : action A TraceSpan :=
  sid ← fresh_uuid w;
  t ← now w;
  mret (add_tag "request_id" (VStr request_id)
          {| span_id := sid; parent_id := None; name := operation;
             start_time := t; end_time := None; tags := []; logs := [] |}).

(** [span.add_log(message, **fields)] *)
Definition log_to (span : TraceSpan) (message : string) (fields : list (string * scalar))
  : action A TraceSpan :=
  d ← today w;
  mret (add_log d message fields span).

(** [span.duration()]: the clock is read only when [end_time] is not set. *)
Definition duration (span : TraceSpan) : action A float :=
  match ended span with
  | Some e => mret (PrimFloat.sub e (start_time span))
  | None => t ← now w; mret (PrimFloat.sub t (start_time span))
  end.

(** The trace record [finish_trace] builds: [span.finish()], then the dict
    entries in the order they are written. *)
Definition finished_trace (span : TraceSpan) (trace_id : option string) : action A trace :=
  t ← now w;
  let span := finish t span in
  tid ← match truthy trace_id with
        | Some i => mret i
        | None => fresh_uuid w
        end;
  d ← duration span;
  stamp ← today w;
  mret (Trace tid span d stamp).

End Tracing.

(** ** ObservableAgent *)

Record ObservableAgent := Build {
  metrics : MetricsCollector;
  tracer : Tracer;
  request_id : option string;
}.

Definition new : ObservableAgent :=
  {| metrics := Observability.new; tracer := {| traces := [] |}; request_id := None |}.

Definition on_metrics (f : MetricsCollector -> MetricsCollector) (a : ObservableAgent)
  : ObservableAgent :=
  {| metrics := f (metrics a); tracer := tracer a; request_id := request_id a |}.

Definition store_trace (t : trace) (a : ObservableAgent) : ObservableAgent :=
  {| metrics := metrics a; tracer := {| traces := traces (tracer a) ++ [t] |};
     request_id := request_id a |}.

Definition set_request_id (i : string) (a : ObservableAgent) : ObservableAgent :=
  {| metrics := metrics a; tracer := tracer a; request_id := Some i |}.

(** The error count of the agent in a process. *)
Definition errors (q : process ObservableAgent) : Z :=
  requests_error (metrics (self q)).

Section Chat.
Context (w : world).

(** [self.tracer.finish_trace(span, self.request_id)] *)
Definition finish_trace (span : TraceSpan) (trace_id : option string)
  : action ObservableAgent trace :=
  t ← finished_trace w span trace_id;
  update (store_trace t);;
  mret t.

(** [ObservableAgent.chat].  The first two statements of the [try] block
    cannot raise; the handler sees [span] and [start_time] as they left them. *)
Definition chat (message : string) (user_id : option string)
  : action ObservableAgent string :=
  rid ← fresh_uuid w;
  update (set_request_id rid);;
  span ← start_trace w "agent.chat" rid;
  let span := add_tag "user_id" (VStr (default "anonymous" (truthy user_id))) span in
  let span := add_tag "message_length" (VInt (len_str message)) span in
  span ← log_to w span "Calling LLM" [("model", VStr "gemini-pro")];
  start_time ← now w;
  try_except
    (response ← ask_model w message;
     end_time ← now w;
     let response_time := PrimFloat.sub end_time start_time in
     response_text ← lift response;
     let estimated_tokens := split_len message + split_len response_text in
     update (on_metrics (record_request true response_time estimated_tokens None));;
     let span := add_tag "success" (VBool true) span in
     let span := add_tag "response_length" (VInt (len_str response_text)) span in
     let span := add_tag "response_time_seconds" (VFloat response_time) span in
     span ← log_to w span "LLM call completed" [("tokens", VInt estimated_tokens)];
     rid' ← get request_id;
     finish_trace span rid';;
     mret response_text)
    (fun e =>
     let error_type := exc_type e in
     t ← now w;
     update (on_metrics
               (record_request false (PrimFloat.sub t start_time) 0 (Some error_type)));;
     let span := add_tag "success" (VBool false) span in
     let span := add_tag "error" (VStr (exc_text e)) span in
     let span := add_tag "error_type" (VStr error_type) span in
     span ← log_to w span "Error occurred" [("error", VStr (exc_text e))];
     rid' ← get request_id;
     finish_trace span rid';;
     mret ("Error: " +:+ exc_text e)).

End Chat.

End Observable.

(* ================================================================== *)
(** * Capstone: tools *)
(* ================================================================== *)

Module Calculator.

(** ** The integer fragment of [eval]

    After sanitising, a source is built from digits, [+ - * / ( ) .] and
    white space.  The evaluator below covers the sources made of decimal
    integer literals, the unary and binary [+] and [-], [*], [/], round
    brackets, spaces and tabs, whose value is an [int] or whose evaluation
    divides by zero.  For every other source (a float, [**], [//], a call,
    a tuple, any syntax error but the empty source) it answers [None] and the
    runtime's [eval_elsewhere] decides.  CPython also bounds the nesting of
    brackets and the depth of the syntax tree; the fragment keeps clear of
    both bounds by covering sources of at most 100 tokens. *)

Inductive token :=
| TNum (n : Z)
| TPlus | TMinus | TStar | TSlash | TOpen | TClose.

(** The value of a digit run read as a decimal literal: leading zeros are
    allowed only when every digit is zero, and CPython refuses a literal of
    more than 4300 digits. *)
Definition literal (digits : list ascii) : option Z :=
  let value := foldl (fun acc d => 10 * acc + (code d - 48)) 0 digits in
  match digits with
  | [] => None
  | d :: _ =>
      if (4300 <? len digits) || ((code d =? 48) && negb (value =? 0)) then None
      else Some value
  end.

Definition flush (run : list ascii) (rest : option (list token)) : option (list token) :=
  match run with
  | [] => rest
  | _ => n ← literal run; ts ← rest; Some (TNum n :: ts)
  end.

Definition starts_with (c : ascii) (s : string) : bool :=
  match s with
  | String c' _ => code c' =? code c
  | EmptyString => false
  end.

(** [run] holds the digits of the literal being read. *)
Fixpoint tokens_from (run : list ascii) (s : string) : option (list token) :=
  match s with
  | EmptyString => flush run (Some [])
  | String c t =>
      if isdigit c then tokens_from (run ++ [c]) t
      else
        let one (tok : token) := flush run (ts ← tokens_from [] t; Some (tok :: ts)) in
        if (code c =? 32) || (code c =? 9) then flush run (tokens_from [] t)
        else if code c =? 43 then one TPlus
        else if code c =? 45 then one TMinus
        else if code c =? 40 then one TOpen
        else if code c =? 41 then one TClose
        else if code c =? 42 then (if starts_with c t then None else one TStar)
        else if code c =? 47 then (if starts_with c t then None else one TSlash)
        else None
  end.

Definition tokenize (s : string) : option (list token) := tokens_from [] s.

Inductive expr :=
| Num (n : Z)
| UPlus (a : expr)
| UMinus (a : expr)
| Add (a b : expr)
| Sub (a b : expr)
| Mul (a b : expr)
| Div (a b : expr).

Definition parser : Type := list token -> option (expr * list token).

(** [atom]: a literal or a bracketed sum. *)
Definition atom (sum : parser) : parser := fun ts =>
  match ts with
  | TNum n :: rest => Some (Num n, rest)
  | TOpen :: rest =>
      match sum rest with
      | Some (e, TClose :: rest') => Some (e, rest')
      | _ => None
      end
  | _ => None
  end.

(** [factor: ('+' | '-') factor | atom] *)
Fixpoint factor (sum : parser) (fuel : nat) : parser := fun ts =>
  match fuel with
  | O => None
  | S fuel' =>
      match ts with
      | TPlus :: rest => '(e, rest') ← factor sum fuel' rest; Some (UPlus e, rest')
      | TMinus :: rest => '(e, rest') ← factor sum fuel' rest; Some (UMinus e, rest')
      | _ => atom sum ts
      end
  end.

(** [term: factor (('*' | '/') factor)*], left to right. *)
Fixpoint term_tail (sum : parser) (fuel : nat) (lhs : expr) : parser := fun ts =>
  match fuel with
  | O => None
  | S fuel' =>
      match ts with
      | TStar :: rest =>
          '(rhs, rest') ← factor sum (length rest) rest;
          term_tail sum fuel' (Mul lhs rhs) rest'
      | TSlash :: rest =>
          '(rhs, rest') ← factor sum (length rest) rest;
          term_tail sum fuel' (Div lhs rhs) rest'
      | _ => Some (lhs, ts)
      end
  end.

Definition term (sum : parser) : parser := fun ts =>
  '(lhs, rest) ← factor sum (length ts) ts;
  term_tail sum (S (length rest)) lhs rest.

(** [sum: term (('+' | '-') term)*], left to right. *)
Fixpoint sum_tail (sum : parser) (fuel : nat) (lhs : expr) : parser := fun ts =>
  match fuel with
  | O => None
  | S fuel' =>
      match ts with
      | TPlus :: rest =>
          '(rhs, rest') ← term sum rest;
          sum_tail sum fuel' (Add lhs rhs) rest'
      | TMinus :: rest =>
          '(rhs, rest') ← term sum rest;
          sum_tail sum fuel' (Sub lhs rhs) rest'
      | _ => Some (lhs, ts)
      end
  end.

(** The whole grammar; [depth] bounds the nesting of brackets. *)
Fixpoint sum (depth : nat) : parser := fun ts =>
  match depth with
  | O => None
  | S depth' =>
      '(lhs, rest) ← term (sum depth') ts;
      sum_tail (sum depth') (S (length rest)) lhs rest
  end.

Definition parse (ts : list token) : option expr :=
  match sum (S (length ts)) ts with
  | Some (e, []) => Some e
  | _ => None
  end.

(** The value of an expression: an [int], an exception, or a float, on
    which this fragment is silent. *)
Inductive value :=
| Exact (n : Z)
| Fault (e : exception)
| Inexact.

Definition unary (f : Z -> Z) (a : value) : value :=
  match a with
  | Exact x => Exact (f x)
  | other => other
  end.

(** Operands are evaluated left to right; the first fault wins. *)
Definition binary (f : Z -> Z -> value) (a b : value) : value :=
  match a with
  | Exact x =>
      match b with
      | Exact y => f x y
      | other => other
      end
  | other => other
  end.

Definition true_division (x y : Z) : value :=
  if y =? 0 then Fault (Exception "ZeroDivisionError" "division by zero")
  else Inexact.

Fixpoint eval (e : expr) : value :=
  match e with
  | Num n => Exact n
  | UPlus a => unary (fun x => x) (eval a)
  | UMinus a => unary Z.opp (eval a)
  | Add a b => binary (fun x y => Exact (x + y)) (eval a) (eval b)
  | Sub a b => binary (fun x y => Exact (x - y)) (eval a) (eval b)
  | Mul a b => binary (fun x y => Exact (x * y)) (eval a) (eval b)
  | Div a b => binary true_division (eval a) (eval b)
  end.

Section Execute.
Context `{Runtime}.

(** [str(eval(src))] on the fragment.  An [int] of more than 4300 digits is
    not printed by CPython, so it is left to the runtime as well. *)
Definition eval_arith (src : string) : option (result string) :=
  ts ← tokenize src;
  match ts with
  | [] => Some (Raises (Exception "SyntaxError" (syntax_error_text src)))
  | _ =>
      guard (len ts <= 100);;
      e ← parse ts;
      match eval e with
      | Exact n => if Z.abs n <? 10 ^ 4300 then Some (Returns (str_int n)) else None
      | Fault err => Some (Raises err)
      | Inexact => None
      end
  end.

(** [f"{eval(src, ...)}"] *)
Definition py_eval (src : string) : result string :=
  match eval_arith src with
  | Some r => r
  | None => eval_elsewhere src
  end.

(** The characters [re.sub(r'[^0-9+\-*/().\s]', '', s)] keeps. *)
Definition kept (c : ascii) : bool :=
  isdigit c || (code c =? 43) || (code c =? 45) || (code c =? 42) || (code c =? 47)
  || (code c =? 40) || (code c =? 41) || (code c =? 46) || isspace c.

Definition sanitize (expression : string) : string := filter_chars kept expression.

(** [CalculatorTool.execute] *)
Definition execute (expression : string) : result string :=
  match (let expression := sanitize expression in
         result ← py_eval expression;
         mret ("Result: " +:+ result)) with
  | Returns text => Returns text
  | Raises e => Returns ("Error: " +:+ exc_text e)
  end.

End Execute.

End Calculator.

Module TextProcessor.

(** [TextProcessorTool.execute(text, operation)] *)
Definition execute (text operation : string) : string :=
  if String.eqb operation "count_words" then "Word count: " +:+ str_int (split_len text)
  else if String.eqb operation "count_chars" then "Character count: " +:+ str_int (len_str text)
  else if String.eqb operation "reverse" then "Reversed: " +:+ reversed text
  else if String.eqb operation "uppercase" then "Uppercase: " +:+ upper text
  else if String.eqb operation "lowercase" then "Lowercase: " +:+ lower text
  else "Unknown operation: " +:+ operation.

End TextProcessor.

(* ================================================================== *)
(** * Capstone: memory, metrics and the agent *)
(* ================================================================== *)

Module Capstone.
Import Json Effects.

(** ** ShortTermMemory: the capstone file repeats the class of Day 3 with
    the same two methods; [ShortTerm] stands for both. *)

(** ** LongTermMemory *)

Record LongTermMemory := BuildMemory {
  memory : Json.memory;
  storage : Json.file;
  printed : list string;
}.

(** [_load_memory] on a store file: a missing file and a file that cannot be
    read both give [{"users": {}, "preferences": {}}], and nothing is
    printed. *)
Definition load (f : Json.file) : Json.memory :=
  match f with
  | Holds m => m
  | Missing | Unreadable _ => {| users := ∅; conversations := []; learned_patterns := ∅ |}
  end.

(** [_load_memory] on whatever is at the path.  What [json.load] returns is
    returned as it is; on a foreign file that is not a store (it has no
    ["users"]), and there is no answer here. *)
Definition _load_memory (c : Json.on_disk) : option Json.memory :=
  match c with
  | Store f => Some (load f)
  | Foreign => None
  end.

(** [LongTermMemory(storage_path)] over a store file. *)
Definition new_memory (f : Json.file) : LongTermMemory :=
  {| memory := load f; storage := f; printed := [] |}.

(** [_save_memory] *)
Definition _save_memory (w : write_outcome) (self : LongTermMemory) : LongTermMemory :=
  match w with
  | Written =>
      {| memory := memory self; storage := Holds (memory self); printed := printed self |}
  | OpenFails e =>
      {| memory := memory self; storage := storage self;
         printed := printed self ++ ["Error saving memory: " +:+ exc_text e] |}
  | DumpFails e later =>
      {| memory := memory self; storage := Unreadable later;
         printed := printed self ++ ["Error saving memory: " +:+ exc_text e] |}
  end.

Definition with_users (u : gmap string user_record) (self : LongTermMemory)
  : LongTermMemory :=
  {| memory := {| users := u;
                  conversations := conversations (memory self);
                  learned_patterns := learned_patterns (memory self) |};
     storage := storage self;
     printed := printed self |}.

(** [{"preferences": {}}] *)
Definition fresh_record : user_record :=
  {| preferences := Some []; created_at := None; last_updated := None |}.

Definition ensure_user (user_id : string) (self : LongTermMemory) : LongTermMemory :=
  match users (memory self) !! user_id with
  | Some _ => self
  | None => with_users (<[user_id := fresh_record]> (users (memory self))) self
  end.

(** [get_user_preferences] *)
Definition get_user_preferences (user_id : string) (self : LongTermMemory)
  : list (string * string) * LongTermMemory :=
  let self := ensure_user user_id self in
  (default [] (users (memory self) !! user_id ≫= preferences), self).

(** [save_preference]; [w] is consulted only if [_save_memory] is reached. *)
Definition save_preference (w : write_outcome) (user_id key value : string)
    (self : LongTermMemory) : result unit * LongTermMemory :=
  let self := ensure_user user_id self in
  match users (memory self) !! user_id with
  | Some r =>
      match preferences r with
      | Some prefs =>
          let r' := {| preferences := Some (dict_set key value prefs);
                       created_at := created_at r;
                       last_updated := last_updated r |} in
          (Returns (), _save_memory w (with_users (<[user_id := r']> (users (memory self))) self))
      | None => (Raises (Exception "KeyError" "'preferences'"), self)
      end
  | None => (Raises (Exception "KeyError" ("'" +:+ user_id +:+ "'")), self)
  end.

(** ** MetricsCollector *)

Record MetricsCollector := BuildMetrics {
  requests_total : Z;
  requests_success : Z;
  requests_error : Z;
  total_response_time : float;
  total_tokens : Z;
  tools_used : gmap string Z;
  request_times : list float;
}.

Definition new_metrics : MetricsCollector :=
  {| requests_total := 0; requests_success := 0; requests_error := 0;
     total_response_time := 0%float; total_tokens := 0;
     tools_used := ∅; request_times := [] |}.

(** [record_request(success, response_time, tokens=0, tool_used=None)] *)
Definition record_request (success : bool) (response_time : float) (tokens : Z)
    (tool_used : option string) (self : MetricsCollector) : MetricsCollector :=
  {| requests_total := requests_total self + 1;
     requests_success := if success then requests_success self + 1 else requests_success self;
     requests_error := if success then requests_error self else requests_error self + 1;
     total_response_time := PrimFloat.add (total_response_time self) response_time;
     total_tokens := total_tokens self + tokens;
     tools_used :=
       match truthy tool_used with
       | Some t => counter_incr t (tools_used self)
       | None => tools_used self
       end;
     request_times := request_times self ++ [response_time] |}.

Record report := Report {
  total_requests : Z;
  success_rate : string;
  average_response_time_seconds : string;
  report_total_tokens : Z;
  report_tools_used : gmap string Z;
}.

Inductive stats :=
| NoRequests (message : string)
| Stats (r : report).

(** [get_stats] *)
Definition get_stats `{Runtime} (self : MetricsCollector) : stats * MetricsCollector :=
  let total := requests_total self in
  if total =? 0 then (NoRequests "No requests recorded", self)
  else
    let avg_time := PrimFloat.div (total_response_time self) (float_of_int total) in
    let success_rate :=
      PrimFloat.mul (PrimFloat.div (float_of_int (requests_success self)) (float_of_int total))
                    (float_of_int 100) in
    (Stats {| total_requests := total;
              success_rate := format_2f success_rate +:+ "%";
              average_response_time_seconds := format_3f avg_time;
              report_total_tokens := total_tokens self;
              report_tools_used := tools_used self |},
     self).

(** A run of [record_request] calls, oldest first. *)
Definition record_all (calls : list (bool * float * Z * option string))
    (self : MetricsCollector) : MetricsCollector :=
  foldl (fun s '(success, response_time, tokens, tool_used) =>
           record_request success response_time tokens tool_used s) self calls.

(** What every collector reached by [record_request] satisfies. *)
Definition consistent (m : MetricsCollector) : Prop :=
  requests_total m = requests_success m + requests_error m
  /\ 0 <= requests_success m
  /\ 0 <= requests_error m
  /\ counter_total (tools_used m) <= requests_total m
  /\ len (request_times m) = requests_total m.

(** ** StructuredLogger: the records handed to the logging module. *)

Record log_record := LogRecord {
  level : string;
  log_message : string;
  log_fields : list (string * Observability.scalar);
}.

(** ** CapstoneAgent *)

Record CapstoneAgent := Build {
  short_term_memory : ShortTerm.ShortTermMemory;
  long_term_memory : LongTermMemory;
  user_id : string;
  metrics : MetricsCollector;
  logger : list log_record;
  request_id : option string;
}.

(** [CapstoneAgent(api_key, user_id)] over a store file. *)
Definition new (f : Json.file) (user_id : string) : CapstoneAgent :=
  {| short_term_memory := ShortTerm.new 10;
     long_term_memory := new_memory f;
     user_id := user_id;
     metrics := new_metrics;
     logger := [];
     request_id := None |}.

Definition on_short_term (f : ShortTerm.ShortTermMemory -> ShortTerm.ShortTermMemory)
    (a : CapstoneAgent) : CapstoneAgent :=
  {| short_term_memory := f (short_term_memory a);
     long_term_memory := long_term_memory a; user_id := user_id a;
     metrics := metrics a; logger := logger a; request_id := request_id a |}.

Definition on_long_term (f : LongTermMemory -> LongTermMemory) (a : CapstoneAgent)
  : CapstoneAgent :=
  {| short_term_memory := short_term_memory a;
     long_term_memory := f (long_term_memory a); user_id := user_id a;
     metrics := metrics a; logger := logger a; request_id := request_id a |}.

Definition on_metrics (f : MetricsCollector -> MetricsCollector) (a : CapstoneAgent)
  : CapstoneAgent :=
  {| short_term_memory := short_term_memory a;
     long_term_memory := long_term_memory a; user_id := user_id a;
     metrics := f (metrics a); logger := logger a; request_id := request_id a |}.

Definition set_request_id (i : string) (a : CapstoneAgent) : CapstoneAgent :=
  {| short_term_memory := short_term_memory a;
     long_term_memory := long_term_memory a; user_id := user_id a;
     metrics := metrics a; logger := logger a; request_id := Some i |}.

Definition append_log (r : log_record) (a : CapstoneAgent) : CapstoneAgent :=
  {| short_term_memory := short_term_memory a;
     long_term_memory := long_term_memory a; user_id := user_id a;
     metrics := metrics a; logger := logger a ++ [r]; request_id := request_id a |}.

(** [self.logger.log(level, message, **kwargs)] *)
Definition log (level message : string) (fields : list (string * Observability.scalar))
  : action CapstoneAgent unit :=
  update (append_log (LogRecord level message fields)).

(** The tool and the keyword arguments [_select_tool] picks. *)
Inductive tool_call :=
| UseCalculator (expression : string)
| UseTextProcessor (text operation : string).

Definition tool_name (t : tool_call) : string :=
  match t with
  | UseCalculator _ => "calculator"
  | UseTextProcessor _ _ => "text_processor"
  end.

(** [_select_tool] *)
Definition _select_tool (query : string) : option tool_call :=
  let query_lower := lower query in
  if any_in ["calculate"; "compute"; "math"; "add"; "multiply"] query_lower
  then Some (UseCalculator query)
  else if any_in ["count"; "reverse"; "uppercase"; "lowercase"] query_lower
  then
    let operation :=
      if contains "characters" query_lower then "count_chars"
      else if contains "reverse" query_lower then "reverse"
      else if contains "uppercase" query_lower then "uppercase"
      else if contains "lowercase" query_lower then "lowercase"
      else "count_words" in
    Some (UseTextProcessor query operation)
  else None.

(** [_extract_preference] *)
Definition _extract_preference (message : string) : option (string * string) :=
  let message_lower := lower message in
  if contains "i like" message_lower || contains "i prefer" message_lower
  then
    if contains "python" message_lower then Some ("favorite_language", "Python")
    else if contains "javascript" message_lower then Some ("favorite_language", "JavaScript")
    else None
  else None.

(** The error count and the request count of the agent in a process. *)
Definition errors (p : process CapstoneAgent) : Z :=
  requests_error (metrics (self p)).

Definition total (p : process CapstoneAgent) : Z :=
  requests_total (metrics (self p)).

Section Chat.
Context `{Runtime} (w : world).

(** [self.tools[tool_name].execute] on the keyword arguments picked. *)
Definition run_tool (t : tool_call) : result string :=
  match t with
  | UseCalculator expression => Calculator.execute expression
  | UseTextProcessor text operation => Returns (TextProcessor.execute text operation)
  end.

(** The four blocks of the prompt, each present only when it is not empty. *)
Definition build_prompt (preferences : list (string * string)) (context : string)
    (tool_result : option string) (message : string) : string :=
  let prefs_part :=
    match preferences with
    | [] => []
    | _ => ["User preferences: " +:+
            join ", " (map (fun '(k, v) => k +:+ ": " +:+ v) preferences)]
    end in
  let context_part :=
    match context with
    | EmptyString => []
    | _ => ["Recent conversation:" +:+ newline +:+ context]
    end in
  let tool_part :=
    match truthy tool_result with
    | Some r => ["Tool result: " +:+ r]
    | None => []
    end in
  join (newline +:+ newline)
       (prefs_part ++ context_part ++ tool_part ++ ["User message: " +:+ message]).

(** The body of the [try] block of [chat]. *)
Definition chat_body (start_time : float) (message : string)
  : action CapstoneAgent string :=
  uid ← get user_id;
  match _extract_preference message with
  | Some (key, value) =>
      wo ← next_write w;
      call_raising (fun a =>
        let r := save_preference wo uid key value (long_term_memory a) in
        (r.1, on_long_term (fun _ => r.2) a));;
      log "INFO" "Preference saved"
          [("key", Observability.VStr key); ("value", Observability.VStr value)]
  | None => mret ()
  end;;
  d ← today w;
  update (on_short_term (ShortTerm.add_message d "user" message));;
  context ← call (fun a =>
    let r := ShortTerm.get_recent_context 3 (short_term_memory a) in
    (r.1, on_short_term (fun _ => r.2) a));
  preferences ← call (fun a =>
    let r := get_user_preferences uid (long_term_memory a) in
    (r.1, on_long_term (fun _ => r.2) a));
  let tool := _select_tool message in
  tool_result ←
    match tool with
    | Some t =>
        log "INFO" "Tool selected" [("tool", Observability.VStr (tool_name t))];;
        r ← lift (run_tool t);
        update (on_metrics (record_request true 0%float 0 (Some (tool_name t))));;
        mret (Some r)
    | None => mret None
    end;
  let prompt := build_prompt preferences context tool_result message in
  response ← ask_model w prompt;
  response_text ← lift response;
  d' ← today w;
  update (on_short_term (ShortTerm.add_message d' "assistant" response_text));;
  t ← now w;
  let response_time := PrimFloat.sub t start_time in
  let estimated_tokens := split_len message + split_len response_text in
  update (on_metrics
            (record_request true response_time estimated_tokens (tool_name <$> tool)));;
  rid ← get request_id;
  log "INFO" "Request completed"
      [("request_id", Observability.VStr (default "" rid));
       ("response_time", Observability.VFloat response_time);
       ("tokens", Observability.VInt estimated_tokens)];;
  mret response_text.

(** The [except Exception as e] block of [chat]. *)
Definition chat_handler (start_time : float) (e : exception)
  : action CapstoneAgent string :=
  t ← now w;
  let response_time := PrimFloat.sub t start_time in
  update (on_metrics (record_request false response_time 0 None));;
  rid ← get request_id;
  log "ERROR" "Request failed"
      [("request_id", Observability.VStr (default "" rid));
       ("error", Observability.VStr (exc_text e))];;
  mret ("Error: " +:+ exc_text e).

(** [CapstoneAgent.chat] *)
Definition chat (message : string) : action CapstoneAgent string :=
  rid ← fresh_uuid w;
  update (set_request_id rid);;
  start_time ← now w;
  uid ← get user_id;
  log "INFO" "Request started"
      [("request_id", Observability.VStr rid); ("user_id", Observability.VStr uid)];;
  try_except (chat_body start_time message) (chat_handler start_time).

(** [get_observability_report] *)
Record observability_report := ObservabilityReport {
  report_metrics : stats;
  report_user_preferences : list (string * string);
  report_conversation_turns : Z;
}.

Definition get_observability_report (a : CapstoneAgent)
  : observability_report * CapstoneAgent :=
  let s := get_stats (metrics a) in
  let a := on_metrics (fun _ => s.2) a in
  let p := get_user_preferences (user_id a) (long_term_memory a) in
  let a := on_long_term (fun _ => p.2) a in
  (ObservabilityReport s.1 p.1
     (len (ShortTerm.conversation_history (short_term_memory a)) / 2), a).

(** A session: [chat] on each message in turn, collecting the replies. *)
Fixpoint session (messages : list string) : action CapstoneAgent (list string) :=
  match messages with
  | [] => mret []
  | message :: rest =>
      reply ← chat message;
      replies ← session rest;
      mret (reply :: replies)
  end.

End Chat.

End Capstone.

(* ================================================================== *)
(** * Day 3: the agent with short-term memory *)
(* ================================================================== *)

Module ShortTermAgent.
Import Effects.

Record AgentWithShortTermMemory := Build {
  memory : ShortTerm.ShortTermMemory;
}.

(** [AgentWithShortTermMemory(api_key, max_history)] *)
Definition new (max_history : Z) : AgentWithShortTermMemory :=
  {| memory := ShortTerm.new max_history |}.

Definition on_memory (f : ShortTerm.ShortTermMemory -> ShortTerm.ShortTermMemory)
    (a : AgentWithShortTermMemory) : AgentWithShortTermMemory :=
  {| memory := f (memory a) |}.

(** The prompt of [chat]: the message alone when there is no context. *)
Definition build_prompt (context message : string) : string :=
  match context with
  | EmptyString => message
  | _ =>
      "You are a helpful AI assistant. Here is the recent conversation context:"
      +:+ newline +:+ newline +:+ context +:+ newline +:+ newline
      +:+ "Now respond to the user's latest message: " +:+ message
      +:+ newline +:+ newline
      +:+ "Provide a helpful response that takes into account the conversation context."
  end.

(** What [get_conversation_summary] and [run] report as turns. *)
Definition turns (a : AgentWithShortTermMemory) : Z :=
  len (ShortTerm.conversation_history (memory a)) / 2.

Section Methods.
Context (w : world).

(** [chat]: the reply, or the error text, is stored as the assistant's
    message either way. *)
Definition chat (message : string) : action AgentWithShortTermMemory string :=
  d ← today w;
  update (on_memory (ShortTerm.add_message d "user" message));;
  context ← call (fun a =>
    let r := ShortTerm.get_recent_context 5 (memory a) in
    (r.1, on_memory (fun _ => r.2) a));
  let prompt := build_prompt context message in
  try_except
    (response ← ask_model w prompt;
     response_text ← lift response;
     d' ← today w;
     update (on_memory (ShortTerm.add_message d' "assistant" response_text));;
     mret response_text)
    (fun e =>
     let error_msg := "Error: " +:+ exc_text e in
     d' ← today w;
     update (on_memory (ShortTerm.add_message d' "assistant" error_msg));;
     mret error_msg).

(** [get_conversation_summary]: the turns and a copy of the history. *)
Definition get_conversation_summary
  : action AgentWithShortTermMemory (Z * list ShortTerm.message) :=
  get (fun a => (turns a, ShortTerm.conversation_history (memory a))).

(** [clear_memory] *)
Definition clear_memory : action AgentWithShortTermMemory unit :=
  update (on_memory ShortTerm.clear).

(** [run]: the query, the response and the number of turns. *)
Definition run (query : string) : action AgentWithShortTermMemory (string * string * Z) :=
  response ← chat query;
  n ← get turns;
  mret (query, response, n).

(** [chat] on each message in turn, collecting the replies. *)
Fixpoint session (messages : list string) : action AgentWithShortTermMemory (list string) :=
  match messages with
  | [] => mret []
  | message :: rest =>
      reply ← chat message;
      replies ← session rest;
      mret (reply :: replies)
  end.

End Methods.

(** The messages a run of requests puts in the log, oldest first, without
    their timestamps. *)
Definition transcript (messages replies : list string) : list (string * string) :=
  concat (zip_with (fun m r => [("user", m); ("assistant", r)]) messages replies).

Definition spoken (m : ShortTerm.message) : string * string :=
  (ShortTerm.role m, ShortTerm.content m).

End ShortTermAgent.

(* ================================================================== *)
(** * Day 3: learned patterns and the agent with long-term memory *)
(* ================================================================== *)

Module LongTermAgent.
Import Json Effects.

(** ** The two pattern methods of [LongTermMemory] *)

(** [learn_pattern]: the entry is [{"data": ..., "learned_at": ...}]. *)
Definition learn_pattern (now : string) (w : write_outcome)
    (pattern_key pattern_data : string) (self : LongTerm.LongTermMemory)
  : LongTerm.LongTermMemory :=
  LongTerm._save_memory w
    {| LongTerm.memory :=
         {| users := users (LongTerm.memory self);
            conversations := conversations (LongTerm.memory self);
            learned_patterns :=
              <[pattern_key := (pattern_data, now)]>
                (learned_patterns (LongTerm.memory self)) |};
       LongTerm.storage := LongTerm.storage self;
       LongTerm.printed := LongTerm.printed self |}.

(** [get_learned_pattern] *)
Definition get_learned_pattern (pattern_key : string) (self : LongTerm.LongTermMemory)
  : option string :=
  fst <$> learned_patterns (LongTerm.memory self) !! pattern_key.

(** ** AgentWithLongTermMemory *)

(** The line [chat] prints after saving a preference. *)
Inductive console :=
| SavedPreference (key value : string).

Record AgentWithLongTermMemory := Build {
  memory : LongTerm.LongTermMemory;
  user_id : string;
  console_out : list console;
}.

(** [AgentWithLongTermMemory(api_key, storage_path, user_id)] over a store
    file. *)
Definition new (f : Json.file) (user_id : string) : AgentWithLongTermMemory :=
  {| memory := LongTerm.new f; user_id := user_id; console_out := [] |}.

Definition on_memory (f : LongTerm.LongTermMemory -> LongTerm.LongTermMemory)
    (a : AgentWithLongTermMemory) : AgentWithLongTermMemory :=
  {| memory := f (memory a); user_id := user_id a; console_out := console_out a |}.

Definition print (line : console) (a : AgentWithLongTermMemory) : AgentWithLongTermMemory :=
  {| memory := memory a; user_id := user_id a; console_out := console_out a ++ [line] |}.

(** The record of the agent's user, if the store has one. *)
Definition own_record (a : AgentWithLongTermMemory) : option user_record :=
  users (LongTerm.memory (memory a)) !! user_id a.

(** The context block of the prompt: the preferences line, then the history
    lines under their heading. *)
Definition context_parts (preferences : list (string * string))
    (history : list conversation) : list string :=
  (match preferences with
   | [] => []
   | _ => ["User preferences: " +:+
           join ", " (map (fun '(k, v) => k +:+ ": " +:+ v) preferences)]
   end)
  ++ (match history with
      | [] => []
      | _ =>
          (newline +:+ "Recent conversation history:")
          :: concat (map (fun conv => ["  User: " +:+ conv_query conv;
                                       "  Assistant: " +:+ conv_response conv])
                         history)
      end).

Definition build_prompt (preferences : list (string * string))
    (history : list conversation) (message : string) : string :=
  match join newline (context_parts preferences history) with
  | EmptyString => message
  | context =>
      "You are a helpful AI assistant with memory of user preferences and past conversations."
      +:+ newline +:+ newline +:+ context +:+ newline +:+ newline
      +:+ "Now respond to the user's message: " +:+ message
      +:+ newline +:+ newline
      +:+ "Use the context to provide personalized responses."
  end.

Section Methods.
Context (w : world).

(** [self.memory.save_user_preference(self.user_id, key, value)]: the clock
    is read once for a new record and once for [last_updated], and not at all
    when the record has no ["preferences"] key. *)
Definition save_user_preference (key value : string)
  : action AgentWithLongTermMemory unit :=
  r ← get own_record;
  now ← match r with
        | None => today w
        | Some _ => mret EmptyString
        end;
  match r ≫= (fun r => match preferences r with None => Some () | Some _ => None end) with
  | Some _ =>
      call_raising (fun a =>
        let o := LongTerm.save_user_preference now EmptyString Written
                   (user_id a) key value (memory a) in
        (o.1, on_memory (fun _ => o.2) a))
  | None =>
      now' ← today w;
      wo ← next_write w;
      call_raising (fun a =>
        let o := LongTerm.save_user_preference now now' wo
                   (user_id a) key value (memory a) in
        (o.1, on_memory (fun _ => o.2) a))
  end.

(** [self.memory.get_user_preferences(self.user_id)] *)
Definition get_user_preferences : action AgentWithLongTermMemory (list (string * string)) :=
  r ← get own_record;
  now ← match r with
        | None => today w
        | Some _ => mret EmptyString
        end;
  call (fun a =>
    let o := LongTerm.get_user_preferences now (user_id a) (memory a) in
    (o.1, on_memory (fun _ => o.2) a)).

(** [self.memory.add_conversation(self.user_id, query, response)] *)
Definition add_conversation (query response : string)
  : action AgentWithLongTermMemory unit :=
  now ← today w;
  wo ← next_write w;
  update (fun a =>
    on_memory (LongTerm.add_conversation now wo (user_id a) query response) a).

(** The body of the [try] block of [chat]. *)
Definition chat_body (prompt message : string) : action AgentWithLongTermMemory string :=
  response ← ask_model w prompt;
  response_text ← lift response;
  add_conversation message response_text;;
  mret response_text.

(** [chat].  The preference is saved before the [try] block, so a
    [KeyError] from the store is not caught. *)
Definition chat (message : string) : action AgentWithLongTermMemory string :=
  match LongTerm._extract_preference message with
  | Some (key, value) =>
      save_user_preference key value;;
      update (print (SavedPreference key value))
  | None => mret ()
  end;;
  preferences ← get_user_preferences;
  history ← get (fun a => LongTerm.get_user_history (user_id a) 3 (memory a));
  let prompt := build_prompt preferences history message in
  try_except (chat_body prompt message)
             (fun e => mret ("Error: " +:+ exc_text e)).

(** [get_user_info]: the user, the preferences, and the length of
    [get_user_history(user_id)] with its default limit of 10. *)
Definition get_user_info
  : action AgentWithLongTermMemory (string * list (string * string) * Z) :=
  preferences ← get_user_preferences;
  history ← get (fun a => LongTerm.get_user_history (user_id a) 10 (memory a));
  uid ← get user_id;
  mret (uid, preferences, len history).

(** [run]: the query, the response and the user. *)
Definition run (query : string) : action AgentWithLongTermMemory (string * string * string) :=
  response ← chat query;
  uid ← get user_id;
  mret (query, response, uid).

End Methods.

End LongTermAgent.

(* ================================================================== *)
(** * Day 4: recent traces, the report and sessions *)
(* ================================================================== *)

Module ObservableReport.
Import Observability Effects.

(** [Tracer.get_recent_traces(limit)] *)
Definition get_recent_traces (limit : Z) (self : Tracer) : list trace :=
  slice_from (- limit) (traces self).

(** [Tracer.finish_trace] on a tracer of its own. *)
Definition finish_trace (w : world) (span : TraceSpan) (trace_id : option string)
  : action Tracer trace :=
  t ← Observable.finished_trace w span trace_id;
  update (fun self => {| traces := traces self ++ [t] |});;
  mret t.

(** The dict of [ObservableAgent.get_observability_report]. *)
Record observability_report := ObservabilityReport {
  report_metrics : stats;
  recent_traces : list trace;
}.

(** [get_observability_report]: the statistics and the last five traces. *)
Definition get_observability_report `{Runtime}
  : action Observable.ObservableAgent observability_report :=
  s ← call_raising (fun a =>
         let r := get_stats (Observable.metrics a) in
         (r.1, Observable.on_metrics (fun _ => r.2) a));
  recent ← get (fun a => get_recent_traces 5 (Observable.tracer a));
  mret (ObservabilityReport s recent).

(** [run]: the query, the response and the request id. *)
Definition run (w : world) (query : string) (user_id : option string)
  : action Observable.ObservableAgent (string * string * option string) :=
  response ← Observable.chat w query user_id;
  rid ← get Observable.request_id;
  mret (query, response, rid).

(** [chat] on each message in turn, collecting the replies. *)
Fixpoint session (w : world) (messages : list (string * option string))
  : action Observable.ObservableAgent (list string) :=
  match messages with
  | [] => mret []
  | (message, user_id) :: rest =>
      reply ← Observable.chat w message user_id;
      replies ← session w rest;
      mret (reply :: replies)
  end.

(** The request count and the number of stored traces of the agent. *)
Definition total (q : process Observable.ObservableAgent) : Z :=
  requests_total (Observable.metrics (self q)).

Definition stored (q : process Observable.ObservableAgent) : list trace :=
  traces (Observable.tracer (self q)).

End ObservableReport.

(* ================================================================== *)
(** * Capstone: run *)
(* ================================================================== *)

Module CapstoneRun.
Import Effects.

(** [CapstoneAgent.run]: the query, the response and the request id. *)
Definition run `{Runtime} (w : world) (query : string)
  : action Capstone.CapstoneAgent (string * string * option string) :=
  response ← Capstone.chat w query;
  rid ← get Capstone.request_id;
  mret (query, response, rid).

(** The parts of the agent a request can touch. *)
Definition log_of (p : process Capstone.CapstoneAgent) : ShortTerm.ShortTermMemory :=
  Capstone.short_term_memory (self p).

Definition store_of (p : process Capstone.CapstoneAgent) : Capstone.LongTermMemory :=
  Capstone.long_term_memory (self p).

(** The record of the agent's user, if the store has one. *)
Definition own_record (p : process Capstone.CapstoneAgent) : option Json.user_record :=
  Json.users (Capstone.memory (store_of p)) !! Capstone.user_id (self p).

End CapstoneRun.

(* ================================================================== *)
(** * Day 3: what the long-term store holds for a user *)
(* ================================================================== *)

Module LongTermViews.
Import Json LongTerm.

(** The preferences [get_user_preferences] would return. *)
Definition prefs_of (user_id : string) (self : LongTermMemory) : list (string * string) :=
  default [] (users (memory self) !! user_id ≫= preferences).

(** The user's record, if there is one, has its ["preferences"] key. *)
Definition usable (user_id : string) (self : LongTermMemory) : Prop :=
  forall r, users (memory self) !! user_id = Some r -> preferences r <> None.

(** The record a successful [save_user_preference] stores for the user. *)
Definition saved_record (now now' user_id key value : string) (self : LongTermMemory)
  : user_record :=
  {| preferences := Some (dict_set key value (prefs_of user_id self));
     created_at := match users (memory self) !! user_id with
                   | Some r => created_at r
                   | None => Some now
                   end;
     last_updated := Some now' |}.

End LongTermViews.

(* ================================================================== *)
(** * Capstone: the evaluation harness ([evaluation.py])

    [AgentEvaluator] keeps an API key and a list of results that its test
    methods never read or write; what a test method works on is the agent it
    is given, which it mutates through [chat], and the console. *)

Module Evaluation.
Import Effects Capstone.

(** Two built-ins left to the interpreter: the [.1f] format of a float, and
    [sum] over floats, whose rounding differs between CPython versions. *)
Class Builtins := {
  format_1f : float -> string;
  float_sum : list float -> float;
}.

Record harness := Harness {
  agent : CapstoneAgent;
  stdout : list string;
}.

(** A method of the agent, run on the agent under test. *)
Definition on_agent {R} (m : action CapstoneAgent R) : action harness R :=
  fun p =>
    let r := m (Process (agent (self p)) (used p)) in
    (r.1, Process {| agent := self r.2; stdout := stdout (self p) |} (used r.2)).

Definition print (line : string) : action harness unit :=
  update (fun h => {| agent := agent h; stdout := stdout h ++ [line] |}).

(** [l[:stop]]: a negative [stop] counts from the end; both are clamped. *)
Definition slice_to {A} (stop : Z) (l : list A) : list A :=
  let i := if stop <? 0 then Z.max (len l + stop) 0 else Z.min stop (len l) in
  take (Z.to_nat i) l.

(** ** [test_observability] *)

Record observability_result := ObservabilityResult {
  metrics_available : bool;
  metrics_have_data : bool;
  passed : bool;
  result_metrics : stats;
}.

(** [report.get("metrics", {}).get("total_requests", 0) > 0] *)
Definition has_data (s : stats) : bool :=
  match s with
  | Stats r => 0 <? total_requests r
  | NoRequests _ => 0 <? 0
  end.

(** The report dict always has its ["metrics"] key. *)
Definition test_observability `{Runtime} (w : world) : action harness observability_result :=
  print "Testing Observability...";;
  on_agent (chat w "Hello");;
  on_agent (chat w "Calculate 5 + 3");;
  report ← on_agent (call get_observability_report);
  let metrics_available := true in
  let metrics_have_data := has_data (report_metrics report) in
  mret {| metrics_available := metrics_available;
          metrics_have_data := metrics_have_data;
          passed := metrics_available && metrics_have_data;
          result_metrics := report_metrics report |}.

(** ** [test_performance] *)

Definition queries : list string :=
  ["What is AI?"; "Calculate 10 * 5"; "Count words in: Hello world";
   "Explain machine learning"; "What is 100 / 4?"].

Record performance_result := PerformanceResult {
  average_response_time : string;
  success_rate : string;
  response_times : list (option float);
}.

(** The loop over the queries; [None] stands for a request that raised. *)
Fixpoint measure `{Runtime} (w : world) (todo : list string)
    (response_times : list (option float)) (successes : Z)
  : action harness (list (option float) * Z) :=
  match todo with
  | [] => mret (response_times, successes)
  | query :: rest =>
      start ← now w;
      r ← try_except
             (on_agent (chat w query);;
              t ← now w;
              let response_time := PrimFloat.sub t start in
              mret (response_times ++ [Some response_time], successes + 1))
             (fun _ => mret (response_times ++ [None], successes));
      measure w rest r.1 r.2
  end.

(** [if t] on an entry of [response_times]: [None] and both zeros are
    false. *)
Definition truth (t : option float) : bool :=
  match t with
  | Some x => negb (PrimFloat.eqb x 0%float)
  | None => false
  end.

(** [sum(t for t in response_times if t) / len([t for t in response_times
    if t]) if response_times else 0].  Without an entry that counts the
    quotient is [0 / 0] on two ints.  The [0] of an empty list is an int,
    which [.3f] prints as it prints the float. *)
Definition average `{Builtins} (response_times : list (option float)) : result float :=
  match response_times with
  | [] => Returns 0%float
  | _ =>
      match omap (fun t => if truth t then t else None) response_times with
      | [] => Raises (Exception "ZeroDivisionError" "division by zero")
      | counted => Returns (PrimFloat.div (float_sum counted) (float_of_int (len counted)))
      end
  end.

(** [(successes / num_queries) * 100]; the quotient of two ints below
    [2^53] is the quotient of their floats. *)
Definition rate (successes num_queries : Z) : result float :=
  if num_queries =? 0 then Raises (Exception "ZeroDivisionError" "division by zero")
  else Returns (PrimFloat.mul (PrimFloat.div (float_of_int successes)
                                             (float_of_int num_queries))
                              (float_of_int 100)).

Definition test_performance `{Runtime} `{Builtins} (w : world) (num_queries : Z)
  : action harness performance_result :=
  print ("Testing Performance (" +:+ str_int num_queries +:+ " queries)...");;
  r ← measure w (slice_to num_queries queries) [] 0;
  avg_time ← lift (average r.1);
  success ← lift (rate r.2 num_queries);
  mret {| average_response_time := format_3f avg_time +:+ "s";
          success_rate := format_1f success +:+ "%";
          response_times := r.1 |}.

End Evaluation.

(* ================================================================== *)
(** * Worlds and stores for the examples *)
(* ================================================================== *)

(** A world whose clock stands still and whose model repeats the prompt. *)
Definition silent_world : Effects.world :=
  Effects.World (fun _ => 0%float) (fun _ => "id") (fun _ => "today")
    (fun _ prompt => Returns (Returns prompt)) (fun _ => Json.Written).

Definition plain_runtime : Runtime :=
  Build_Runtime (fun _ => "") (fun _ => "") (fun _ => Returns "") (fun _ => "")
    (fun l => l) (fun l => Permutation_refl l).

Definition plain_builtins : Evaluation.Builtins :=
  Evaluation.Build_Builtins (fun _ => "") (fun _ => 0%float).

(** A memory file whose record for ["bob"] has lost its preferences. *)
Definition store_without_preferences : Json.memory :=
  {| Json.users := {["bob" := Json.UserRecord None (Some "t0") None]};
     Json.conversations := []; Json.learned_patterns := ∅ |}.

(* ================================================================== *)
(** * Properties *)
(* ================================================================== *)

(** ** Slices *)

Section Slices.
Context {A : Type}.
Implicit Types l : list A.

Lemma last_n_short k l : (length l <= k)%nat -> last_n k l = l.
Proof.
  intros Hle. unfold last_n.
  replace (length l - k)%nat with 0%nat by lia. reflexivity.
Qed.

Lemma length_last_n k l : length (last_n k l) = Nat.min k (length l).
Proof. unfold last_n. rewrite length_drop. lia. Qed.

Lemma last_n_suffix k l : last_n k l `suffix_of` l.
Proof. apply suffix_drop. Qed.

Lemma last_n_snoc k l x :
  (1 <= k)%nat -> last_n k (last_n k l ++ [x]) = last_n k (l ++ [x]).
Proof.
  intros Hk. unfold last_n at 1 3.
  rewrite !length_app, length_last_n. simpl.
  destruct (decide (length l <= k)%nat) as [Hle | Hgt].
  - rewrite (last_n_short k l) by lia.
    replace (Nat.min k (length l) + 1 - k)%nat with (length l + 1 - k)%nat by lia.
    reflexivity.
  - replace (Nat.min k (length l) + 1 - k)%nat with 1%nat by lia.
    unfold last_n.
    rewrite (drop_app_le l [x] (length l + 1 - k)) by lia.
    rewrite (drop_app_le (drop (length l - k) l) [x] 1) by (rewrite length_drop; lia).
    rewrite drop_drop. f_equal. f_equal. lia.
Qed.

(** [l[-k:]] for a positive [k] is the last [k] elements. *)
Lemma slice_from_negative (k : Z) l :
  0 < k -> slice_from (- k) l = last_n (Z.to_nat k) l.
Proof.
  intros Hk. unfold slice_from, last_n, len.
  replace (- k <? 0) with true by (symmetry; apply Z.ltb_lt; lia).
  f_equal. lia.
Qed.

(** [l[-0:]] is [l[0:]]: the whole list. *)
Lemma slice_from_zero l : slice_from (- 0) l = l.
Proof. unfold slice_from. simpl. unfold len. rewrite Z.min_l by lia. reflexivity. Qed.

End Slices.

(** ** Short-term memory *)

Module ShortTermFacts.
Import ShortTerm.

Lemma message_eta m : Message (role m) (content m) (timestamp m) = m.
Proof. destruct m; reflexivity. Qed.

(** With a positive capacity, one [add_message] keeps the last
    [2 * max_history] entries of the extended log. *)
Lemma add_message_last_n now r c self :
  1 <= max_history self ->
  conversation_history (add_message now r c self)
  = last_n (Z.to_nat (2 * max_history self))
           (conversation_history self ++ [Message r c now]).
Proof.
  intros Hcap. unfold add_message. cbn [conversation_history].
  destruct (Z.ltb_spec (max_history self * 2)
                       (len (conversation_history self ++ [Message r c now]))) as [Hlt | Hge].
  - replace (- max_history self * 2) with (- (2 * max_history self)) by lia.
    apply slice_from_negative. lia.
  - symmetry. apply last_n_short. unfold len in Hge. lia.
Qed.

Lemma add_message_max_history now r c self :
  max_history (add_message now r c self) = max_history self.
Proof. reflexivity. Qed.

Lemma add_messages_max_history calls self :
  max_history (add_messages calls self) = max_history self.
Proof.
  revert self. induction calls as [| m calls IH]; intros self; [reflexivity |].
  unfold add_messages in *. cbn [foldl]. rewrite IH. apply add_message_max_history.
Qed.

(** The log after a run of appends, when the log before it was itself the
    tail of an earlier run [before]. *)
Lemma add_messages_last_n calls : forall self before,
  1 <= max_history self ->
  conversation_history self = last_n (Z.to_nat (2 * max_history self)) before ->
  conversation_history (add_messages calls self)
  = last_n (Z.to_nat (2 * max_history self)) (before ++ calls).
Proof.
  induction calls as [| m calls IH]; intros self before Hcap Hself.
  - rewrite app_nil_r. exact Hself.
  - unfold add_messages in *. cbn [foldl].
    replace (before ++ m :: calls) with ((before ++ [m]) ++ calls)
      by (rewrite <- app_assoc; reflexivity).
    rewrite <- (add_message_max_history (timestamp m) (role m) (content m) self).
    apply IH.
    + rewrite add_message_max_history. exact Hcap.
    + rewrite add_message_last_n, add_message_max_history, message_eta, Hself by exact Hcap.
      apply last_n_snoc. lia.
Qed.

(** The bounded log: for a capacity of at least one turn, after any run of
    appends to a new log the stored history is the last [2 * max_history]
    messages appended, in the order they were appended, and so never longer
    than [2 * max_history]. *)
Theorem add_messages_bounded (n : Z) (calls : list message) :
  1 <= n ->
  let log := conversation_history (add_messages calls (new n)) in
  log = last_n (Z.to_nat (2 * n)) calls
  /\ len log <= 2 * n
  /\ log `suffix_of` calls.
Proof.
  intros Hn log.
  assert (Hlog : log = last_n (Z.to_nat (2 * n)) calls).
  { unfold log.
    rewrite (add_messages_last_n calls (new n) []); [reflexivity | exact Hn | reflexivity]. }
  split; [exact Hlog |]. split.
  - rewrite Hlog. unfold len. rewrite length_last_n. lia.
  - rewrite Hlog. apply last_n_suffix.
Qed.

Lemma add_messages_bounded_witness :
  1 <= 1 /\
  conversation_history
    (add_messages [Message "user" "a" "t1"; Message "assistant" "b" "t2";
                   Message "user" "c" "t3"] (new 1))
  = [Message "assistant" "b" "t2"; Message "user" "c" "t3"].
Proof.
  split; [lia |].
  exact (proj1 (add_messages_bounded 1
    [Message "user" "a" "t1"; Message "assistant" "b" "t2"; Message "user" "c" "t3"]
    ltac:(lia))).
Defined.

(** With a capacity of zero the slice is [history[-0:]], the whole list:
    nothing is ever evicted. *)
Lemma add_messages_capacity_zero calls : forall self,
  max_history self = 0 ->
  conversation_history (add_messages calls self) = conversation_history self ++ calls.
Proof.
  induction calls as [| m calls IH]; intros self Hzero.
  - rewrite app_nil_r. reflexivity.
  - unfold add_messages in *. cbn [foldl]. rewrite IH by exact Hzero.
    unfold add_message. cbn [conversation_history]. rewrite Hzero, message_eta.
    replace (0 * 2 <? len (conversation_history self ++ [m])) with true.
    + change (- 0 * 2) with (- 0). rewrite slice_from_zero, <- app_assoc. reflexivity.
    + symmetry. apply Z.ltb_lt. unfold len. rewrite length_app. simpl. lia.
Qed.

(** C1, at the capacity the code mishandles.  A log built with
    [max_history = 0] keeps every message ever appended, so its length
    exceeds [2 * max_history] from the first append on. *)
Theorem add_message_capacity_zero_unbounded :
  (forall calls, conversation_history (add_messages calls (new 0)) = calls)
  /\ len (conversation_history (add_message "t1" "user" "hello" (new 0))) = 1
  /\ 2 * max_history (add_message "t1" "user" "hello" (new 0)) = 0.
Proof.
  split; [| split; reflexivity].
  intros calls. apply (add_messages_capacity_zero calls (new 0)). reflexivity.
Qed.

(** For at least one turn, the slice of [get_recent_context] is the last
    [2 * num_turns] entries, all of them when the log is shorter. *)
Lemma recent_last_n num_turns self :
  1 <= num_turns ->
  recent num_turns self = last_n (Z.to_nat (2 * num_turns)) (conversation_history self).
Proof.
  intros Hn. unfold recent.
  replace (- num_turns * 2) with (- (2 * num_turns)) by lia.
  apply slice_from_negative. lia.
Qed.

(** The recent-context query for at least one turn: the text is the lines of
    the last [min (2 * num_turns) length] entries in log order, it is empty on
    an empty log, and the log is returned as it was. *)
Theorem get_recent_context_positive (num_turns : Z) (self : ShortTermMemory) :
  1 <= num_turns ->
  let shown := last_n (Z.to_nat (2 * num_turns)) (conversation_history self) in
  get_recent_context num_turns self = (join newline (map line shown), self)
  /\ len shown = Z.min (2 * num_turns) (len (conversation_history self))
  /\ shown `suffix_of` conversation_history self.
Proof.
  intros Hn shown. split; [| split].
  - unfold get_recent_context. rewrite recent_last_n by exact Hn. fold shown.
    destruct (conversation_history self) eqn:Hh; [| reflexivity].
    subst shown. rewrite last_n_short by (simpl; lia). reflexivity.
  - unfold shown, len. rewrite length_last_n. lia.
  - apply last_n_suffix.
Qed.

Lemma get_recent_context_positive_witness :
  1 <= 1 /\
  get_recent_context 1
    (Build 10 [Message "user" "a" "t1"; Message "assistant" "b" "t2";
               Message "user" "c" "t3"])
  = ("Assistant: b" +:+ newline +:+ "User: c",
     Build 10 [Message "user" "a" "t1"; Message "assistant" "b" "t2";
               Message "user" "c" "t3"]).
Proof.
  split; [lia |].
  exact (proj1 (get_recent_context_positive 1
    (Build 10 [Message "user" "a" "t1"; Message "assistant" "b" "t2";
               Message "user" "c" "t3"]) ltac:(lia))).
Defined.

(** C5, at the argument the code mishandles.  [get_recent_context(0)] slices
    [history[-0:]] and so shows the whole log, where [min(2 * 0, length)]
    entries would be none. *)
Theorem get_recent_context_zero_shows_all :
  (forall self, recent 0 self = conversation_history self)
  /\ get_recent_context 0
       (Build 10 [Message "user" "a" "t1"; Message "assistant" "b" "t2";
                  Message "user" "c" "t3"])
     = ("User: a" +:+ newline +:+ "Assistant: b" +:+ newline +:+ "User: c",
        Build 10 [Message "user" "a" "t1"; Message "assistant" "b" "t2";
                  Message "user" "c" "t3"]).
Proof.
  split; [| reflexivity].
  intros self. unfold recent. change (- 0 * 2) with (- 0). apply slice_from_zero.
Qed.

End ShortTermFacts.

(** ** Counters *)

Lemma counter_total_insert k v (d : gmap string Z) :
  d !! k = None -> counter_total (<[k := v]> d) = v + counter_total d.
Proof.
  intros Hk. unfold counter_total.
  rewrite map_fold_insert_L; [reflexivity | | exact Hk].
  intros. lia.
Qed.

(** [d[k] += 1] adds one to the sum of the counts. *)
Lemma counter_total_incr k (d : gmap string Z) :
  counter_total (counter_incr k d) = counter_total d + 1.
Proof.
  unfold counter_incr. destruct (d !! k) as [v |] eqn:Hk; simpl.
  - rewrite <- (insert_delete_id d k v Hk) at 2.
    rewrite <- insert_delete_eq.
    rewrite !counter_total_insert by apply lookup_delete_eq. lia.
  - rewrite counter_total_insert by exact Hk. lia.
Qed.

Lemma counter_total_empty : counter_total ∅ = 0.
Proof. reflexivity. Qed.

(** ** Metrics: the counters after any run of records *)

Module MetricsFacts.

Lemma day4_new_consistent : Observability.consistent Observability.new.
Proof. unfold Observability.consistent. simpl. rewrite counter_total_empty. unfold len. simpl. lia. Qed.

Lemma capstone_new_consistent : Capstone.consistent Capstone.new_metrics.
Proof.
  unfold Capstone.consistent. simpl. rewrite counter_total_empty. unfold len. simpl. lia.
Qed.

Lemma day4_record_consistent success response_time tokens error_type m :
  Observability.consistent m ->
  Observability.consistent (Observability.record_request success response_time tokens error_type m).
Proof.
  intros (Htotal & Hsucc & Htags & Htimes). unfold Observability.consistent, len in *.
  cbn [Observability.record_request Observability.requests_total
       Observability.requests_success Observability.requests_error
       Observability.errors_by_type Observability.request_times].
  rewrite length_app. cbn [length].
  destruct success.
  - repeat split; lia.
  - destruct (truthy error_type) as [t |].
    + rewrite counter_total_incr. repeat split; lia.
    + repeat split; lia.
Qed.

Lemma capstone_record_consistent success response_time tokens tool_used m :
  Capstone.consistent m ->
  Capstone.consistent (Capstone.record_request success response_time tokens tool_used m).
Proof.
  intros (Htotal & Hsucc & Herr & Htags & Htimes). unfold Capstone.consistent, len in *.
  cbn [Capstone.record_request Capstone.requests_total Capstone.requests_success
       Capstone.requests_error Capstone.tools_used Capstone.request_times].
  rewrite length_app. cbn [length].
  destruct (truthy tool_used) as [t |]; [rewrite counter_total_incr |];
    destruct success; repeat split; lia.
Qed.

Lemma day4_record_all_consistent calls : forall m,
  Observability.consistent m -> Observability.consistent (Observability.record_all calls m).
Proof.
  induction calls as [| [[[success response_time] tokens] error_type] calls IH];
    intros m Hm; [exact Hm |].
  unfold Observability.record_all in *. cbn [foldl].
  apply IH, day4_record_consistent, Hm.
Qed.

Lemma capstone_record_all_consistent calls : forall m,
  Capstone.consistent m -> Capstone.consistent (Capstone.record_all calls m).
Proof.
  induction calls as [| [[[success response_time] tokens] tool_used] calls IH];
    intros m Hm; [exact Hm |].
  unfold Capstone.record_all in *. cbn [foldl].
  apply IH, capstone_record_consistent, Hm.
Qed.

(** C7.  After any run of [record_request] calls on a new collector, of
    either class, the total is the sum of the successes and the errors, and
    the counts by tag add up to at most the total. *)
Theorem record_request_counts
    (calls calls' : list (bool * float * Z * option string)) :
  let m := Observability.record_all calls Observability.new in
  let c := Capstone.record_all calls' Capstone.new_metrics in
  (Observability.requests_total m
   = Observability.requests_success m + Observability.requests_error m
   /\ counter_total (Observability.errors_by_type m) <= Observability.requests_total m)
  /\ (Capstone.requests_total c = Capstone.requests_success c + Capstone.requests_error c
      /\ counter_total (Capstone.tools_used c) <= Capstone.requests_total c).
Proof.
  intros m c. split.
  - destruct (day4_record_all_consistent calls _ day4_new_consistent)
      as (Htotal & Hsucc & Htags & _).
    fold m in Htotal, Hsucc, Htags. split; [exact Htotal | lia].
  - destruct (capstone_record_all_consistent calls' _ capstone_new_consistent)
      as (Htotal & _ & _ & Htags & _).
    fold c in Htotal, Htags. split; assumption.
Qed.

(** C10.  [get_stats] is a read: it returns the collector as it received
    it, so every counter, the counts by tag and the list of latencies are
    unchanged, and asking again gives the same answer. *)
Theorem get_stats_read_only `{Runtime}
    (m : Observability.MetricsCollector) (c : Capstone.MetricsCollector) :
  (snd (Observability.get_stats m) = m
   /\ Observability.get_stats (snd (Observability.get_stats m)) = Observability.get_stats m)
  /\ (snd (Capstone.get_stats c) = c
      /\ Capstone.get_stats (snd (Capstone.get_stats c)) = Capstone.get_stats c).
Proof.
  assert (Hm : snd (Observability.get_stats m) = m).
  { unfold Observability.get_stats.
    destruct (Observability.requests_total m =? 0); reflexivity. }
  assert (Hc : snd (Capstone.get_stats c) = c).
  { unfold Capstone.get_stats.
    destruct (Capstone.requests_total c =? 0); reflexivity. }
  split; split; try assumption.
  - rewrite Hm. reflexivity.
  - rewrite Hc. reflexivity.
Qed.

End MetricsFacts.

(** ** Metrics: percentiles *)

Module PercentileFacts.
Import Observability.









(** ** The stable sort *)

Lemma insert_sorted_permutation x l : insert_sorted x l ≡ₚ x :: l.
Proof.
  induction l as [| y l IH]; simpl; [reflexivity |].
  destruct (PrimFloat.ltb y x); [| reflexivity].
  rewrite IH. apply Permutation_swap.
Qed.

Lemma stable_sort_permutation l : stable_sort l ≡ₚ l.
Proof.
  induction l as [| x l IH]; simpl; [reflexivity |].
  rewrite insert_sorted_permutation, IH. reflexivity.
Qed.







Section Sorted.
Context `{Runtime}.



Lemma sorted_permutation l : sorted l ≡ₚ l.
Proof.
  unfold sorted. destruct (existsb PrimFloat.is_nan l).
  - apply sorted_with_nan_permutation.
  - apply stable_sort_permutation.
Qed.

Lemma length_sorted l : length (sorted l) = length l.
Proof. apply Permutation_length, sorted_permutation. Qed.


Lemma len_sorted l : len (sorted l) = len l.
Proof. unfold len. rewrite length_sorted. reflexivity. Qed.

Lemma sorted_nonempty l : l <> [] -> sorted l <> [].
Proof.
  intros Hl Hs. apply Hl, length_zero_iff_nil.
  rewrite <- length_sorted, Hs. reflexivity.
Qed.

End Sorted.

Lemma list_index_lookup {A} (l : list A) i a :
  0 <= i -> l !! Z.to_nat i = Some a -> list_index l i = Returns a.
Proof.
  intros Hi Ha. unfold list_index.
  destruct (Z.ltb_spec i 0) as [Hneg | _]; [lia |].
  cbv zeta. destruct (Z.ltb_spec i 0) as [Hneg | _]; [lia |].
  rewrite Ha. reflexivity.
Qed.

Lemma percentile_lookup index (l : list float) i a :
  l <> [] -> index (len l) = Returns i -> 0 <= i -> l !! Z.to_nat i = Some a ->
  percentile index l = Returns a.
Proof.
  intros Hl Hindex Hi Ha. unfold percentile.
  destruct l as [| x l']; [congruence |].
  rewrite Hindex. simpl. apply list_index_lookup; assumption.
Qed.

Lemma all_from_spec ok count : forall n k,
  all_from ok count n = true -> n <= k < n + Z.of_nat count -> ok k = true.
Proof.
  induction count as [| count IH]; intros n k Hall Hk; [lia |].
  simpl in Hall. apply andb_true_iff in Hall as [Hn Hrest].
  destruct (decide (k = n)) as [-> | Hne]; [exact Hn |].
  apply (IH (n + 1)); [exact Hrest | lia].
Qed.

(** [int(n * 0.95)] in binary64 against the exact [floor (95 n / 100)], for
    every length up to 20000, by evaluation. *)
Lemma p95_index_checked : all_from p95_index_exact (Z.to_nat 20001) 0 = true.
Proof. vm_compute. reflexivity. Qed.

Lemma p95_index_floor n :
  0 <= n <= 20000 -> p95_index n = Returns (95 * n / 100).
Proof.
  intros Hn.
  assert (Hk : p95_index_exact n = true).
  { apply (all_from_spec _ _ _ _ p95_index_checked). rewrite Z2Nat.id; lia. }
  unfold p95_index_exact in Hk.
  destruct (p95_index n) as [i | e]; [| discriminate].
  f_equal. apply Z.eqb_eq, Hk.
Qed.

(** The middle index [n // 2] always lies inside a non-empty list. *)
Lemma p50_lookup (l : list float) :
  l <> [] -> exists a, l !! Z.to_nat (len l / 2) = Some a.
Proof.
  intros Hl. apply lookup_lt_is_Some_2.
  assert (0 < len l) by (unfold len; destruct l; [congruence | simpl; lia]).
  assert (len l / 2 < len l) by (apply Z.div_lt; lia).
  assert (0 <= len l / 2) by (apply Z.div_pos; lia).
  unfold len in *. lia.
Qed.

Section Stats.
Context `{Runtime}.

(** The report of [get_stats] once both percentiles are known. *)
Lemma get_stats_report (self : MetricsCollector) p50 p95 :
  requests_total self <> 0 ->
  percentile p50_index (sorted (request_times self)) = Returns p50 ->
  percentile p95_index (sorted (request_times self)) = Returns p95 ->
  exists r,
    get_stats self = (Returns (Stats r), self)
    /\ p50_response_time_seconds r = format_3f p50
    /\ p95_response_time_seconds r = format_3f p95
    /\ total_requests r = requests_total self.
Proof.
  intros Htotal H50 H95. unfold get_stats.
  replace (requests_total self =? 0) with false by (symmetry; apply Z.eqb_neq, Htotal).
  rewrite H50, H95. simpl. eexists. split; [reflexivity |]. repeat split.
Qed.

End Stats.

Lemma p95_floor_bounds n : 1 <= n -> 0 <= 95 * n / 100 < n.
Proof.
  intros Hn. split.
  - apply Z.div_pos; lia.
  - apply Z.div_lt_upper_bound; lia.
Qed.



End PercentileFacts.

(** ** Requests: reasoning backwards through a block *)

Module EffectsFacts.
Import Effects.

Section Logic.
Context {A : Type}.
Implicit Types p : process A.

Lemma wp_ret {R} (r : R) (Q : result R -> process A -> Prop) p :
  Q (Returns r) p -> wp (mret r) Q p.
Proof. exact (fun H => H). Qed.

Lemma wp_bind {R R'} (m : action A R) (k : R -> action A R') Q p :
  wp m (fun r p' => match r with
                    | Returns a => wp (k a) Q p'
                    | Raises e => Q (Raises e) p'
                    end) p ->
  wp (m ≫= k) Q p.
Proof.
  unfold wp, mbind, action_bind. destruct (m p) as [[a | e] p']; simpl; auto.
Qed.

Lemma wp_try {R} (body : action A R) handler Q p :
  wp body (fun r p' => match r with
                       | Returns a => Q (Returns a) p'
                       | Raises e => wp (handler e) Q p'
                       end) p ->
  wp (try_except body handler) Q p.
Proof.
  unfold wp, try_except. destruct (body p) as [[a | e] p']; simpl; auto.
Qed.

Lemma wp_update (f : A -> A) Q p :
  Q (Returns ()) (Process (f (self p)) (used p)) -> wp (update f) Q p.
Proof. exact (fun H => H). Qed.

Lemma wp_get {R} (f : A -> R) Q p : Q (Returns (f (self p))) p -> wp (get f) Q p.
Proof. exact (fun H => H). Qed.

Lemma wp_call {R} (f : A -> R * A) Q p :
  Q (Returns (f (self p)).1) (Process (f (self p)).2 (used p)) -> wp (call f) Q p.
Proof. exact (fun H => H). Qed.

Lemma wp_call_raising {R} (f : A -> result R * A) Q p :
  Q (f (self p)).1 (Process (f (self p)).2 (used p)) -> wp (call_raising f) Q p.
Proof. exact (fun H => H). Qed.

Lemma wp_lift {R} (r : result R) Q p : Q r p -> wp (lift r) Q p.
Proof. exact (fun H => H). Qed.

Lemma wp_raise {R} e (Q : result R -> process A -> Prop) p :
  Q (Raises e) p -> wp (raise e) Q p.
Proof. exact (fun H => H). Qed.

(** The clock, the uuids, the dates and the file writes leave the agent and
    the count [n] of model calls alone; what they answer is arbitrary. *)
Lemma wp_now w n Q p :
  model_calls (used p) = n ->
  (forall t u, model_calls u = n -> Q (Returns t) (Process (self p) u)) ->
  wp (now w) Q p.
Proof. intros Hn HQ. apply HQ. exact Hn. Qed.

Lemma wp_fresh_uuid w n Q p :
  model_calls (used p) = n ->
  (forall i u, model_calls u = n -> Q (Returns i) (Process (self p) u)) ->
  wp (fresh_uuid w) Q p.
Proof. intros Hn HQ. apply HQ. exact Hn. Qed.

Lemma wp_today w n Q p :
  model_calls (used p) = n ->
  (forall d u, model_calls u = n -> Q (Returns d) (Process (self p) u)) ->
  wp (today w) Q p.
Proof. intros Hn HQ. apply HQ. exact Hn. Qed.

Lemma wp_next_write w n Q p :
  model_calls (used p) = n ->
  (forall o u, model_calls u = n -> Q (Returns o) (Process (self p) u)) ->
  wp (next_write w) Q p.
Proof. intros Hn HQ. apply HQ. exact Hn. Qed.

(** The model answers the prompt of call [n], whatever it answers. *)
Lemma wp_ask_model w n prompt Q p :
  model_calls (used p) = n ->
  (forall u, Q (generate_content w n prompt) (Process (self p) u)) ->
  wp (ask_model w prompt) Q p.
Proof. intros Hn HQ. unfold wp, ask_model. simpl. rewrite Hn. apply HQ. Qed.

Lemma wp_outcome {R} (m : action A R) Q p :
  wp m Q p -> exists r p', m p = (r, p') /\ Q r p'.
Proof. intros HQ. exists (m p).1, (m p).2. split; [apply surjective_pairing | exact HQ]. Qed.

End Logic.

Ltac wp_count := cbn [used]; first [eassumption | reflexivity].

Ltac wp_step :=
  lazymatch goal with
  | |- wp (_ ≫= _) _ _ => apply wp_bind
  | |- wp (mret _) _ _ => apply wp_ret
  | |- wp (try_except _ _) _ _ => apply wp_try
  | |- wp (update _) _ _ => apply wp_update
  | |- wp (get _) _ _ => apply wp_get
  | |- wp (call _) _ _ => apply wp_call
  | |- wp (call_raising _) _ _ => apply wp_call_raising
  | |- wp (lift _) _ _ => apply wp_lift
  | |- wp (raise _) _ _ => apply wp_raise
  | |- wp (now _) _ _ => eapply wp_now; [wp_count | intros ? ? ?]
  | |- wp (fresh_uuid _) _ _ => eapply wp_fresh_uuid; [wp_count | intros ? ? ?]
  | |- wp (today _) _ _ => eapply wp_today; [wp_count | intros ? ? ?]
  | |- wp (next_write _) _ _ => eapply wp_next_write; [wp_count | intros ? ? ?]
  | |- wp (ask_model _ _) _ _ => eapply wp_ask_model; [wp_count | intros ?]
  | |- wp (match ?x with _ => _ end) _ _ => destruct x eqn:?
  | |- match ?r with Returns _ => _ | Raises _ => _ end => destruct r eqn:?
  end; cbv beta iota zeta; cbn [self used fst snd].

End EffectsFacts.

(** ** The capstone agent and the observable agent *)

Module ChatFacts.
Import Effects EffectsFacts.

Ltac close_recovered :=
  eexists; split; [reflexivity |];
  first [ left; split; [reflexivity | subst; eexists; eassumption]
        | right; split; [reflexivity | eexists; reflexivity] ].

Section Capstone.
Import Capstone.
Context `{Runtime} (w : world).

(** Neither tool raises: the calculator catches what [eval] raises. *)
Lemma run_tool_returns (t : tool_call) : exists text, run_tool t = Returns text.
Proof.
  destruct t as [expression | text operation]; simpl.
  - unfold Calculator.execute.
    destruct (Calculator.py_eval (Calculator.sanitize expression)); simpl; eauto.
  - eauto.
Qed.

Lemma capstone_chat_wp message (p : process CapstoneAgent) :
  wp (chat w message)
     (fun r p' => recovered w (model_calls (used p)) (Capstone.errors p) (Capstone.errors p') r)
     p.
Proof.
  unfold chat, chat_body, chat_handler, log.
  repeat wp_step.
  all: unfold recovered, Capstone.errors;
    cbn [self used metrics on_metrics on_short_term on_long_term set_request_id
         append_log record_request requests_error].
  all: close_recovered.
Qed.

(** How many samples one [chat] records: one when no tool is selected, two
    when a tool is selected and no preference is saved first, and one or two
    in every case. *)
Lemma capstone_chat_total_wp message (p : process CapstoneAgent) :
  wp (chat w message)
     (fun _ p' =>
        (_select_tool message = None -> Capstone.total p' = Capstone.total p + 1)
        /\ (_select_tool message <> None -> _extract_preference message = None ->
            Capstone.total p' = Capstone.total p + 2)
        /\ Capstone.total p + 1 <= Capstone.total p' <= Capstone.total p + 2)
     p.
Proof.
  unfold chat, chat_body, chat_handler, log.
  repeat wp_step.
  all: unfold Capstone.total;
    cbn [self used metrics on_metrics on_short_term on_long_term set_request_id
         append_log record_request requests_total].
  all: try match goal with
           | Hr : run_tool ?t = Raises _ |- _ =>
               destruct (run_tool_returns t) as [? ?]; congruence
           end.
  all: repeat split; intros; try congruence; lia.
Qed.

Lemma capstone_chat_total message (p : process CapstoneAgent) :
  (_select_tool message = None ->
   Capstone.total (chat w message p).2 = Capstone.total p + 1)
  /\ (_select_tool message <> None -> _extract_preference message = None ->
      Capstone.total (chat w message p).2 = Capstone.total p + 2)
  /\ Capstone.total p + 1 <= Capstone.total (chat w message p).2 <= Capstone.total p + 2.
Proof. exact (capstone_chat_total_wp message p). Qed.

End Capstone.

Section Observable.
Import Observable.
Context (w : world).

Lemma observable_chat_wp message user (q : process ObservableAgent) :
  wp (chat w message user)
     (fun r q' =>
        recovered w (model_calls (used q)) (Observable.errors q) (Observable.errors q') r)
     q.
Proof.
  unfold chat, finish_trace, finished_trace, duration, start_trace, log_to.
  repeat wp_step.
  all: unfold recovered, Observable.errors;
    cbn [self used metrics on_metrics store_trace set_request_id
         Observability.record_request Observability.requests_error].
  all: close_recovered.
Qed.

End Observable.

(** C3.  [chat] never raises.  From every state of either agent, for every
    message and whatever the clock, the file system and the model do, it
    returns a text: the reply of the model to this request's prompt, with the
    error count unchanged, or a text of the form ["Error: ..."], with exactly
    one more error recorded. *)
Theorem chat_never_raises `{Runtime} (w : world) (message : string) (user : option string)
    (p : process Capstone.CapstoneAgent) (q : process Observable.ObservableAgent) :
  (exists text p',
     Capstone.chat w message p = (Returns text, p')
     /\ ((Capstone.errors p' = Capstone.errors p
          /\ exists prompt,
               generate_content w (model_calls (used p)) prompt = Returns (Returns text))
         \/ (Capstone.errors p' = Capstone.errors p + 1
             /\ exists e, text = "Error: " +:+ exc_text e)))
  /\ (exists text q',
        Observable.chat w message user q = (Returns text, q')
        /\ ((Observable.errors q' = Observable.errors q
             /\ exists prompt,
                  generate_content w (model_calls (used q)) prompt = Returns (Returns text))
            \/ (Observable.errors q' = Observable.errors q + 1
                /\ exists e, text = "Error: " +:+ exc_text e))).
Proof.
  split.
  - destruct (wp_outcome _ _ _ (capstone_chat_wp w message p))
      as (r & p' & Hchat & text & -> & Hcases).
    exists text, p'. split; assumption.
  - destruct (wp_outcome _ _ _ (observable_chat_wp w message user q))
      as (r & q' & Hchat & text & -> & Hcases).
    exists text, q'. split; assumption.
Qed.

(** C2, on a message that selects a tool.  For ["Calculate 25 * 4 + 10"] the
    capstone [chat] calls [record_request] twice, once after the tool ran and
    once at the end of the request (or in the handler, when the model call
    fails): from every state and in every world the total request count
    rises by 2, where one sample per request would make it rise by 1. *)
Theorem chat_counts_tool_request_twice `{Runtime} (w : world)
    (p : process Capstone.CapstoneAgent) :
  Capstone._select_tool "Calculate 25 * 4 + 10"
  = Some (Capstone.UseCalculator "Calculate 25 * 4 + 10")
  /\ Capstone.total (Capstone.chat w "Calculate 25 * 4 + 10" p).2 = Capstone.total p + 2.
Proof.
  assert (Htool : Capstone._select_tool "Calculate 25 * 4 + 10"
                  = Some (Capstone.UseCalculator "Calculate 25 * 4 + 10"))
    by (vm_compute; reflexivity).
  split; [exact Htool |].
  apply (capstone_chat_total w "Calculate 25 * 4 + 10" p).
  - rewrite Htool. discriminate.
  - vm_compute. reflexivity.
Qed.

End ChatFacts.

(** ** The calculator tool *)

Module CalculatorFacts.
Import Calculator.

Lemma sanitize_filter expression :
  list_ascii_of_string (sanitize expression)
  = List.filter kept (list_ascii_of_string expression).
Proof.
  unfold sanitize. induction expression as [| c rest IH]; [reflexivity |].
  simpl. destruct (kept c); simpl; rewrite IH; reflexivity.
Qed.

Lemma sanitize_idempotent expression : sanitize (sanitize expression) = sanitize expression.
Proof.
  unfold sanitize. induction expression as [| c rest IH]; [reflexivity |].
  simpl. destruct (kept c) eqn:Hc; [| exact IH].
  simpl. rewrite Hc, IH. reflexivity.
Qed.

Section Execute.
Context `{Runtime}.

(** Whatever [eval] does, [execute] returns a text: the value after
    ["Result: "], or the text of the exception after ["Error: "]. *)
Lemma execute_returns expression :
  exists text,
    execute expression = Returns text
    /\ match py_eval (sanitize expression) with
       | Returns v => text = "Result: " +:+ v
       | Raises e => text = "Error: " +:+ exc_text e
       end.
Proof.
  unfold execute. destruct (py_eval (sanitize expression)) as [v | e]; simpl; eauto.
Qed.

Lemma execute_sanitized expression : execute (sanitize expression) = execute expression.
Proof. unfold execute. rewrite sanitize_idempotent. reflexivity. Qed.

Lemma execute_nothing_left expression :
  sanitize expression = "" ->
  execute expression = Returns ("Error: " +:+ syntax_error_text "").
Proof. intros Hempty. unfold execute. rewrite Hempty. reflexivity. Qed.

(** C8.  [execute] keeps exactly the characters of the class
    [0-9+\-*/().\s], in their order, and evaluates what is left.
    - It always returns a text and never raises: ["Result: v"] when [eval]
      returns [v], ["Error: ..."] with the text of the exception when [eval]
      raises, whatever the expression is.
    - ["Calculate 25 * 4 + 10"] gives ["Result: 110"].
    - An input with no character left after sanitising gives the error text of
      the syntax error for the empty source; a division by zero gives
      ["Error: division by zero"]. *)
Theorem calculator_execute :
  (forall expression,
     exists text,
       execute expression = Returns text
       /\ match py_eval (sanitize expression) with
          | Returns v => text = "Result: " +:+ v
          | Raises e => text = "Error: " +:+ exc_text e
          end)
  /\ (forall expression,
        list_ascii_of_string (sanitize expression)
        = List.filter kept (list_ascii_of_string expression)
        /\ execute (sanitize expression) = execute expression)
  /\ execute "Calculate 25 * 4 + 10" = Returns "Result: 110"
  /\ (forall expression,
        sanitize expression = "" ->
        execute expression = Returns ("Error: " +:+ syntax_error_text ""))
  /\ execute "What is love?" = Returns ("Error: " +:+ syntax_error_text "  ")
  /\ execute "1/0" = Returns "Error: division by zero"
  /\ execute "Compute 10 / (5 - 5)" = Returns "Error: division by zero".
Proof.
  split; [exact execute_returns |].
  split; [intros expression; split; [apply sanitize_filter | apply execute_sanitized] |].
  split; [vm_compute; reflexivity |].
  split; [exact execute_nothing_left |].
  split; [reflexivity |].
  split; vm_compute; reflexivity.
Qed.

End Execute.

Lemma calculator_execute_witness :
  sanitize "hello" = ""
  /\ @execute (Build_Runtime (fun _ => "") (fun _ => "") (fun _ => Returns "")
                             (fun _ => "invalid syntax")
                             (fun l => l) (fun l => Permutation_refl l))
              "hello"
     = Returns "Error: invalid syntax".
Proof.
  split; [reflexivity |].
  exact (proj1 (proj2 (proj2 (proj2
    (@calculator_execute (Build_Runtime (fun _ => "") (fun _ => "") (fun _ => Returns "")
                                        (fun _ => "invalid syntax")
                                        (fun l => l) (fun l => Permutation_refl l))))))
    "hello" eq_refl).
Defined.

End CalculatorFacts.

(** ** Preference extraction *)

Module PreferenceFacts.

(** The capstone variant knows the language triggers only. *)
Lemma capstone_extract_ignores_colors :
  Capstone._extract_preference "My favorite color is blue." = None
  /\ LongTerm._extract_preference "My favorite color is blue."
     = Some ("favorite_color", "blue").
Proof. split; vm_compute; reflexivity. Qed.

(** A language answer means the trigger and the language name were found,
    and ["Python"] is tried before ["JavaScript"]. *)
Lemma extract_language_first_match message :
  LongTerm._extract_preference message = Some ("favorite_language", "JavaScript") ->
  contains "python" (lower message) = false
  /\ contains "javascript" (lower message) = true.
Proof.
  unfold LongTerm._extract_preference. cbv zeta.
  destruct (contains "i like" (lower message) || contains "i prefer" (lower message)
            || contains "my favorite" (lower message)); [| discriminate].
  destruct (contains "programming" (lower message) || contains "language" (lower message)).
  - destruct (contains "python" (lower message)); [discriminate |].
    destruct (contains "javascript" (lower message)); [auto | discriminate].
  - destruct (contains "color" (lower message)); [| discriminate].
    destruct (List.find _ LongTerm.colors) as [color |] eqn:Hfind; [| discriminate].
    intros Heq. apply find_some in Hfind as [Hin _].
    injection Heq as Hkey _. discriminate Hkey.
Qed.

(** C9, as the two sources have it.  Extraction is a function of the
    message alone.  The Day 3 function maps the three messages of the
    specification to the language pair, the colour pair and nothing; the
    capstone function, which has no colour rule and no ["my favorite"]
    trigger, maps the colour message to nothing.  The rules are tried in the
    order they are written: the language rule before the colour rule,
    ["python"] before ["javascript"], and the colours in the order of the
    list. *)
Theorem extract_preference_examples :
  (LongTerm._extract_preference "I like Python programming."
   = Some ("favorite_language", "Python")
   /\ LongTerm._extract_preference "My favorite color is blue."
      = Some ("favorite_color", "blue")
   /\ LongTerm._extract_preference "I went to the store." = None)
  /\ (Capstone._extract_preference "I like Python programming."
      = Some ("favorite_language", "Python")
      /\ Capstone._extract_preference "My favorite color is blue." = None
      /\ Capstone._extract_preference "I went to the store." = None)
  /\ (LongTerm._extract_preference "I like the JavaScript and Python languages"
      = Some ("favorite_language", "Python")
      /\ LongTerm._extract_preference "I prefer blue to red as a color"
         = Some ("favorite_color", "red")
      /\ LongTerm._extract_preference "I like the language of color: blue" = None).
Proof. repeat split; vm_compute; reflexivity. Qed.

End PreferenceFacts.

(** ** Long-term memory *)

Module LongTermFacts.
Import Json LongTerm.

(** On a store read from a missing file, asking for the preferences of
    ["alice"] returns the empty mapping and leaves the file missing. *)
Lemma get_user_preferences_writes_nothing :
  users (memory (new Missing)) !! "alice" = None
  /\ (get_user_preferences "2024-01-01T00:00:00" "alice" (new Missing)).1 = []
  /\ storage (get_user_preferences "2024-01-01T00:00:00" "alice" (new Missing)).2 = Missing.
Proof. repeat split. Qed.

(** C6, as the code has it.  For a user the store has not seen,
    [get_user_preferences] returns the empty mapping and adds an empty record
    for that user to the in-memory store, leaving every other user as it was.
    It does not write the file: the file and the printed lines are unchanged,
    and the record reaches the file with the next write that succeeds. *)
Theorem get_user_preferences_unseen (now user_id : string) (self : LongTermMemory) :
  users (memory self) !! user_id = None ->
  let result := get_user_preferences now user_id self in
  result.1 = []
  /\ users (memory result.2) = <[user_id := fresh_record now]> (users (memory self))
  /\ users (memory result.2) !! user_id = Some (fresh_record now)
  /\ (forall other, other <> user_id ->
        users (memory result.2) !! other = users (memory self) !! other)
  /\ storage result.2 = storage self
  /\ printed result.2 = printed self
  /\ storage (_save_memory Written result.2) = Holds (memory result.2).
Proof.
  intros Hunseen result.
  assert (Hensure : ensure_user now user_id self
                    = with_users (<[user_id := fresh_record now]> (users (memory self))) self).
  { unfold ensure_user. rewrite Hunseen. reflexivity. }
  unfold result, get_user_preferences. cbn [fst snd]. rewrite Hensure.
  cbn [with_users memory users storage printed _save_memory].
  rewrite lookup_insert_eq. cbn [mbind option_bind fresh_record preferences default].
  repeat split.
  intros other Hother. apply lookup_insert_ne. congruence.
Qed.

Lemma get_user_preferences_unseen_witness :
  users (memory (new Missing)) !! "alice" = None
  /\ (get_user_preferences "2024-01-01T00:00:00" "alice" (new Missing)).1 = []
  /\ storage (get_user_preferences "2024-01-01T00:00:00" "alice" (new Missing)).2 = Missing.
Proof.
  split; [reflexivity |].
  pose proof (get_user_preferences_unseen "2024-01-01T00:00:00" "alice" (new Missing)
                eq_refl) as (Hresult & _ & _ & _ & Hstorage & _).
  split; [exact Hresult | exact Hstorage].
Defined.

End LongTermFacts.

(** ** Dictionaries in insertion order *)

Section Dicts.
Context {V : Type}.
Implicit Types d : list (string * V).

Lemma dict_get_set_eq k v d : dict_get k (dict_set k v d) = Some v.
Proof.
  induction d as [| [k' v'] d IH]; simpl.
  - rewrite String.eqb_refl. reflexivity.
  - destruct (String.eqb k k') eqn:Hk; simpl; rewrite ?String.eqb_refl, ?Hk; auto.
Qed.

Lemma dict_get_set_ne k k' v d : k <> k' -> dict_get k' (dict_set k v d) = dict_get k' d.
Proof.
  intros Hne. induction d as [| [k'' v''] d IH]; simpl.
  - replace (String.eqb k' k) with false; [reflexivity |].
    symmetry. apply String.eqb_neq. congruence.
  - destruct (String.eqb k k'') eqn:Hk; simpl.
    + apply String.eqb_eq in Hk as <-.
      replace (String.eqb k' k) with false; [reflexivity |].
      symmetry. apply String.eqb_neq. congruence.
    + destruct (String.eqb k' k''); [reflexivity | exact IH].
Qed.

End Dicts.

(** ** Long-term memory: preferences, conversations, patterns *)

Module StoreFacts.
Import Json LongTerm LongTermViews.

Lemma memory_save w self : memory (_save_memory w self) = memory self.
Proof. destruct w; reflexivity. Qed.

(** The object over a store file holds what [_load_memory] returns for it
    and has printed what [_load_memory] prints. *)
Lemma new_loads (f : Json.file) :
  _load_memory (Store f) = Some (memory (new f), printed (new f)).
Proof. unfold _load_memory, new. cbn [memory printed]. destruct (load f); reflexivity. Qed.

Lemma get_user_preferences_prefs now user_id self :
  (get_user_preferences now user_id self).1 = prefs_of user_id self.
Proof.
  unfold get_user_preferences, prefs_of, ensure_user. cbn [fst].
  destruct (users (memory self) !! user_id) as [r |] eqn:Hr; [rewrite Hr; reflexivity |].
  cbn [with_users memory users]. rewrite lookup_insert_eq. reflexivity.
Qed.

Lemma get_user_preferences_seen now user_id self :
  is_Some (users (memory self) !! user_id) ->
  (get_user_preferences now user_id self).2 = self.
Proof.
  intros [r Hr]. unfold get_user_preferences, ensure_user. cbn [snd]. rewrite Hr. reflexivity.
Qed.

Lemma save_user_preference_saved now now' w user_id key value self :
  usable user_id self ->
  save_user_preference now now' w user_id key value self
  = (Returns (),
     _save_memory w
       (with_users (<[user_id := saved_record now now' user_id key value self]>
                      (users (memory self))) self)).
Proof.
  intros Husable. unfold save_user_preference, ensure_user, saved_record, prefs_of.
  destruct (users (memory self) !! user_id) as [r |] eqn:Hr.
  - rewrite Hr. destruct (preferences r) as [prefs |] eqn:Hprefs.
    + simpl. rewrite Hprefs. reflexivity.
    + exfalso. apply (Husable r Hr Hprefs).
  - cbn [with_users memory users]. rewrite lookup_insert_eq.
    cbn [fresh_record preferences created_at last_updated].
    f_equal. f_equal. unfold with_users.
    cbn [memory users conversations learned_patterns storage printed].
    rewrite insert_insert_eq. reflexivity.
Qed.

Lemma save_user_preference_raises now now' w user_id key value self r :
  users (memory self) !! user_id = Some r ->
  preferences r = None ->
  save_user_preference now now' w user_id key value self
  = (Raises (Exception "KeyError" "'preferences'"), self).
Proof.
  intros Hr Hprefs. unfold save_user_preference, ensure_user. rewrite Hr, Hr, Hprefs.
  reflexivity.
Qed.

Lemma conversations_add_conversation now w user_id query response self :
  conversations (memory (add_conversation now w user_id query response self))
  = last_n 100 (conversations (memory self) ++ [Conversation user_id query response now]).
Proof.
  unfold add_conversation. rewrite memory_save. cbn [memory conversations].
  destruct (Z.ltb_spec 100 (len (conversations (memory self)
                                 ++ [Conversation user_id query response now])))
    as [Hlt | Hge].
  - apply (slice_from_negative 100). lia.
  - symmetry. apply last_n_short. unfold len in Hge. lia.
Qed.

(** Saving a preference and reading the preferences back: the key holds the
    value just written, every other key and every other user is as before,
    and reading changes nothing more.  This needs the user's record, if there
    is one, to have its ["preferences"] key. *)
Theorem save_then_get_preference (now now' now'' : string) (w : write_outcome)
    (user_id key value : string) (self : LongTermMemory) :
  usable user_id self ->
  let saved := save_user_preference now now' w user_id key value self in
  let read := get_user_preferences now'' user_id saved.2 in
  saved.1 = Returns ()
  /\ dict_get key read.1 = Some value
  /\ (forall other_key, other_key <> key ->
        dict_get other_key read.1 = dict_get other_key (prefs_of user_id self))
  /\ (forall other, other <> user_id ->
        users (memory saved.2) !! other = users (memory self) !! other)
  /\ read.2 = saved.2.
Proof.
  intros Husable saved read.
  pose proof (save_user_preference_saved now now' w user_id key value self Husable)
    as Hsaved.
  assert (Hlookup : users (memory saved.2) !! user_id
                    = Some (saved_record now now' user_id key value self)).
  { unfold saved. rewrite Hsaved. cbn [snd]. rewrite memory_save.
    cbn [with_users memory users]. apply lookup_insert_eq. }
  assert (Hread : read.1 = dict_set key value (prefs_of user_id self)).
  { unfold read. rewrite get_user_preferences_prefs. unfold prefs_of at 1.
    rewrite Hlookup. reflexivity. }
  split; [unfold saved; rewrite Hsaved; reflexivity |].
  split; [rewrite Hread; apply dict_get_set_eq |].
  split; [intros other_key Hother; rewrite Hread; apply dict_get_set_ne; congruence |].
  split.
  - intros other Hother. unfold saved. rewrite Hsaved. cbn [snd]. rewrite memory_save.
    cbn [with_users memory users]. apply lookup_insert_ne. congruence.
  - unfold read. apply get_user_preferences_seen. rewrite Hlookup. eauto.
Qed.

Lemma save_then_get_preference_witness :
  usable "alice" (new Missing)
  /\ dict_get "favorite_color"
       (get_user_preferences "t3" "alice"
          (save_user_preference "t1" "t2" Written "alice" "favorite_color" "blue"
             (new Missing)).2).1
     = Some "blue".
Proof.
  assert (Husable : usable "alice" (new Missing)).
  { intros r Hr. cbn in Hr. rewrite lookup_empty in Hr. discriminate. }
  split; [exact Husable |].
  exact (proj1 (proj2 (save_then_get_preference "t1" "t2" "t3" Written "alice"
                         "favorite_color" "blue" (new Missing) Husable))).
Defined.

(** Where a saved preference ends up.  After a write that succeeds the file
    holds the store, and an object opened on that file has the same store.
    When [open] fails the file is as before and the error is printed; when
    the dump fails the file is unreadable, so an object opened on it prints
    the error of reading it and starts empty.  In every case the call returns
    and the store in memory holds the preference. *)
Theorem save_preference_durability (now now' : string) (user_id key value : string)
    (self : LongTermMemory) :
  usable user_id self ->
  let saved w := (save_user_preference now now' w user_id key value self).2 in
  (storage (saved Written) = Holds (memory (saved Written))
   /\ memory (new (storage (saved Written))) = memory (saved Written)
   /\ printed (saved Written) = printed self)
  /\ (forall e,
        storage (saved (OpenFails e)) = storage self
        /\ memory (saved (OpenFails e)) = memory (saved Written)
        /\ printed (saved (OpenFails e))
           = printed self ++ ["Error saving memory: " +:+ exc_text e])
  /\ (forall e later,
        storage (saved (DumpFails e later)) = Unreadable later
        /\ memory (new (storage (saved (DumpFails e later)))) = _initialize_memory
        /\ printed (new (storage (saved (DumpFails e later))))
           = ["Error loading memory: " +:+ exc_text later]
        /\ memory (saved (DumpFails e later)) = memory (saved Written))
  /\ (forall w, (save_user_preference now now' w user_id key value self).1 = Returns ()
                /\ dict_get key (prefs_of user_id (saved w)) = Some value).
Proof.
  intros Husable saved.
  assert (Hsaved : forall w,
             saved w = _save_memory w
                         (with_users (<[user_id := saved_record now now' user_id key value self]>
                                        (users (memory self))) self)).
  { intros w. unfold saved.
    rewrite (save_user_preference_saved now now' w user_id key value self Husable).
    reflexivity. }
  assert (Hsame : forall w, memory (saved w) = memory (saved Written)).
  { intros w. rewrite !Hsaved, !memory_save. reflexivity. }
  split; [| split; [| split]].
  - rewrite Hsaved. repeat split.
  - intros e. split; [| split]; [| apply Hsame |]; rewrite Hsaved; reflexivity.
  - intros e later. split; [| split; [| split]]; [| | | apply Hsame];
      rewrite Hsaved; reflexivity.
  - intros w. split.
    + rewrite (save_user_preference_saved now now' w user_id key value self Husable).
      reflexivity.
    + unfold prefs_of at 1. rewrite Hsaved, memory_save.
      cbn [with_users memory users]. rewrite lookup_insert_eq.
      apply dict_get_set_eq.
Qed.

Lemma save_preference_durability_witness :
  usable "alice" (new Missing)
  /\ memory (new (storage (save_user_preference "t1" "t2" Written "alice"
                             "favorite_color" "blue" (new Missing)).2))
     = memory (save_user_preference "t1" "t2" Written "alice"
                 "favorite_color" "blue" (new Missing)).2.
Proof.
  assert (Husable : usable "alice" (new Missing)).
  { intros r Hr. cbn in Hr. rewrite lookup_empty in Hr. discriminate. }
  split; [exact Husable |].
  exact (proj1 (proj2 (proj1 (save_preference_durability "t1" "t2" "alice"
                                "favorite_color" "blue" (new Missing) Husable)))).
Defined.

(** The missing key.  When the user's record has no ["preferences"] key,
    [save_user_preference] raises [KeyError] before it changes or writes
    anything. *)
Theorem save_preference_key_error (now now' : string) (w : write_outcome)
    (user_id key value : string) (self : LongTermMemory) (r : user_record) :
  users (memory self) !! user_id = Some r ->
  preferences r = None ->
  save_user_preference now now' w user_id key value self
  = (Raises (Exception "KeyError" "'preferences'"), self).
Proof.
  intros Hr Hprefs. unfold save_user_preference, ensure_user.
  rewrite Hr. cbv zeta. rewrite Hr, Hprefs. reflexivity.
Qed.

Lemma save_preference_key_error_witness :
  (save_user_preference "t1" "t2" Written "bob" "favorite_color" "blue"
     (new (Holds store_without_preferences))).1
  = Raises (Exception "KeyError" "'preferences'").
Proof.
  rewrite (save_preference_key_error "t1" "t2" Written "bob" "favorite_color" "blue"
             (new (Holds store_without_preferences)) (UserRecord None (Some "t0") None)).
  - reflexivity.
  - apply lookup_singleton_eq.
  - reflexivity.
Defined.

(** ** Conversations *)

(** [add_conversation] keeps the last 100 conversations, whatever was stored
    before: the new one is last, the count never exceeds 100, the users and
    the patterns are untouched, and a write that succeeds puts all of it in
    the file. *)
Theorem add_conversation_capped (now : string) (w : write_outcome)
    (user_id query response : string) (self : LongTermMemory) :
  let added := add_conversation now w user_id query response self in
  conversations (memory added)
  = last_n 100 (conversations (memory self) ++ [Conversation user_id query response now])
  /\ len (conversations (memory added)) <= 100
  /\ last (conversations (memory added)) = Some (Conversation user_id query response now)
  /\ users (memory added) = users (memory self)
  /\ learned_patterns (memory added) = learned_patterns (memory self)
  /\ storage (add_conversation now Written user_id query response self)
     = Holds (memory added).
Proof.
  intros added.
  pose proof (conversations_add_conversation now w user_id query response self) as Hconv.
  fold added in Hconv.
  split; [exact Hconv |]. split; [| split; [| split; [| split]]].
  - rewrite Hconv. unfold len. rewrite length_last_n. lia.
  - rewrite Hconv. unfold last_n. rewrite length_app. cbn [length].
    rewrite drop_app_le by lia. apply last_snoc.
  - unfold added, add_conversation. rewrite memory_save. reflexivity.
  - unfold added, add_conversation. rewrite memory_save. reflexivity.
  - unfold added, add_conversation. rewrite memory_save. reflexivity.
Qed.

(** [get_user_history] with a limit of at least one: the last [limit]
    conversations of that user, in the order they were stored, and of no
    other user. *)
Theorem get_user_history_recent (user_id : string) (limit : Z) (self : LongTermMemory) :
  1 <= limit ->
  let own := filter (fun c => conv_user_id c = user_id) (conversations (memory self)) in
  let history := get_user_history user_id limit self in
  history = last_n (Z.to_nat limit) own
  /\ len history = Z.min limit (len own)
  /\ Forall (fun c => conv_user_id c = user_id) history
  /\ history `sublist_of` conversations (memory self).
Proof.
  intros Hlimit own history.
  assert (Hhistory : history = last_n (Z.to_nat limit) own).
  { unfold history, get_user_history. apply slice_from_negative. lia. }
  split; [exact Hhistory |]. split; [| split].
  - rewrite Hhistory. unfold len. rewrite length_last_n. lia.
  - rewrite Hhistory. apply Forall_forall. intros c Hc.
    assert (Hown : c ∈ own).
    { destruct (last_n_suffix (Z.to_nat limit) own) as [front Hfront].
      rewrite Hfront. apply elem_of_app. right. exact Hc. }
    apply list_elem_of_filter in Hown as [Huser _]. exact Huser.
  - rewrite Hhistory. unfold last_n. etransitivity; [apply sublist_drop |].
    apply sublist_filter.
Qed.

Lemma get_user_history_recent_witness :
  1 <= 1
  /\ get_user_history "alice" 1
       (Build {| users := ∅;
                 conversations := [Conversation "alice" "q1" "r1" "t1";
                                   Conversation "bob" "q2" "r2" "t2";
                                   Conversation "alice" "q3" "r3" "t3";
                                   Conversation "bob" "q4" "r4" "t4"];
                 learned_patterns := ∅ |} Missing [])
     = [Conversation "alice" "q3" "r3" "t3"].
Proof.
  split; [lia |].
  exact (proj1 (get_user_history_recent "alice" 1
    (Build {| users := ∅;
              conversations := [Conversation "alice" "q1" "r1" "t1";
                                Conversation "bob" "q2" "r2" "t2";
                                Conversation "alice" "q3" "r3" "t3";
                                Conversation "bob" "q4" "r4" "t4"];
              learned_patterns := ∅ |} Missing []) ltac:(lia))).
Defined.

(** ** Learned patterns *)

(** A learned pattern is read back as it was stored, a pattern learned again
    replaces the earlier one, the other patterns are untouched, and a key
    never learned gives [None]. *)
Theorem learn_then_get_pattern (now now' : string) (w w' : write_outcome)
    (pattern_key data data' : string) (self : LongTermMemory) :
  let learned := LongTermAgent.learn_pattern now w pattern_key data self in
  LongTermAgent.get_learned_pattern pattern_key learned = Some data
  /\ LongTermAgent.get_learned_pattern pattern_key
       (LongTermAgent.learn_pattern now' w' pattern_key data' learned) = Some data'
  /\ (forall other, other <> pattern_key ->
        LongTermAgent.get_learned_pattern other learned
        = LongTermAgent.get_learned_pattern other self)
  /\ LongTermAgent.get_learned_pattern pattern_key (new Missing) = None
  /\ users (memory learned) = users (memory self)
  /\ conversations (memory learned) = conversations (memory self).
Proof.
  intros learned. unfold learned, LongTermAgent.get_learned_pattern, LongTermAgent.learn_pattern.
  rewrite !memory_save. cbn [memory learned_patterns users conversations].
  rewrite !lookup_insert_eq. repeat split.
  intros other Hother. rewrite lookup_insert_ne by congruence. reflexivity.
Qed.

End StoreFacts.

(** ** More on blocks *)

Module EffectsMore.
Import Effects EffectsFacts.

Lemma wp_mono {A R} (m : action A R) (Q Q' : result R -> process A -> Prop) p :
  wp m Q p -> (forall r p', Q r p' -> Q' r p') -> wp m Q' p.
Proof. unfold wp. auto. Qed.

Lemma wp_run {A R} (m : action A R) (Q : result R -> process A -> Prop) p r p' :
  wp m Q p -> m p = (r, p') -> Q r p'.
Proof. unfold wp. intros HQ Hrun. rewrite Hrun in HQ. exact HQ. Qed.

Lemma wp_both {A R} (m : action A R) (Q Q' : result R -> process A -> Prop) q :
  wp m Q q -> wp m Q' q -> wp m (fun r q' => Q r q' /\ Q' r q') q.
Proof. unfold wp. auto. Qed.

(** The clock answers with one of its readings. *)
Lemma wp_now_reading {A} w (Q : result float -> process A -> Prop) p :
  (forall k u, Q (Returns (time_time w k)) (Process (self p) u)) -> wp (now w) Q p.
Proof. intros HQ. apply HQ. Qed.

End EffectsMore.

(** ** The agent with short-term memory *)

Module ShortTermAgentFacts.
Import Effects EffectsFacts EffectsMore ShortTerm ShortTermAgent ShortTermFacts.

Lemma get_recent_context_same num_turns self :
  (get_recent_context num_turns self).2 = self.
Proof. unfold get_recent_context. destruct (conversation_history self); reflexivity. Qed.

Lemma map_last_n {A B} (f : A -> B) k (l : list A) : map f (last_n k l) = last_n k (map f l).
Proof. unfold last_n. rewrite length_map. apply (fmap_drop f). Qed.

(** One [chat]: it returns a text, and the log gains the user's message and
    then an assistant message holding that very text. *)
Lemma short_term_chat_wp w message (p : process AgentWithShortTermMemory) :
  wp (chat w message)
     (fun r p' =>
        exists text d d',
          r = Returns text
          /\ memory (self p')
             = add_message d' "assistant" text
                 (add_message d "user" message (memory (self p))))
     p.
Proof.
  unfold chat.
  repeat wp_step.
  all: cbn [self used memory on_memory]; rewrite get_recent_context_same.
  all: do 3 eexists; split; reflexivity.
Qed.

Lemma spoken_add_message now r c self :
  1 <= max_history self ->
  map spoken (conversation_history (add_message now r c self))
  = last_n (Z.to_nat (2 * max_history self))
           (map spoken (conversation_history self) ++ [(r, c)]).
Proof.
  intros Hcap. rewrite add_message_last_n by exact Hcap.
  rewrite map_last_n, map_app. reflexivity.
Qed.

Lemma transcript_cons m r messages replies :
  transcript (m :: messages) (r :: replies)
  = [("user", m); ("assistant", r)] ++ transcript messages replies.
Proof. reflexivity. Qed.

Lemma length_transcript messages replies :
  length replies = length messages ->
  length (transcript messages replies) = (2 * length messages)%nat.
Proof.
  revert replies. induction messages as [| m messages IH]; intros [| r replies] Hlen;
    try discriminate; [reflexivity |].
  rewrite transcript_cons, length_app, IH by (simpl in Hlen; lia). simpl. lia.
Qed.

Lemma last_n_app_last_n {A} k (l l' : list A) :
  last_n k (last_n k l ++ l') = last_n k (l ++ l').
Proof.
  unfold last_n. rewrite !length_app, length_drop.
  destruct (decide (length l <= k)%nat) as [Hle | Hgt].
  - replace (length l - k)%nat with 0%nat by lia. simpl. f_equal. lia.
  - destruct (decide (length l' <= k)%nat) as [Hle' | Hgt'].
    + rewrite (drop_app_le l l') by lia.
      rewrite (drop_app_le (drop (length l - k) l) l') by (rewrite length_drop; lia).
      rewrite drop_drop. f_equal. f_equal. lia.
    + rewrite (drop_app_ge l l') by lia.
      rewrite (drop_app_ge (drop (length l - k) l) l') by (rewrite length_drop; lia).
      rewrite length_drop. f_equal. lia.
Qed.

(** A run of requests, from a log that holds the tail of what was said
    before. *)
Lemma short_term_session_wp w messages : forall (p : process AgentWithShortTermMemory) before,
  1 <= max_history (memory (self p)) ->
  map spoken (conversation_history (memory (self p)))
  = last_n (Z.to_nat (2 * max_history (memory (self p)))) before ->
  wp (session w messages)
     (fun r p' =>
        exists replies,
          r = Returns replies
          /\ length replies = length messages
          /\ max_history (memory (self p')) = max_history (memory (self p))
          /\ map spoken (conversation_history (memory (self p')))
             = last_n (Z.to_nat (2 * max_history (memory (self p))))
                      (before ++ transcript messages replies))
     p.
Proof.
  induction messages as [| message messages IH]; intros p before Hcap Hlog.
  - simpl. apply wp_ret. exists []. rewrite app_nil_r. auto.
  - cbn [session]. apply wp_bind.
    eapply wp_mono; [apply short_term_chat_wp |].
    intros r p1 (text & d & d' & -> & Hmem). cbv beta iota.
    assert (Hcap1 : max_history (memory (self p1)) = max_history (memory (self p)))
      by (rewrite Hmem; reflexivity).
    assert (Hlog1 : map spoken (conversation_history (memory (self p1)))
                    = last_n (Z.to_nat (2 * max_history (memory (self p1))))
                             (before ++ [("user", message); ("assistant", text)])).
    { rewrite Hcap1, Hmem.
      rewrite spoken_add_message by (rewrite add_message_max_history; exact Hcap).
      rewrite add_message_max_history.
      rewrite spoken_add_message by exact Hcap. rewrite Hlog.
      rewrite last_n_app_last_n, <- app_assoc, last_n_app_last_n. reflexivity. }
    apply wp_bind.
    eapply wp_mono; [apply (IH p1 _ ltac:(lia) Hlog1) |].
    intros r p2 (replies & -> & Hlen & Hcap2 & Hlog2). cbv beta iota.
    apply wp_ret. exists (text :: replies).
    split; [reflexivity |]. split; [simpl; lia |]. split; [congruence |].
    rewrite Hlog2, Hcap1, transcript_cons, <- app_assoc. reflexivity.
Qed.

(** The log of the agent after any run of requests.  For a capacity of at
    least one turn, from a new agent: every request returns a text; the log
    is the tail of the transcript, which alternates the user's message with
    the text returned for it (an error text included); and the number of
    turns reported is the number of requests, capped at [max_history]. *)
Theorem session_log (w : world) (n : Z) (messages : list string)
    (p : process AgentWithShortTermMemory) :
  1 <= n ->
  self p = ShortTermAgent.new n ->
  exists replies p',
    session w messages p = (Returns replies, p')
    /\ length replies = length messages
    /\ map spoken (conversation_history (memory (self p')))
       = last_n (Z.to_nat (2 * n)) (transcript messages replies)
    /\ turns (self p') = Z.min (len messages) n.
Proof.
  intros Hn Hnew.
  destruct (wp_outcome _ _ _ (short_term_session_wp w messages p [] ltac:(rewrite Hnew; exact Hn)
                                ltac:(rewrite Hnew; reflexivity)))
    as (r & p' & Hrun & replies & -> & Hlen & Hcap & Hlog).
  rewrite Hnew in Hlog. cbn [ShortTermAgent.new memory ShortTerm.new max_history] in Hlog.
  rewrite app_nil_l in Hlog.
  exists replies, p'. split; [exact Hrun |]. split; [exact Hlen |]. split; [exact Hlog |].
  unfold turns, len.
  rewrite <- (length_map spoken), Hlog, length_last_n, length_transcript by exact Hlen.
  destruct (Z.min_spec (Z.of_nat (length messages)) n) as [[Hlt ->] | [Hge ->]].
  - rewrite Nat.min_r by lia. rewrite Nat2Z.inj_mul. simpl (Z.of_nat 2).
    rewrite Z.mul_comm. apply Z.div_mul. lia.
  - rewrite Nat.min_l by lia. rewrite Z2Nat.id by lia.
    rewrite Z.mul_comm. apply Z.div_mul. lia.
Qed.

Lemma session_log_witness :
  1 <= 1
  /\ exists replies p',
       session (World (fun _ => 0%float) (fun _ => "") (fun _ => "")
                      (fun _ _ => Returns (Returns "hi")) (fun _ => Json.Written))
               ["a"; "b"] (Process (ShortTermAgent.new 1) no_ticks)
       = (Returns replies, p')
       /\ turns (self p') = 1.
Proof.
  split; [lia |].
  destruct (session_log (World (fun _ => 0%float) (fun _ => "") (fun _ => "")
                               (fun _ _ => Returns (Returns "hi")) (fun _ => Json.Written))
              1 ["a"; "b"] (Process (ShortTermAgent.new 1) no_ticks)
              ltac:(lia) eq_refl)
    as (replies & p' & Hrun & _ & _ & Hturns).
  exists replies, p'. split; [exact Hrun | exact Hturns].
Defined.

(** For a log built by appends from a new one with a capacity of at least
    one turn, [get_context] shows the whole stored history, and so does
    [get_recent_context] for any number of turns from [max_history] on. *)
Theorem get_context_is_recent_context (n num_turns : Z) (calls : list message) :
  1 <= n ->
  n <= num_turns ->
  let log := add_messages calls (ShortTerm.new n) in
  get_context log = (join newline (map line (conversation_history log)), log)
  /\ get_recent_context num_turns log = get_context log.
Proof.
  intros Hn Hturns log.
  assert (Hcontext : get_context log
                     = (join newline (map line (conversation_history log)), log)).
  { unfold get_context. destruct (conversation_history log); reflexivity. }
  split; [exact Hcontext |].
  rewrite Hcontext. unfold get_recent_context.
  rewrite recent_last_n by lia.
  assert (Hlen : (length (conversation_history log) <= Z.to_nat (2 * num_turns))%nat).
  { unfold log.
    rewrite (add_messages_last_n calls (ShortTerm.new n) [] Hn eq_refl).
    rewrite length_last_n. cbn [ShortTerm.new max_history]. lia. }
  rewrite last_n_short by exact Hlen.
  destruct (conversation_history log); reflexivity.
Qed.

Lemma get_context_is_recent_context_witness :
  (1 <= 1 /\ 1 <= 5)
  /\ get_recent_context 5
       (add_messages [Message "user" "a" "t1"; Message "assistant" "b" "t2";
                      Message "user" "c" "t3"] (ShortTerm.new 1))
     = get_context
         (add_messages [Message "user" "a" "t1"; Message "assistant" "b" "t2";
                        Message "user" "c" "t3"] (ShortTerm.new 1)).
Proof.
  split; [lia |].
  exact (proj2 (get_context_is_recent_context 1 5
    [Message "user" "a" "t1"; Message "assistant" "b" "t2"; Message "user" "c" "t3"]
    ltac:(lia) ltac:(lia))).
Defined.

End ShortTermAgentFacts.

(** ** Spans, the tracer and the observable agent *)

Module TracingFacts.
Import Observability Effects EffectsFacts EffectsMore.

(** The duration of a finished span is fixed: once [finish] has stored a
    reading of the clock other than [0.0], [duration] is that reading minus
    the start, in every world and without reading the clock again.  A span
    finished at [0.0] counts as unfinished: [duration] reads the clock. *)
Theorem duration_after_finish {A} (w : world) (now : float) (span : TraceSpan)
    (p : process A) :
  PrimFloat.eqb now 0%float = false ->
  Observable.duration w (finish now span) p
  = (Returns (PrimFloat.sub now (start_time span)), p)
  /\ (Observable.duration w (finish 0%float span) p).1
     = Returns (PrimFloat.sub (time_time w (clock_reads (used p))) (start_time span))
  /\ (Observable.duration w
        {| span_id := span_id span; parent_id := parent_id span; name := name span;
           start_time := start_time span; end_time := None;
           tags := tags span; logs := logs span |} p).1
     = Returns (PrimFloat.sub (time_time w (clock_reads (used p))) (start_time span)).
Proof.
  intros Hnow. unfold Observable.duration, ended, finish. cbn [end_time start_time].
  rewrite Hnow. repeat split.
Qed.

Lemma duration_after_finish_witness :
  PrimFloat.eqb 12.5%float 0%float = false
  /\ Observable.duration
       (World (fun _ => 99%float) (fun _ => "") (fun _ => "")
              (fun _ _ => Returns (Returns "")) (fun _ => Json.Written))
       (finish 12.5%float (Span "s" None "op" 10%float None [] []))
       (Process tt no_ticks)
     = (Returns 2.5%float, Process tt no_ticks).
Proof.
  split; [reflexivity |].
  exact (proj1 (duration_after_finish
    (World (fun _ => 99%float) (fun _ => "") (fun _ => "")
           (fun _ _ => Returns (Returns "")) (fun _ => Json.Written))
    12.5%float (Span "s" None "op" 10%float None [] []) (Process tt no_ticks) eq_refl)).
Defined.

Lemma truthy_Some i j : truthy (Some i) = Some j -> j = i /\ i <> "".
Proof. destruct i; simpl; [discriminate |]. intros [= <-]. split; [reflexivity | discriminate]. Qed.

Lemma truthy_None i : truthy (Some i) = None -> i = "".
Proof. destruct i; simpl; [reflexivity | discriminate]. Qed.

(** [finish_trace] stores exactly one trace, after the ones stored before;
    it carries the given id when that is not empty, and its span is finished.
    The newest trace is then the last one [get_recent_traces] returns, for
    any limit of at least one. *)
Theorem finish_trace_stores (w : world) (span : TraceSpan) (trace_id : option string)
    (limit : Z) (p : process Tracer) :
  1 <= limit ->
  exists t p',
    ObservableReport.finish_trace w span trace_id p = (Returns t, p')
    /\ traces (self p') = traces (self p) ++ [t]
    /\ (forall i, trace_id = Some i -> i <> "" -> Observability.trace_id t = i)
    /\ is_Some (end_time (trace_span t))
    /\ last (ObservableReport.get_recent_traces limit (self p')) = Some t
    /\ len (ObservableReport.get_recent_traces limit (self p'))
       = Z.min limit (len (traces (self p)) + 1).
Proof.
  intros Hlimit.
  assert (Hwp : wp (ObservableReport.finish_trace w span trace_id)
                   (fun r p' => exists t,
                      r = Returns t
                      /\ traces (self p') = traces (self p) ++ [t]
                      /\ (forall i, trace_id = Some i -> i <> "" ->
                            Observability.trace_id t = i)
                      /\ is_Some (end_time (trace_span t))) p).
  { unfold ObservableReport.finish_trace, Observable.finished_trace, Observable.duration.
    repeat wp_step.
    all: cbn [self used traces]; eexists; split; [reflexivity |];
      split; [reflexivity |]; split; [| cbn; eauto].
    all: intros j -> Hj; cbn [Observability.trace_id];
      try match goal with
          | Ht : truthy (Some _) = Some _ |- _ => apply truthy_Some in Ht as [-> _]; reflexivity
          | Ht : truthy (Some _) = None |- _ => apply truthy_None in Ht; congruence
          end. }
  destruct (wp_outcome _ _ _ Hwp) as (r & p' & Hrun & t & -> & Htraces & Hid & Hend).
  exists t, p'. split; [exact Hrun |]. split; [exact Htraces |].
  split; [exact Hid |]. split; [exact Hend |].
  unfold ObservableReport.get_recent_traces.
  rewrite (slice_from_negative limit) by lia. rewrite Htraces. split.
  - unfold last_n. rewrite length_app. cbn [length].
    rewrite drop_app_le by lia. apply last_snoc.
  - unfold len. rewrite length_last_n, length_app. cbn [length]. lia.
Qed.

Lemma finish_trace_stores_witness :
  1 <= 5
  /\ exists t p',
       ObservableReport.finish_trace
         (World (fun _ => 1%float) (fun _ => "u") (fun _ => "d")
                (fun _ _ => Returns (Returns "")) (fun _ => Json.Written))
         (Span "s" None "op" 0%float None [] []) (Some "req-1")
         (Process {| traces := [] |} no_ticks)
       = (Returns t, p')
       /\ traces (self p') = [t].
Proof.
  split; [lia |].
  destruct (finish_trace_stores
    (World (fun _ => 1%float) (fun _ => "u") (fun _ => "d")
           (fun _ _ => Returns (Returns "")) (fun _ => Json.Written))
    (Span "s" None "op" 0%float None [] []) (Some "req-1") 5
    (Process {| traces := [] |} no_ticks) ltac:(lia))
    as (t & p' & Hrun & Htraces & _).
  exists t, p'. split; [exact Hrun | exact Htraces].
Defined.

End TracingFacts.

Module ObservableFacts.
Import Observability Effects EffectsFacts EffectsMore ObservableReport TracingFacts.

(** One request of the observable agent, whatever the model does. *)
Lemma observable_chat_trace_wp w message user (q : process Observable.ObservableAgent) :
  wp (Observable.chat w message user)
     (fun r q' =>
        exists text rid t,
          r = Returns text
          /\ Observable.request_id (self q') = Some rid
          /\ stored q' = stored q ++ [t]
          /\ (rid <> "" -> trace_id t = rid)
          /\ is_Some (end_time (trace_span t))
          /\ total q' = total q + 1
          /\ (consistent (Observable.metrics (self q)) ->
              consistent (Observable.metrics (self q'))))
     q.
Proof.
  unfold Observable.chat, Observable.finish_trace, Observable.finished_trace,
    Observable.duration, Observable.start_trace, Observable.log_to.
  repeat wp_step.
  all: unfold stored, total;
    cbn [self used Observable.metrics Observable.tracer Observable.request_id
         Observable.on_metrics Observable.store_trace Observable.set_request_id traces].
  all: do 3 eexists.
  all: split; [reflexivity |]; split; [reflexivity |]; split; [reflexivity |].
  all: split; [cbn [trace_id]; intros Hrid;
               match goal with
               | Ht : truthy _ = _ |- _ =>
                   cbn [Observable.request_id Observable.on_metrics
                        Observable.set_request_id] in Ht
               end;
               match goal with
               | Ht : truthy (Some _) = Some _ |- _ =>
                   apply truthy_Some in Ht as [-> _]; reflexivity
               | Ht : truthy (Some _) = None |- _ =>
                   apply truthy_None in Ht; congruence
               end |].
  all: split; [cbn; eauto |]; split; [reflexivity |].
  all: intros Hm; apply MetricsFacts.day4_record_consistent; exact Hm.
Qed.

(** Every request of the observable agent records exactly one sample and
    stores exactly one finished trace, whether the model call succeeds or
    fails; the trace carries the request's id when that is not empty. *)
Theorem chat_one_sample_one_trace (w : world) (message : string) (user : option string)
    (q : process Observable.ObservableAgent) :
  exists text rid t q',
    Observable.chat w message user q = (Returns text, q')
    /\ Observable.request_id (self q') = Some rid
    /\ stored q' = stored q ++ [t]
    /\ (rid <> "" -> trace_id t = rid)
    /\ is_Some (end_time (trace_span t))
    /\ total q' = total q + 1.
Proof.
  destruct (wp_outcome _ _ _ (observable_chat_trace_wp w message user q))
    as (r & q' & Hrun & text & rid & t & -> & Hrid & Hstored & Hid & Hend & Htotal & _).
  exists text, rid, t, q'. auto 10.
Qed.

Lemma observable_session_wp w messages : forall (q : process Observable.ObservableAgent),
  wp (session w messages)
     (fun r q' =>
        exists replies,
          r = Returns replies
          /\ length replies = length messages
          /\ total q' = total q + len messages
          /\ length (stored q') = (length (stored q) + length messages)%nat
          /\ stored q `prefix_of` stored q'
          /\ (consistent (Observable.metrics (self q)) ->
              consistent (Observable.metrics (self q'))))
     q.
Proof.
  induction messages as [| [message user] messages IH]; intros q.
  - simpl. apply wp_ret. exists []. unfold len. simpl.
    split; [reflexivity |]. split; [reflexivity |]. split; [lia |].
    split; [lia |]. split; [reflexivity | auto].
  - cbn [session]. apply wp_bind.
    eapply wp_mono; [apply observable_chat_trace_wp |].
    intros r q1 (text & rid & t & -> & _ & Hstored & _ & _ & Htotal & Hcons).
    cbv beta iota. apply wp_bind.
    eapply wp_mono; [apply IH |].
    intros r q2 (replies & -> & Hlen & Htotal2 & Hstored2 & Hprefix & Hcons2).
    cbv beta iota. apply wp_ret. exists (text :: replies).
    split; [reflexivity |]. split; [simpl; lia |].
    split; [unfold len in *; simpl length; lia |].
    split; [rewrite Hstored2, Hstored, length_app; simpl; lia |].
    split; [| auto].
    etransitivity; [| exact Hprefix]. rewrite Hstored. apply prefix_app_r. reflexivity.
Qed.

Section Report.
Context `{Runtime}.

(** The statistics exist once there is a request, for up to 20000 recorded
    latencies. *)
Lemma get_stats_returns (m : MetricsCollector) :
  consistent m -> 1 <= requests_total m <= 20000 ->
  exists r, get_stats m = (Returns (Stats r), m) /\ total_requests r = requests_total m.
Proof.
  intros (_ & _ & _ & Htimes) Htotal.
  assert (Hne : request_times m <> []).
  { intros Hnil. rewrite Hnil in Htimes. unfold len in Htimes. simpl in Htimes. lia. }
  set (n := len (request_times m)).
  assert (Hn : 1 <= n <= 20000) by (unfold n; lia).
  pose proof (PercentileFacts.p95_floor_bounds n ltac:(lia)) as Hfloor.
  destruct (lookup_lt_is_Some_2 (sorted (request_times m)) (Z.to_nat (95 * n / 100)))
    as [p95 Hp95].
  { rewrite PercentileFacts.length_sorted. unfold n, len in *. lia. }
  destruct (PercentileFacts.p50_lookup (sorted (request_times m))
              (PercentileFacts.sorted_nonempty _ Hne)) as [p50 Hp50].
  destruct (PercentileFacts.get_stats_report m p50 p95 ltac:(lia))
    as (r & Hr & _ & _ & Hrtotal).
  - apply (PercentileFacts.percentile_lookup p50_index _
             (len (sorted (request_times m)) / 2));
      [apply PercentileFacts.sorted_nonempty, Hne | reflexivity | | exact Hp50].
    apply Z.div_pos; unfold len; lia.
  - apply (PercentileFacts.percentile_lookup p95_index _ (95 * n / 100));
      [apply PercentileFacts.sorted_nonempty, Hne | | lia | exact Hp95].
    rewrite PercentileFacts.len_sorted. apply PercentileFacts.p95_index_floor. lia.
  - exists r. auto.
Qed.

(** After a run of requests on a new observable agent, between 1 and 20000
    of them: every request returned a text, the report counts exactly the
    requests handled, it shows the five newest traces (all of them when they
    are fewer), and producing it changes nothing. *)
Theorem report_after_session (w : world) (messages : list (string * option string))
    (q : process Observable.ObservableAgent) :
  self q = Observable.new ->
  1 <= len messages <= 20000 ->
  exists replies q' r,
    session w messages q = (Returns replies, q')
    /\ length replies = length messages
    /\ get_observability_report q'
       = (Returns (ObservabilityReport (Stats r) (last_n 5 (stored q'))), q')
    /\ total_requests r = len messages
    /\ len (stored q') = len messages.
Proof.
  intros Hnew Hlen.
  destruct (wp_outcome _ _ _ (observable_session_wp w messages q))
    as (o & q' & Hrun & replies & -> & Hreplies & Htotal & Hstored & _ & Hcons).
  assert (Htotal0 : total q = 0) by (unfold total; rewrite Hnew; reflexivity).
  assert (Hstored0 : stored q = []) by (unfold stored; rewrite Hnew; reflexivity).
  destruct (get_stats_returns (Observable.metrics (self q'))) as (r & Hstats & Hr).
  { apply Hcons. rewrite Hnew. apply MetricsFacts.day4_new_consistent. }
  { fold (total q'). lia. }
  exists replies, q', r. split; [exact Hrun |]. split; [exact Hreplies |].
  split; [| split].
  - unfold get_observability_report, mbind, action_bind, call_raising, get, mret,
      action_ret. cbv zeta. rewrite Hstats. cbn [fst snd].
    destruct q' as [a u]. cbn [self used].
    unfold get_recent_traces. rewrite (slice_from_negative 5) by lia.
    unfold stored. cbn [self]. destruct a; reflexivity.
  - rewrite Hr. fold (total q'). lia.
  - unfold len. rewrite Hstored, Hstored0. simpl. lia.
Qed.

End Report.

Lemma report_after_session_witness :
  1 <= len [("hello", @None string)] <= 20000
  /\ exists replies q' r,
       session (World (fun _ => 1%float) (fun _ => "u") (fun _ => "d")
                      (fun _ _ => Returns (Returns "hi")) (fun _ => Json.Written))
               [("hello", None)] (Process Observable.new no_ticks)
       = (Returns replies, q')
       /\ @get_observability_report
            (Build_Runtime (fun _ => "") (fun _ => "") (fun _ => Returns "")
                           (fun _ => "")
                           (fun l => l) (fun l => Permutation_refl l)) q'
          = (Returns (ObservabilityReport (Stats r) (last_n 5 (stored q'))), q')
       /\ total_requests r = 1.
Proof.
  split; [unfold len; simpl; lia |].
  destruct (@report_after_session
              (Build_Runtime (fun _ => "") (fun _ => "") (fun _ => Returns "")
                             (fun _ => "")
                             (fun l => l) (fun l => Permutation_refl l))
              (World (fun _ => 1%float) (fun _ => "u") (fun _ => "d")
                     (fun _ _ => Returns (Returns "hi")) (fun _ => Json.Written))
              [("hello", None)] (Process Observable.new no_ticks) eq_refl
              ltac:(unfold len; simpl; lia))
    as (replies & q' & r & Hrun & _ & Hreport & Htotal & _).
  exists replies, q', r. split; [exact Hrun |]. split; [exact Hreport | exact Htotal].
Defined.

End ObservableFacts.

(** ** The agent with long-term memory *)

Module LongTermAgentFacts.
Import Json Effects EffectsFacts EffectsMore LongTermAgent LongTermViews StoreFacts.



Lemma get_user_preferences_wp w n (q : process AgentWithLongTermMemory) :
  model_calls (used q) = n ->
  wp (get_user_preferences w)
     (fun r q' =>
        r = Returns (prefs_of (user_id (self q)) (memory (self q)))
        /\ model_calls (used q') = n
        /\ user_id (self q') = user_id (self q)
        /\ console_out (self q') = console_out (self q)
        /\ conversations (LongTerm.memory (memory (self q')))
           = conversations (LongTerm.memory (memory (self q)))
        /\ prefs_of (user_id (self q)) (memory (self q'))
           = prefs_of (user_id (self q)) (memory (self q))
        /\ (usable (user_id (self q)) (memory (self q)) ->
            usable (user_id (self q)) (memory (self q'))))
     q.
Proof.
  intros Hn. unfold get_user_preferences.
  wp_step. wp_step. wp_step.
  assert (Hdone : forall now u, model_calls u = n ->
    wp (call (fun a =>
          let o := LongTerm.get_user_preferences now (user_id a) (memory a) in
          (o.1, on_memory (fun _ => o.2) a)))
     (fun r q' =>
        r = Returns (prefs_of (user_id (self q)) (memory (self q)))
        /\ model_calls (used q') = n
        /\ user_id (self q') = user_id (self q)
        /\ console_out (self q') = console_out (self q)
        /\ conversations (LongTerm.memory (memory (self q')))
           = conversations (LongTerm.memory (memory (self q)))
        /\ prefs_of (user_id (self q)) (memory (self q'))
           = prefs_of (user_id (self q)) (memory (self q))
        /\ (usable (user_id (self q)) (memory (self q)) ->
            usable (user_id (self q)) (memory (self q'))))
       (Process (self q) u)).
  { intros now u Hu. apply wp_call. cbv zeta. cbn [self used fst snd].
    rewrite get_user_preferences_prefs.
    cbn [on_memory memory user_id console_out].
    split; [reflexivity |]. split; [exact Hu |]. split; [reflexivity |].
    split; [reflexivity |].
    unfold LongTerm.get_user_preferences, LongTerm.ensure_user, prefs_of, usable.
    cbn [snd].
    destruct (users (LongTerm.memory (memory (self q))) !! user_id (self q)) as [r |] eqn:Hr.
    - rewrite Hr. auto.
    - cbn [LongTerm.with_users LongTerm.memory users conversations].
      rewrite lookup_insert_eq. cbn.
      split; [reflexivity |]. split; [reflexivity |].
      intros _ r [= <-]. discriminate. }
  destruct (own_record (self q)) as [r |] eqn:Hr.
  - wp_step. destruct q as [a u0]. apply Hdone. exact Hn.
  - wp_step. apply Hdone. congruence.
Qed.





(** The preference is saved before the [try] block.  When the message
    carries a preference and the record of the agent's user has no
    ["preferences"] key, [chat] raises [KeyError]: the model is not asked,
    nothing is printed or written, and the agent is as it was. *)
Theorem chat_key_error_escapes (w : world) (message key value : string)
    (q : process AgentWithLongTermMemory) (r : user_record) :
  LongTerm._extract_preference message = Some (key, value) ->
  own_record (self q) = Some r ->
  preferences r = None ->
  chat w message q = (Raises (Exception "KeyError" "'preferences'"), q).
Proof.
  intros Hmessage Hr Hprefs.
  unfold chat. rewrite Hmessage.
  unfold save_user_preference, mbind, action_bind, get, mret, action_ret, call_raising.
  rewrite Hr. cbn [option_bind]. rewrite Hprefs. cbv zeta.
  rewrite (save_user_preference_raises _ _ _ _ _ _ _ r Hr Hprefs).
  destruct q as [[m u c] t]. reflexivity.
Qed.

Lemma chat_key_error_escapes_witness :
  chat silent_world "I like Python programming."
    (Process (new (Holds store_without_preferences) "bob") no_ticks)
  = (Raises (Exception "KeyError" "'preferences'"),
     Process (new (Holds store_without_preferences) "bob") no_ticks).
Proof.
  apply (chat_key_error_escapes silent_world "I like Python programming."
           "favorite_language" "Python" _ (UserRecord None (Some "t0") None)).
  - reflexivity.
  - apply lookup_singleton_eq.
  - reflexivity.
Defined.

(** [get_user_info] of an agent whose memory is a store, with its ["users"]
    and its ["conversations"] (an agent over a foreign file is not covered:
    there the call raises [KeyError]).  It returns; its preferences are the
    stored ones, and its conversation count is the number of the user's
    stored conversations up to ten and never more: the history behind it is
    cut at the default limit. *)
Theorem get_user_info_counts_to_ten (w : world) (q : process AgentWithLongTermMemory) :
  exists q',
    get_user_info w q
    = (Returns (user_id (self q),
                prefs_of (user_id (self q)) (memory (self q)),
                Z.min 10 (len (filter (fun c => conv_user_id c = user_id (self q))
                                  (conversations (LongTerm.memory (memory (self q))))))),
       q')
    /\ conversations (LongTerm.memory (memory (self q')))
       = conversations (LongTerm.memory (memory (self q))).
Proof.
  assert (Hwp : wp (get_user_info w)
    (fun r q' =>
       r = Returns (user_id (self q),
                prefs_of (user_id (self q)) (memory (self q)),
                Z.min 10 (len (filter (fun c => conv_user_id c = user_id (self q))
                                  (conversations (LongTerm.memory (memory (self q)))))))
       /\ conversations (LongTerm.memory (memory (self q')))
          = conversations (LongTerm.memory (memory (self q)))) q).
  { unfold get_user_info. apply wp_bind.
    eapply wp_mono; [apply (get_user_preferences_wp w _ q eq_refl) |].
    intros r q1 (-> & _ & Huser & _ & Hconv & _). cbv beta iota.
    repeat wp_step. split; [| exact Hconv].
    rewrite Huser. do 2 f_equal.
    unfold LongTerm.get_user_history. rewrite Hconv.
    rewrite (slice_from_negative 10) by lia.
    unfold len. rewrite length_last_n. lia. }
  destruct (wp_outcome _ _ _ Hwp) as (r & q' & Hrun & -> & Hconv).
  exists q'. split; [exact Hrun | exact Hconv].
Qed.

End LongTermAgentFacts.

(** ** The capstone agent *)

Module CapstoneFacts.
Import Json Effects EffectsFacts EffectsMore Capstone.

Lemma capstone_memory_save w self : memory (_save_memory w self) = memory self.
Proof. destruct w; reflexivity. Qed.

(** The object over a store file holds what [_load_memory] returns for it. *)
Lemma new_memory_loads (f : Json.file) :
  _load_memory (Store f) = Some (memory (new_memory f)).
Proof. reflexivity. Qed.

(** [save_preference] can only fail on a record without its preferences,
    and then it changes nothing. *)
Lemma save_preference_raises w user_id key value self e :
  (save_preference w user_id key value self).1 = Raises e ->
  (exists r, users (memory self) !! user_id = Some r /\ preferences r = None)
  /\ e = Exception "KeyError" "'preferences'"
  /\ (save_preference w user_id key value self).2 = self.
Proof.
  unfold save_preference, ensure_user.
  destruct (users (memory self) !! user_id) as [r |] eqn:Hr.
  - rewrite Hr. destruct (preferences r) eqn:Hprefs; simpl; [discriminate |].
    intros [= <-]. eauto.
  - cbn [with_users memory users]. rewrite lookup_insert_eq. simpl. discriminate.
Qed.

Lemma get_user_preferences_again user_id self :
  (get_user_preferences user_id (get_user_preferences user_id self).2).1
  = (get_user_preferences user_id self).1
  /\ storage (get_user_preferences user_id self).2 = storage self
  /\ printed (get_user_preferences user_id self).2 = printed self.
Proof.
  unfold get_user_preferences, ensure_user. cbn [fst snd].
  destruct (users (memory self) !! user_id) as [r |] eqn:Hr.
  - rewrite Hr. cbn [fst snd]. rewrite Hr. auto.
  - cbn [with_users memory users storage printed fst snd]. rewrite !lookup_insert_eq.
    cbn [fst snd with_users memory users storage printed]. rewrite ?lookup_insert_eq. auto.
Qed.

(** What a [save_preference] that returns leaves behind. *)
Lemma save_preference_saved w user_id key value self x :
  (save_preference w user_id key value self).1 = Returns x ->
  (get_user_preferences user_id (save_preference w user_id key value self).2
   = (dict_set key value (get_user_preferences user_id self).1,
      (save_preference w user_id key value self).2))
  /\ (forall other, other <> user_id ->
        users (memory (save_preference w user_id key value self).2) !! other
        = users (memory self) !! other)
  /\ match w with
     | Written =>
         storage (save_preference w user_id key value self).2
         = Holds (memory (save_preference w user_id key value self).2)
         /\ printed (save_preference w user_id key value self).2 = printed self
     | OpenFails e =>
         storage (save_preference w user_id key value self).2 = storage self
         /\ printed (save_preference w user_id key value self).2
            = printed self ++ ["Error saving memory: " +:+ exc_text e]
     | DumpFails e later =>
         storage (save_preference w user_id key value self).2 = Unreadable later
         /\ printed (save_preference w user_id key value self).2
            = printed self ++ ["Error saving memory: " +:+ exc_text e]
     end.
Proof.
  assert (Hsaved : forall (u : gmap string user_record) r prefs,
            preferences r = Some prefs ->
            let saved := _save_memory w (with_users (<[user_id := r]> u) self) in
            get_user_preferences user_id saved = (prefs, saved)
            /\ (forall other, other <> user_id -> users (memory saved) !! other = u !! other)
            /\ match w with
               | Written => storage saved = Holds (memory saved) /\ printed saved = printed self
               | OpenFails e =>
                   storage saved = storage self
                   /\ printed saved = printed self ++ ["Error saving memory: " +:+ exc_text e]
               | DumpFails e later =>
                   storage saved = Unreadable later
                   /\ printed saved = printed self ++ ["Error saving memory: " +:+ exc_text e]
               end).
  { intros u r prefs Hprefs saved.
    assert (Hlookup : users (memory saved) !! user_id = Some r).
    { unfold saved. rewrite capstone_memory_save. apply lookup_insert_eq. }
    split; [| split].
    - unfold get_user_preferences, ensure_user. rewrite Hlookup. cbn [fst snd].
      rewrite Hlookup. cbn. rewrite Hprefs. reflexivity.
    - intros other Hother. unfold saved. rewrite capstone_memory_save.
      apply lookup_insert_ne. congruence.
    - unfold saved. destruct w; split; reflexivity. }
  unfold save_preference, ensure_user.
  destruct (users (memory self) !! user_id) as [r |] eqn:Hr.
  - rewrite Hr. destruct (preferences r) as [prefs |] eqn:Hprefs; [| discriminate].
    intros _. cbn [fst snd].
    replace (get_user_preferences user_id self).1 with prefs.
    + apply Hsaved. reflexivity.
    + unfold get_user_preferences, ensure_user. rewrite Hr. cbn [fst]. rewrite Hr.
      cbn. rewrite Hprefs. reflexivity.
  - cbn [with_users memory users]. rewrite !lookup_insert_eq.
    cbn [fresh_record preferences]. intros _. cbn [fst snd].
    replace (get_user_preferences user_id self).1 with (@nil (string * string)).
    + destruct (Hsaved (<[user_id := fresh_record]> (users (memory self)))
                  {| preferences := Some (dict_set key value []);
                     created_at := None; last_updated := None |}
                  (dict_set key value []) eq_refl) as (Hget & Hother & Hfile).
      unfold with_users in *. cbn [memory users conversations learned_patterns storage printed] in *.
      rewrite insert_insert_eq in *.
      split; [exact Hget |]. split; [| exact Hfile].
      intros other Hne. rewrite Hother by exact Hne.
      apply lookup_insert_ne. congruence.
    + unfold get_user_preferences, ensure_user. rewrite Hr. cbn [fst with_users memory users].
      rewrite lookup_insert_eq. reflexivity.
Qed.

Section Chat.
Context `{Runtime} (w : world).

Lemma run_tool_total (t : tool_call) : exists text, run_tool t = Returns text.
Proof.
  destruct t as [expression | text operation]; simpl.
  - unfold Calculator.execute.
    destruct (Calculator.py_eval (Calculator.sanitize expression)); simpl; eauto.
  - eauto.
Qed.

(** What one request does to the short-term log. *)
Lemma chat_history_wp message (p : process CapstoneAgent) :
  wp (chat w message)
     (fun r p' =>
        exists text,
          r = Returns text
          /\ ((Capstone.errors p' = Capstone.errors p
               /\ exists d d',
                    short_term_memory (self p')
                    = ShortTerm.add_message d' "assistant" text
                        (ShortTerm.add_message d "user" message
                           (short_term_memory (self p))))
              \/ (Capstone.errors p' = Capstone.errors p + 1
                  /\ exists d,
                       short_term_memory (self p')
                       = ShortTerm.add_message d "user" message
                           (short_term_memory (self p)))
              \/ (Capstone.errors p' = Capstone.errors p + 1
                  /\ short_term_memory (self p') = short_term_memory (self p)
                  /\ text = "Error: 'preferences'"
                  /\ is_Some (_extract_preference message)
                  /\ exists r, users (memory (long_term_memory (self p))) !! user_id (self p)
                               = Some r /\ preferences r = None)))
     p.
Proof.
  unfold chat, chat_body, chat_handler, log.
  repeat wp_step.
  all: try match goal with
           | Hr : run_tool ?t = Raises _ |- _ =>
               destruct (run_tool_total t) as [? ?]; congruence
           end.
  all: unfold Capstone.errors;
    cbn [self used metrics on_metrics on_short_term on_long_term set_request_id
         append_log record_request requests_error short_term_memory long_term_memory
         user_id] in *;
    rewrite ?ShortTermAgentFacts.get_recent_context_same.
  all: eexists; split; [reflexivity |].
  all: first
    [ left; split; [reflexivity |]; do 2 eexists; reflexivity
    | right; left; split; [reflexivity |]; eexists; reflexivity
    | right; right; split; [reflexivity |];
      match goal with
      | Hr : (save_preference _ _ _ _ _).1 = Raises _ |- _ =>
          apply save_preference_raises in Hr as (Hrec & -> & _)
      end;
      split; [reflexivity |]; split; [reflexivity |]; split; [eauto | exact Hrec] ].
Qed.

(** What one request does to the long-term store. *)
Lemma chat_store_wp message (p : process CapstoneAgent) :
  wp (chat w message)
     (fun _ p' =>
        user_id (self p') = user_id (self p)
        /\ match _extract_preference message with
           | None =>
               storage (CapstoneRun.store_of p') = storage (CapstoneRun.store_of p)
               /\ printed (CapstoneRun.store_of p') = printed (CapstoneRun.store_of p)
               /\ (get_user_preferences (user_id (self p)) (CapstoneRun.store_of p')).1
                  = (get_user_preferences (user_id (self p)) (CapstoneRun.store_of p)).1
           | Some (key, value) =>
               (forall r, CapstoneRun.own_record p = Some r -> preferences r <> None) ->
               (get_user_preferences (user_id (self p)) (CapstoneRun.store_of p')).1
               = dict_set key value
                   (get_user_preferences (user_id (self p)) (CapstoneRun.store_of p)).1
               /\ In (LogRecord "INFO" "Preference saved"
                        [("key", Observability.VStr key);
                         ("value", Observability.VStr value)])
                     (logger (self p'))
               /\ ((storage (CapstoneRun.store_of p')
                    = Holds (memory (CapstoneRun.store_of p'))
                    /\ printed (CapstoneRun.store_of p') = printed (CapstoneRun.store_of p))
                   \/ exists e,
                        printed (CapstoneRun.store_of p')
                        = printed (CapstoneRun.store_of p)
                          ++ ["Error saving memory: " +:+ exc_text e])
           end)
     p.
Proof.
  unfold chat, chat_body, chat_handler, log.
  repeat wp_step.
  all: unfold CapstoneRun.store_of, CapstoneRun.own_record, CapstoneRun.store_of;
    cbn [self used metrics on_metrics on_short_term on_long_term set_request_id
         append_log short_term_memory long_term_memory user_id logger] in *.
  all: split; [reflexivity |].
  all: try (destruct (get_user_preferences_again (user_id (self p))
                        (long_term_memory (self p))) as (Hagain & Hfile & Hout);
            split; [exact Hfile | split; [exact Hout | exact Hagain]]).
  all: intros Husable.
  all: try match goal with
           | Hr : (save_preference _ _ _ _ _).1 = Raises _ |- _ =>
               apply save_preference_raises in Hr as ((r & Hr & Hprefs) & _);
               exfalso; exact (Husable r Hr Hprefs)
           end.
  all: match goal with
       | Hr : (save_preference ?o _ _ _ _).1 = Returns _ |- _ =>
           apply save_preference_saved in Hr as (Hget & _ & Hfile);
           rewrite ?Hget; cbn [fst snd];
           destruct o
       end.
  all: rewrite ?Hget; cbn [fst snd].
  all: split; [reflexivity |].
  all: split; [repeat (rewrite in_app_iff); simpl; tauto |].
  all: first [left; exact Hfile | right; eexists; exact (proj2 Hfile)].
Qed.

Lemma length_add_message now r c self :
  1 <= ShortTerm.max_history self ->
  len (ShortTerm.conversation_history (ShortTerm.add_message now r c self))
  <= Z.min (2 * ShortTerm.max_history self)
           (len (ShortTerm.conversation_history self) + 1).
Proof.
  intros Hcap. rewrite ShortTermFacts.add_message_last_n by exact Hcap.
  unfold len. rewrite length_last_n, length_app. simpl. lia.
Qed.

(** A run of requests: the replies, the size of the short-term log and the
    number of samples recorded. *)
Lemma capstone_session_wp messages : forall (p : process CapstoneAgent),
  1 <= ShortTerm.max_history (CapstoneRun.log_of p) ->
  len (ShortTerm.conversation_history (CapstoneRun.log_of p))
  <= 2 * ShortTerm.max_history (CapstoneRun.log_of p) ->
  wp (session w messages)
     (fun r p' =>
        exists replies,
          r = Returns replies
          /\ length replies = length messages
          /\ ShortTerm.max_history (CapstoneRun.log_of p')
             = ShortTerm.max_history (CapstoneRun.log_of p)
          /\ len (ShortTerm.conversation_history (CapstoneRun.log_of p'))
             <= Z.min (2 * ShortTerm.max_history (CapstoneRun.log_of p))
                      (len (ShortTerm.conversation_history (CapstoneRun.log_of p))
                       + 2 * len messages)
          /\ Capstone.total p + len messages <= Capstone.total p'
             <= Capstone.total p + 2 * len messages)
     p.
Proof.
  induction messages as [| message messages IH]; intros p Hcap Hfit.
  - simpl. apply wp_ret. exists []. unfold len in *. simpl.
    split; [reflexivity |]. split; [reflexivity |]. split; [reflexivity |].
    split; lia.
  - cbn [session]. apply wp_bind.
    eapply wp_mono;
      [apply (wp_both _ _ _ _ (chat_history_wp message p)
                (ChatFacts.capstone_chat_total_wp w message p)) |].
    intros r p1 ((text & -> & Hlog) & (_ & _ & Htotal)). cbv beta iota.
    assert (Hstep : ShortTerm.max_history (CapstoneRun.log_of p1)
                    = ShortTerm.max_history (CapstoneRun.log_of p)
                    /\ len (ShortTerm.conversation_history (CapstoneRun.log_of p1))
                       <= Z.min (2 * ShortTerm.max_history (CapstoneRun.log_of p))
                                (len (ShortTerm.conversation_history (CapstoneRun.log_of p))
                                 + 2)).
    { unfold CapstoneRun.log_of in *.
      destruct Hlog as [(_ & d & d' & ->) | [(_ & d & ->) | (_ & -> & _)]].
      - split; [reflexivity |].
        pose proof (length_add_message d "user" message _ Hcap).
        pose proof (length_add_message d' "assistant" text
                      (ShortTerm.add_message d "user" message
                         (short_term_memory (self p))) Hcap) as Hsecond.
        cbn [ShortTerm.add_message ShortTerm.max_history] in Hsecond.
        lia.
      - split; [reflexivity |].
        pose proof (length_add_message d "user" message _ Hcap). lia.
      - split; [reflexivity | lia]. }
    destruct Hstep as [Hcap1 Hsize1].
    apply wp_bind. eapply wp_mono; [apply (IH p1); lia |].
    intros r p2 (replies & -> & Hlen & Hcap2 & Hsize & Htotal2). cbv beta iota.
    apply wp_ret. exists (text :: replies).
    split; [reflexivity |]. split; [simpl; lia |]. split; [congruence |].
    rewrite Hcap1 in Hsize. unfold len in *. cbn [length]. split; lia.
Qed.

(** What one request of the capstone agent leaves in the short-term log.
    [chat] returns a text, and one of three things happened.  The request
    succeeded: the log gained the user's message and then the reply, and no
    error was counted.  The request failed after the message was logged: the
    log gained the user's message alone, with no reply after it, and one
    error was counted.  Or saving the preference raised [KeyError], which is
    only possible when the user's record has no ["preferences"] key: the log
    is as before and one error was counted. *)
Theorem chat_logs_reply_on_success (message : string) (p : process CapstoneAgent) :
  exists text p',
    chat w message p = (Returns text, p')
    /\ ((Capstone.errors p' = Capstone.errors p
         /\ exists d d',
              CapstoneRun.log_of p'
              = ShortTerm.add_message d' "assistant" text
                  (ShortTerm.add_message d "user" message (CapstoneRun.log_of p)))
        \/ (Capstone.errors p' = Capstone.errors p + 1
            /\ exists d,
                 CapstoneRun.log_of p'
                 = ShortTerm.add_message d "user" message (CapstoneRun.log_of p))
        \/ (Capstone.errors p' = Capstone.errors p + 1
            /\ CapstoneRun.log_of p' = CapstoneRun.log_of p
            /\ text = "Error: 'preferences'"
            /\ is_Some (_extract_preference message)
            /\ exists r, CapstoneRun.own_record p = Some r /\ preferences r = None)).
Proof.
  destruct (wp_outcome _ _ _ (chat_history_wp message p))
    as (r & p' & Hrun & text & -> & Hcases).
  exists text, p'. split; [exact Hrun | exact Hcases].
Qed.

(** A preference found in the message is stored whatever happens next.  When
    the user's record, if there is one, has its preferences: after [chat] the
    key holds the value, the other keys are as before, the save is logged,
    and either the file holds exactly the store in memory or the failed write
    was printed. *)
Theorem chat_saves_preference (message key value : string) (p : process CapstoneAgent) :
  _extract_preference message = Some (key, value) ->
  (forall r, CapstoneRun.own_record p = Some r -> preferences r <> None) ->
  let p' := (chat w message p).2 in
  let before := (get_user_preferences (user_id (self p)) (CapstoneRun.store_of p)).1 in
  let after := (get_user_preferences (user_id (self p)) (CapstoneRun.store_of p')).1 in
  dict_get key after = Some value
  /\ (forall other, other <> key -> dict_get other after = dict_get other before)
  /\ In (LogRecord "INFO" "Preference saved"
           [("key", Observability.VStr key); ("value", Observability.VStr value)])
        (logger (self p'))
  /\ ((storage (CapstoneRun.store_of p') = Holds (memory (CapstoneRun.store_of p'))
       /\ printed (CapstoneRun.store_of p') = printed (CapstoneRun.store_of p))
      \/ exists e,
           printed (CapstoneRun.store_of p')
           = printed (CapstoneRun.store_of p) ++ ["Error saving memory: " +:+ exc_text e]).
Proof.
  intros Hmessage Husable p' before after.
  pose proof (chat_store_wp message p) as Hwp. unfold wp in Hwp.
  rewrite Hmessage in Hwp. destruct Hwp as [_ Hwp].
  destruct (Hwp Husable) as (Hafter & Hlog & Hfile).
  fold p' in Hafter, Hlog, Hfile. fold before after in Hafter.
  split; [rewrite Hafter; apply dict_get_set_eq |].
  split; [intros other Hother; rewrite Hafter; apply dict_get_set_ne; congruence |].
  split; [exact Hlog | exact Hfile].
Qed.

(** A request whose message carries no preference never writes the memory
    file and prints nothing about it, and the user's preferences are as they
    were. *)
Theorem chat_without_preference_keeps_file (message : string) (p : process CapstoneAgent) :
  _extract_preference message = None ->
  let p' := (chat w message p).2 in
  storage (CapstoneRun.store_of p') = storage (CapstoneRun.store_of p)
  /\ printed (CapstoneRun.store_of p') = printed (CapstoneRun.store_of p)
  /\ (get_user_preferences (user_id (self p)) (CapstoneRun.store_of p')).1
     = (get_user_preferences (user_id (self p)) (CapstoneRun.store_of p)).1.
Proof.
  intros Hmessage p'.
  pose proof (chat_store_wp message p) as Hwp. unfold wp in Hwp.
  rewrite Hmessage in Hwp. exact (proj2 Hwp).
Qed.

(** One request records one sample when no tool is selected, two when a
    tool is selected and no preference is saved first, and one or two in
    every case. *)
Theorem chat_records_one_or_two_samples (message : string) (p : process CapstoneAgent) :
  (_select_tool message = None ->
   Capstone.total (chat w message p).2 = Capstone.total p + 1)
  /\ (_select_tool message <> None -> _extract_preference message = None ->
      Capstone.total (chat w message p).2 = Capstone.total p + 2)
  /\ Capstone.total p + 1 <= Capstone.total (chat w message p).2 <= Capstone.total p + 2.
Proof.
  pose proof (ChatFacts.capstone_chat_total_wp w message p) as Hwp.
  unfold wp in Hwp. exact Hwp.
Qed.

(** The report after a run of requests on a new agent over a store file: a
    memory file that is missing, that cannot be read, or that holds a store
    with its ["users"] (over a foreign file, one without ["users"], the
    report raises [KeyError] and is not covered).  Every request returned a
    text; the report has statistics, whose request count lies between the
    number of requests and twice that number; and the conversation turns it
    reports are at most ten and at most the number of requests. *)
Theorem capstone_report_after_session (f : Json.file) (uid : string)
    (messages : list string) :
  messages <> [] ->
  let run := session w messages (Process (new f uid) no_ticks) in
  let report := (get_observability_report (self run.2)).1 in
  (exists replies, run.1 = Returns replies /\ length replies = length messages)
  /\ (exists r, report_metrics report = Stats r
                /\ len messages <= total_requests r <= 2 * len messages)
  /\ 0 <= report_conversation_turns report <= Z.min 10 (len messages).
Proof.
  intros Hmessages run report.
  assert (Hmany : 1 <= len messages).
  { unfold len. destruct messages; [congruence | simpl; lia]. }
  pose proof (capstone_session_wp messages (Process (new f uid) no_ticks)
                ltac:(simpl; lia) ltac:(unfold len; simpl; lia)) as Hwp.
  unfold wp in Hwp. fold run in Hwp.
  destruct Hwp as (replies & Hrun & Hlen & _ & Hsize & Htotal).
  change (Capstone.total (Process (new f uid) no_ticks)) with 0 in Htotal.
  change (ShortTerm.max_history (CapstoneRun.log_of (Process (new f uid) no_ticks)))
    with 10 in Hsize.
  change (len (ShortTerm.conversation_history
                 (CapstoneRun.log_of (Process (new f uid) no_ticks)))) with 0 in Hsize.
  split; [eauto |]. split.
  - unfold report, get_observability_report, get_stats. cbn [fst report_metrics].
    unfold Capstone.total in Htotal.
    destruct (Z.eqb_spec (requests_total (metrics (self run.2))) 0) as [Hzero | _];
      [lia |].
    cbn [fst]. eexists. split; [reflexivity |]. cbn [total_requests]. lia.
  - unfold report, get_observability_report. cbn [fst report_conversation_turns].
    cbn [on_long_term on_metrics short_term_memory].
    unfold CapstoneRun.log_of in Hsize.
    split; [apply Z.div_pos; unfold len; lia |].
    apply Z.div_le_upper_bound; lia.
Qed.

End Chat.

(** [save_preference] and [get_user_preferences] of the capstone store, when
    the user's record, if there is one, has its preferences: the save
    returns, the key then holds the value and the other keys what they held,
    the other users are untouched, reading changes nothing more, and after a
    write that succeeds a store opened on the file has the same content. *)
Theorem save_preference_then_get (w : write_outcome) (uid key value : string)
    (self : LongTermMemory) :
  (forall r, users (memory self) !! uid = Some r -> preferences r <> None) ->
  let saved := save_preference w uid key value self in
  let read := get_user_preferences uid saved.2 in
  saved.1 = Returns ()
  /\ dict_get key read.1 = Some value
  /\ (forall other, other <> key ->
        dict_get other read.1 = dict_get other (get_user_preferences uid self).1)
  /\ (forall other, other <> uid ->
        users (memory saved.2) !! other = users (memory self) !! other)
  /\ read.2 = saved.2
  /\ (w = Written -> memory (new_memory (storage saved.2)) = memory saved.2).
Proof.
  intros Husable saved read.
  assert (Hreturns : saved.1 = Returns ()).
  { destruct saved.1 as [[] | e] eqn:Hsaved; [reflexivity |].
    apply save_preference_raises in Hsaved as ((r & Hr & Hprefs) & _).
    exfalso. exact (Husable r Hr Hprefs). }
  destruct (save_preference_saved w uid key value self () Hreturns)
    as (Hget & Hothers & Hfile).
  fold saved in Hget, Hothers, Hfile. fold read in Hget.
  split; [exact Hreturns |].
  split; [rewrite Hget; apply dict_get_set_eq |].
  split; [intros other Hother; rewrite Hget; apply dict_get_set_ne; congruence |].
  split; [exact Hothers |].
  split; [rewrite Hget; reflexivity |].
  intros ->. destruct Hfile as [-> _]. reflexivity.
Qed.

(** The text tool is only ever asked for an operation it knows.  When
    [_select_tool] picks the text processor, it hands it the whole query and
    one of the five operations, so the tool's answer is never its
    ["Unknown operation"] text. *)
Theorem select_tool_text_operation_known (query text operation : string) :
  _select_tool query = Some (UseTextProcessor text operation) ->
  text = query
  /\ In operation ["count_chars"; "reverse"; "uppercase"; "lowercase"; "count_words"]
  /\ TextProcessor.execute text operation <> "Unknown operation: " +:+ operation.
Proof.
  unfold _select_tool.
  destruct (any_in _ _); [discriminate |].
  destruct (any_in _ _); [| discriminate].
  destruct (contains "characters" _);
    [| destruct (contains "reverse" _);
       [| destruct (contains "uppercase" _);
          [| destruct (contains "lowercase" _)]]].
  all: intros [= <- <-]; split; [reflexivity |]; split; [simpl; tauto |].
  all: unfold TextProcessor.execute; cbn [String.eqb Ascii.eqb Bool.eqb];
    cbv beta iota; cbn [String.app]; discriminate.
Qed.

Lemma chat_saves_preference_witness :
  _extract_preference "I like Python" = Some ("favorite_language", "Python")
  /\ dict_get "favorite_language"
       (get_user_preferences "alice"
          (CapstoneRun.store_of
             (@chat plain_runtime silent_world "I like Python"
                (Process (new Missing "alice") no_ticks)).2)).1
     = Some "Python".
Proof.
  split; [reflexivity |].
  refine (proj1 (@chat_saves_preference plain_runtime silent_world "I like Python"
                   "favorite_language" "Python"
                   (Process (new Missing "alice") no_ticks) eq_refl _)).
  intros r Hr. cbn in Hr. rewrite lookup_empty in Hr. discriminate.
Defined.

Lemma chat_without_preference_keeps_file_witness :
  _extract_preference "hello" = None
  /\ storage (CapstoneRun.store_of
                (@chat plain_runtime silent_world "hello"
                   (Process (new Missing "alice") no_ticks)).2)
     = Missing.
Proof.
  split; [reflexivity |].
  exact (proj1 (@chat_without_preference_keeps_file plain_runtime silent_world "hello"
                  (Process (new Missing "alice") no_ticks) eq_refl)).
Defined.

Lemma capstone_report_after_session_witness :
  ["hello"] <> @nil string
  /\ 0 <= report_conversation_turns
            (@get_observability_report plain_runtime
               (self (@session plain_runtime silent_world ["hello"]
                        (Process (new Missing "alice") no_ticks)).2)).1
     <= Z.min 10 (len ["hello"]).
Proof.
  assert (Hmessages : ["hello"] <> @nil string) by discriminate.
  split; [exact Hmessages |].
  exact (proj2 (proj2 (@capstone_report_after_session plain_runtime silent_world
                         Missing "alice" ["hello"] Hmessages))).
Defined.

Lemma save_preference_then_get_witness :
  (forall r, users (memory (new_memory Missing)) !! "alice" = Some r -> preferences r <> None)
  /\ dict_get "favorite_language"
       (get_user_preferences "alice"
          (save_preference Written "alice" "favorite_language" "Python"
             (new_memory Missing)).2).1
     = Some "Python".
Proof.
  assert (Husable : forall r, users (memory (new_memory Missing)) !! "alice" = Some r ->
                              preferences r <> None).
  { intros r Hr. cbn in Hr. rewrite lookup_empty in Hr. discriminate. }
  split; [exact Husable |].
  exact (proj1 (proj2 (save_preference_then_get Written "alice" "favorite_language"
                         "Python" (new_memory Missing) Husable))).
Defined.

Lemma select_tool_text_operation_known_witness :
  _select_tool "reverse hello" = Some (UseTextProcessor "reverse hello" "reverse")
  /\ In "reverse" ["count_chars"; "reverse"; "uppercase"; "lowercase"; "count_words"].
Proof.
  split; [reflexivity |].
  exact (proj1 (proj2 (select_tool_text_operation_known "reverse hello" "reverse hello"
                         "reverse" eq_refl))).
Defined.

End CapstoneFacts.

(** ** The evaluation harness *)

Module EvaluationFacts.
Import Effects EffectsFacts EffectsMore Capstone Evaluation.

Lemma wp_on_agent {R} (m : action CapstoneAgent R) (Q : result R -> process harness -> Prop)
    (p : process harness) :
  wp m (fun r q => Q r (Process {| agent := self q; stdout := stdout (self p) |} (used q)))
     (Process (agent (self p)) (used p)) ->
  wp (on_agent m) Q p.
Proof. exact (fun H => H). Qed.

Section Tests.
Context `{Runtime} `{Builtins} (w : world).

(** [chat] returns, and records one or two samples. *)
Lemma chat_returns_wp message (q : process CapstoneAgent) :
  wp (chat w message)
     (fun r q' =>
        (exists text, r = Returns text)
        /\ Capstone.total q + 1 <= Capstone.total q' <= Capstone.total q + 2)
     q.
Proof.
  eapply wp_mono;
    [apply (wp_both _ _ _ _ (ChatFacts.capstone_chat_wp w message q)
              (ChatFacts.capstone_chat_total_wp w message q)) |].
  intros r q' ((text & -> & _) & (_ & _ & Htotal)). eauto.
Qed.

Lemma test_observability_wp (h : process harness) :
  0 <= requests_total (metrics (agent (self h))) ->
  wp (test_observability w)
     (fun r h' =>
        exists result,
          r = Returns result
          /\ passed result = true
          /\ metrics_available result = true
          /\ metrics_have_data result = true
          /\ stdout (self h') = stdout (self h) ++ ["Testing Observability..."])
     h.
Proof.
  intros Htotal. unfold test_observability, print.
  wp_step. wp_step. wp_step.
  apply wp_on_agent. eapply wp_mono; [apply chat_returns_wp |].
  intros r q1 ((text1 & ->) & Htotal1). cbv beta iota. cbn [self used agent stdout].
  wp_step. apply wp_on_agent. eapply wp_mono; [apply chat_returns_wp |].
  intros r q2 ((text2 & ->) & Htotal2). cbv beta iota. cbn [self used agent stdout].
  wp_step. apply wp_on_agent. apply wp_call. cbn [self used agent stdout].
  wp_step.
  unfold Capstone.total in *. cbn [self agent] in *.
  assert (Hdata : has_data (report_metrics (get_observability_report (self q2)).1) = true).
  { unfold get_observability_report, get_stats. cbn [fst report_metrics].
    destruct (Z.eqb_spec (requests_total (metrics (self q2))) 0) as [Hzero | _]; [lia |].
    cbn [fst has_data total_requests]. apply Z.ltb_lt. lia. }
  eexists. split; [reflexivity |].
  cbn [passed metrics_available metrics_have_data]. rewrite Hdata. auto.
Qed.

(** The loop: every query is answered and timed, and each time is the
    difference of two readings of the clock. *)
Lemma measure_wp todo : forall times successes (h : process harness),
  wp (measure w todo times successes)
     (fun r h' =>
        exists new,
          r = Returns (times ++ map Some new, successes + len todo)
          /\ length new = length todo
          /\ Forall (fun t => exists i j,
                       t = PrimFloat.sub (time_time w i) (time_time w j)) new
          /\ stdout (self h') = stdout (self h))
     h.
Proof.
  induction todo as [| query todo IH]; intros times successes h.
  - simpl. apply wp_ret. exists []. rewrite app_nil_r. unfold len. simpl.
    rewrite Z.add_0_r. auto.
  - cbn [measure]. apply wp_bind. apply wp_now_reading. intros k u.
    apply wp_bind. apply wp_try. apply wp_bind. apply wp_on_agent.
    eapply wp_mono; [apply chat_returns_wp |].
    intros r q1 ((text & ->) & _). cbv beta iota. cbn [self used agent stdout].
    apply wp_bind. apply wp_now_reading. intros k' u'. apply wp_ret.
    cbn [fst snd].
    eapply wp_mono; [apply IH |].
    intros r h' (new & -> & Hlen & Htimes & Hout). cbv beta iota.
    exists (PrimFloat.sub (time_time w k') (time_time w k) :: new).
    split; [| split; [| split]].
    + f_equal. f_equal; [rewrite <- app_assoc; reflexivity | unfold len; cbn [length]; lia].
    + simpl. lia.
    + constructor; [eauto | exact Htimes].
    + exact Hout.
Qed.

Lemma rate_all (n : Z) :
  1 <= n <= 5 -> Evaluation.rate n n = Returns 100%float.
Proof.
  intros Hn.
  assert (Hcases : n = 1 \/ n = 2 \/ n = 3 \/ n = 4 \/ n = 5) by lia.
  destruct Hcases as [-> | [-> | [-> | [-> | ->]]]]; vm_compute; reflexivity.
Qed.

Lemma slice_to_queries (n : Z) :
  1 <= n <= 5 -> len (slice_to n queries) = n.
Proof.
  intros Hn.
  assert (Hcases : n = 1 \/ n = 2 \/ n = 3 \/ n = 4 \/ n = 5) by lia.
  destruct Hcases as [-> | [-> | [-> | [-> | ->]]]]; reflexivity.
Qed.

Lemma test_performance_wp (n : Z) (h : process harness) :
  wp (test_performance w n)
     (fun r h' =>
        match r with
        | Returns result =>
            n <> 0
            /\ exists times,
                 response_times result = map Some times
                 /\ length times = length (slice_to n queries)
                 /\ (times = [] \/ Exists (fun t => truth (Some t) = true) times)
                 /\ (1 <= n <= 5 -> success_rate result = format_1f 100%float +:+ "%")
        | Raises e => e = Exception "ZeroDivisionError" "division by zero"
        end)
     h.
Proof.
  unfold test_performance, print.
  wp_step. wp_step. wp_step.
  eapply wp_mono; [apply measure_wp |].
  intros r h' (times & -> & Hlen & _ & _). cbv beta iota. cbn [fst snd app].
  apply wp_bind, wp_lift.
  destruct (average (map Some times)) as [avg | e] eqn:Havg.
  - cbv beta iota. apply wp_bind, wp_lift. unfold Evaluation.rate at 1.
    destruct (Z.eqb_spec n 0) as [-> | Hn]; [reflexivity |].
    cbv beta iota. apply wp_ret. split; [exact Hn |].
    exists times. cbn [response_times success_rate].
    split; [reflexivity |]. split; [exact Hlen |]. split.
    + destruct times as [| t times]; [left; reflexivity | right].
      unfold average in Havg. cbn [map] in Havg.
      destruct (omap _ (Some t :: map Some times)) as [| c counted] eqn:Hcounted;
        [discriminate |].
      assert (Hc : c ∈ omap (fun t => if truth t then t else None)
                            (map Some (t :: times))).
      { cbn [map]. rewrite Hcounted. apply list_elem_of_here. }
      apply list_elem_of_omap in Hc as (x & Hx & Htruth).
      apply list_elem_of_fmap in Hx as (y & -> & Hy).
      apply Exists_exists. exists y. split; [exact Hy |].
      destruct (truth (Some y)); [reflexivity | discriminate].
    + intros Hrange.
      pose proof (rate_all n Hrange) as Hrate. unfold Evaluation.rate in Hrate.
      destruct (Z.eqb_spec n 0) as [-> | _]; [lia |].
      rewrite Z.add_0_l, (slice_to_queries n Hrange).
      injection Hrate as ->. reflexivity.
  - cbv beta iota. unfold average in Havg.
    destruct (map Some times); [discriminate |].
    destruct (omap _ _); [| discriminate]. congruence.
Qed.

(** [test_observability] on an agent whose memory is a store, with its
    ["users"] (on an agent over a foreign file the report inside the test
    raises [KeyError]; that agent is not covered), and whose request count is
    not negative.  Whatever the model answers and whether or not the memory
    file can be written, the test returns, its three flags are true, and it
    printed its one line: on such an agent it cannot fail. *)
Theorem test_observability_always_passes (h : process harness) :
  0 <= requests_total (metrics (agent (self h))) ->
  exists result h',
    test_observability w h = (Returns result, h')
    /\ passed result = true
    /\ metrics_available result = true
    /\ metrics_have_data result = true
    /\ stdout (self h') = stdout (self h) ++ ["Testing Observability..."].
Proof.
  intros Htotal.
  destruct (wp_outcome _ _ _ (test_observability_wp h Htotal))
    as (r & h' & Hrun & result & -> & Hrest).
  exists result, h'. split; [exact Hrun | exact Hrest].
Qed.

(** The outcomes of [test_performance].  When it returns, the number of
    queries asked for is not zero, every query of the slice was answered and
    timed (a request never raises, so no entry is [None]), some measured time
    is not zero unless no query was run, and for one to five queries the
    success rate is the [.1f] text of 100.  When it raises, it raises
    [ZeroDivisionError].  With zero queries it always raises, having run no
    request and printed its one line. *)
Theorem test_performance_outcome (n : Z) (h : process harness) :
  match (test_performance w n h).1 with
  | Returns result =>
      n <> 0
      /\ exists times,
           response_times result = map Some times
           /\ length times = length (slice_to n queries)
           /\ (times = [] \/ Exists (fun t => truth (Some t) = true) times)
           /\ (1 <= n <= 5 -> success_rate result = format_1f 100%float +:+ "%")
  | Raises e => e = Exception "ZeroDivisionError" "division by zero"
  end
  /\ test_performance w 0 h
     = (Raises (Exception "ZeroDivisionError" "division by zero"),
        Process {| agent := agent (self h);
                   stdout := stdout (self h)
                             ++ ["Testing Performance (" +:+ str_int 0 +:+ " queries)..."] |}
                (used h)).
Proof.
  split; [exact (test_performance_wp n h) | reflexivity].
Qed.

(** A clock that does not advance.  When every difference of two clock
    readings is zero and at least one query is asked for, [test_performance]
    raises [ZeroDivisionError]: all the measured times are filtered out of
    the average as false, and the sum is divided by a count of zero. *)
Theorem test_performance_frozen_clock (n : Z) (h : process harness) :
  (forall i j, PrimFloat.eqb (PrimFloat.sub (time_time w i) (time_time w j)) 0%float = true) ->
  1 <= n ->
  (test_performance w n h).1 = Raises (Exception "ZeroDivisionError" "division by zero").
Proof.
  intros Hfrozen Hn.
  assert (Hwp : wp (test_performance w n)
                   (fun r _ => r = Raises (Exception "ZeroDivisionError" "division by zero"))
                   h); [| exact Hwp].
  unfold test_performance, print.
  wp_step. wp_step. wp_step.
  eapply wp_mono; [apply measure_wp |].
  intros r h' (times & -> & Hlen & Htimes & _). cbv beta iota. cbn [fst snd app].
  apply wp_bind, wp_lift.
  assert (Hnone : omap (fun t => if truth t then t else None) (map Some times) = []).
  { clear Hlen. induction Htimes as [| t times (i & j & ->) _ IH]; [reflexivity |].
    cbn [map omap list_omap truth]. rewrite Hfrozen. cbn [negb]. exact IH. }
  assert (Hsome : times <> []).
  { intros ->. simpl in Hlen.
    assert (Hsliced : slice_to n queries <> []).
    { unfold slice_to. destruct (Z.ltb_spec n 0) as [? | _]; [lia |].
      change (len queries) with 5.
      destruct (Z.to_nat (Z.min n 5)) as [| k] eqn:Hk; [lia | discriminate]. }
    destruct (slice_to n queries); [congruence | discriminate]. }
  unfold average. destruct times as [| t times]; [congruence |].
  cbn [map] in *. rewrite Hnone. reflexivity.
Qed.

End Tests.

Lemma test_observability_always_passes_witness :
  0 <= requests_total (metrics (agent (Harness (new Json.Missing "test_user") [])))
  /\ exists result h',
       @test_observability plain_runtime silent_world
         (Process (Harness (new Json.Missing "test_user") []) no_ticks)
       = (Returns result, h')
       /\ passed result = true.
Proof.
  assert (Htotal : 0 <= requests_total
                          (metrics (agent (Harness (new Json.Missing "test_user") []))))
    by (simpl; lia).
  split; [exact Htotal |].
  destruct (@test_observability_always_passes plain_runtime silent_world
              (Process (Harness (new Json.Missing "test_user") []) no_ticks) Htotal)
    as (result & h' & Hrun & Hpassed & _).
  exists result, h'. split; [exact Hrun | exact Hpassed].
Defined.

Lemma test_performance_frozen_clock_witness :
  (forall i j : nat,
     PrimFloat.eqb (PrimFloat.sub (time_time silent_world i) (time_time silent_world j))
                   0%float = true)
  /\ (@test_performance plain_runtime plain_builtins silent_world 5
        (Process (Harness (new Json.Missing "test_user") []) no_ticks)).1
     = Raises (Exception "ZeroDivisionError" "division by zero").
Proof.
  assert (Hfrozen : forall i j : nat,
             PrimFloat.eqb (PrimFloat.sub (time_time silent_world i)
                                          (time_time silent_world j)) 0%float = true)
    by (intros i j; reflexivity).
  split; [exact Hfrozen |].
  exact (@test_performance_frozen_clock plain_runtime plain_builtins silent_world 5
           (Process (Harness (new Json.Missing "test_user") []) no_ticks)
           Hfrozen ltac:(lia)).
Defined.

End EvaluationFacts.
